(** * Patient-aware feature aggregation, splitting and normalisation

    A shallow embedding of the data-wrangling cells of the replication
    notebooks: the tabular notebook (feature-name discovery, aggregation of
    the mean/std statistic tables) and the imaging notebook (patient-level
    train/test split, masking, cropping and stacking of feature maps, and
    the two-pass normalisation).

    Conventions.
    - A notebook cell that may raise is a function into [result]; the
      constructors of [exn] are the Python exceptions the cell can raise.
    - Floating-point values are modelled by exact rationals [Q], so
      rounding is left out; the non-finite floats occur in freshly loaded
      feature volumes ([fval]), where [nan_to_num] removes them as NumPy
      does, and mask volumes are taken to hold finite values.
    - NumPy arrays are nested lists in the index order of the source:
      a 2-D map is [rows][columns], a sample tensor is
      [rows][columns][channels], a data set is a list of sample tensors.
    - Python dictionaries are [gmap]s. *)

From Stdlib Require Import Ascii String ZArith QArith Qabs Qminmax Qround Lqa Lia.
From stdpp Require Import base option list sorting gmap strings pretty.

Local Open Scope string_scope.
Local Open Scope list_scope.

(** ** Python exceptions and fallible cells *)

Module Py.

Inductive exn : Type :=
| ValueError (msg : string)
| KeyError
| IndexError
| AttributeError
| AssertionError
| StopIteration.

Inductive result (A : Type) : Type :=
| Ok (a : A)
| Raise (e : exn).
Arguments Ok {A} a.
Arguments Raise {A} e.

Definition bind {A B : Type} (r : result A) (k : A -> result B) : result B :=
  match r with
  | Ok a => k a
  | Raise e => Raise e
  end.

Definition of_option {A : Type} (e : exn) (o : option A) : result A :=
  match o with
  | Some a => Ok a
  | None => Raise e
  end.

Definition is_ok {A : Type} (r : result A) : Prop :=
  match r with Ok _ => True | Raise _ => False end.

Definition is_okb {A : Type} (r : result A) : bool :=
  match r with Ok _ => true | Raise _ => false end.

(** [next(iterator)] on the items a glob yields. *)
Definition next {A : Type} (items : list A) : result A :=
  of_option StopIteration (head items).

(** [list(...)[0]]. *)
Definition first_item {A : Type} (items : list A) : result A :=
  of_option IndexError (head items).

End Py.

Notation "'let*' x ':=' r 'in' k" := (Py.bind r (fun x => k))
  (at level 10, x name, r at level 200, k at level 200, only parsing).

(** ** The regular expressions of the notebooks

    Both notebooks extract a feature name with a pattern of the form
    [(?<=PRE).+(?=\.nii\.gz)]: a look-behind for a literal prefix, a greedy
    non-empty run of characters other than newline, and a look-ahead for
    the literal file suffix. *)

Module Re.

Definition is_newline (c : ascii) : bool := Ascii.eqb c "010"%char.

Fixpoint drop (n : nat) (s : string) : string :=
  match n, s with
  | O, _ => s
  | S n', String _ s' => drop n' s'
  | S _, EmptyString => EmptyString
  end.

(** [.+(?=SUF)] anchored at the start of [t]: the longest non-empty
    newline-free prefix of [t] that is followed by [suf]. *)
Fixpoint dot_plus_until (suf t : string) : option string :=
  match t with
  | EmptyString => None
  | String c t' =>
      if is_newline c then None
      else match dot_plus_until suf t' with
           | Some m => Some (String c m)
           | None =>
               if String.prefix suf t' then Some (String c EmptyString)
               else None
           end
  end.

(** [re.search('(?<=PRE).+(?=SUF)', s)]: [None] when there is no match,
    otherwise [.group()] of the leftmost match. *)
Fixpoint search (pre suf s : string) : option string :=
  let here :=
    if String.prefix pre s then dot_plus_until suf (drop (String.length pre) s)
    else None in
  match here with
  | Some m => Some m
  | None =>
      match s with
      | EmptyString => None
      | String _ s' => search pre suf s'
      end
  end.

Fixpoint no_newline (s : string) : bool :=
  match s with
  | EmptyString => true
  | String c s' => negb (is_newline c) && no_newline s'
  end.

(** What it means for a file name to follow the naming convention: it
    contains the prefix marker, then a non-empty feature name on one line,
    then the file suffix. *)
Definition follows_convention (pre suf s : string) : Prop :=
  exists a m b,
    s = a +:+ pre +:+ m +:+ suf +:+ b /\ m <> EmptyString /\ no_newline m = true.

(** [fnmatch] of a name against the glob pattern [*SUF]. *)
Fixpoint ends_with (suf s : string) : bool :=
  String.eqb suf s ||
  match s with
  | EmptyString => false
  | String _ s' => ends_with suf s'
  end.

End Re.

(** ** The tabular notebook: feature catalogue and statistic vectors *)

Module Tabular.
Import Py.

(** The look-behind marker and the file suffix of the catalogue pattern
    [(?<=_norm_).+(?=\.nii\.gz)]. *)
Definition norm_marker : string := "_norm_".
Definition nii_gz : string := ".nii.gz".

(** [feature_path.glob('*.nii.gz')] over the names found in the directory. *)
Definition glob_nii_gz (listing : list string) : list string :=
  List.filter (Re.ends_with nii_gz) listing.

(** The loop of cell 4: [re.search(...).group()] on every name the glob
    yields; [.group()] on a failed search is an [AttributeError]. *)
Fixpoint extract_names (feature_names files : list string)
  : result (list string) :=
  match files with
  | [] => Ok feature_names
  | filename :: rest =>
      let* feature_name :=
        of_option AttributeError (Re.search norm_marker nii_gz filename) in
      extract_names (feature_names ++ [feature_name]) rest
  end.

(** Cell 4 as a whole: the names, then [sorted]. *)
Definition discover_feature_names (listing : list string)
  : result (list string) :=
  let* feature_names := extract_names [] (glob_nii_gz listing) in
  Ok (merge_sort String.le feature_names).

(** A statistics table as [pd.read_csv] returns it: rows of labelled
    cells, a missing value being [None]. *)
Definition row : Type := list (string * option Q).
Definition table : Type := list row.

Definition has_missing (r : row) : bool :=
  existsb (fun cell => match snd cell with None => true | Some _ => false end) r.

(** [df.dropna(inplace=True)]: drop every row with a missing value. *)
Definition dropna (df : table) : table :=
  List.filter (fun r => negb (has_missing r)) df.

Fixpoint row_lookup (r : row) (name : string) : option (option Q) :=
  match r with
  | [] => None
  | (label, v) :: r' =>
      if String.eqb label name then Some v else row_lookup r' name
  end.

(** [series[feature_names].values.flatten()] on a row without missing
    values: the cells in the order of the names, a [KeyError] for a label
    the row does not have. *)
Fixpoint select (r : row) (feature_names : list string) : result (list Q) :=
  match feature_names with
  | [] => Ok []
  | name :: names =>
      match row_lookup r name with
      | Some (Some v) =>
          let* vs := select r names in Ok (v :: vs)
      | _ => Raise KeyError
      end
  end.

(** One [sheet] directory: the name of the patient directory two levels
    up, and the tables behind the files that [*_mean.csv] and [*_std.csv]
    match, in glob order. *)
Record sheet : Type := {
  sheet_patient : string;
  mean_csvs : list table;
  std_csvs : list table
}.

(** The three accumulators of cell 5. *)
Record acc : Type := {
  patient_ids : list Z;
  feature_vectors : list (list Q);
  classes : list Z
}.

Definition empty_acc : acc :=
  {| patient_ids := []; feature_vectors := []; classes := [] |}.

Section Aggregate.
(** [int(...)] on a directory name, and the label dictionary. *)
Variable int : string -> option Z.
Variable patient_id_to_case : gmap Z Z.
Variable feature_names : list string.

(** The body of the loop of cell 5. *)
Definition aggregate_step (st : acc) (s : sheet) : result acc :=
  let* patient_id := of_option (ValueError "invalid literal for int()")
                       (int (sheet_patient s)) in
  let* mean_df := next (mean_csvs s) in
  let* std_df := next (std_csvs s) in
  let mean_df := dropna mean_df in
  let std_df := dropna std_df in
  if (length mean_df =? 0)%nat || (length std_df =? 0)%nat then Ok st
  else
    let* mean_row := first_item mean_df in
    let* std_row := first_item std_df in
    let* means := select mean_row feature_names in
    let* stds := select std_row feature_names in
    let feat := means ++ stds in
    let* case := of_option KeyError (patient_id_to_case !! patient_id) in
    Ok {| patient_ids := patient_ids st ++ [patient_id];
          feature_vectors := feature_vectors st ++ [feat];
          classes := classes st ++ [case] |}.

Fixpoint aggregate (st : acc) (sheets : list sheet) : result acc :=
  match sheets with
  | [] => Ok st
  | s :: rest =>
      let* st' := aggregate_step st s in aggregate st' rest
  end.
End Aggregate.

End Tabular.

(** ** The patient-level splitter (imaging notebook, cell 4) *)

Module Split.
Import Py.

(** [size=455] and [np.random.seed(0)] of the cell. *)
Definition train_size : nat := 455.
Definition split_seed : Z := 0.

(** [a[idx]] for a list of indices. *)
Fixpoint take_indices (a : list string) (idx : list nat)
  : result (list string) :=
  match idx with
  | [] => Ok []
  | i :: idx' =>
      let* x := of_option IndexError (a !! i) in
      let* xs := take_indices a idx' in
      Ok (x :: xs)
  end.

Section Rng.
(** NumPy's global generator: its state, the state [np.random.seed]
    installs, and [permutation(n)], which returns a shuffled
    [arange(n)] and advances the state. *)
Variable rng_state : Type.
Variable seed : Z -> rng_state.
Variable permutation : rng_state -> nat -> list nat * rng_state.

(** [np.random.choice(a, replace=False, size=size)]: the first [size]
    entries of a permutation of the population. *)
Definition choice (st : rng_state) (a : list string) (size : nat)
  : result (list string) * rng_state :=
  let pop_size := length a in
  if (pop_size =? 0)%nat then (Raise (ValueError "a must be non-empty"), st)
  else if (pop_size <? size)%nat then
    (Raise (ValueError "Cannot take a larger sample than population when 'replace=False'"), st)
  else
    let '(idx, st') := permutation st pop_size in
    (take_indices a (take size idx), st').

(** The split of cell 4, run with the generator in state [st]. *)
Definition split_patients (st : rng_state) (patients_list : list string)
  : result (list string * list string) * rng_state :=
  let st0 := seed split_seed in
  let '(chosen, st1) := choice st0 patients_list train_size in
  (let* training_patients := chosen in
   let testing_patients :=
     filter (fun patient => patient ∉ training_patients) patients_list in
   Ok (training_patients, testing_patients),
   st1).
End Rng.
Arguments choice {rng_state} permutation st a size.
Arguments split_patients {rng_state} seed permutation st patients_list.

(** [round] of a rational, to the nearest integer and to the even one on
    a tie, as Python rounds. *)
Definition py_round (x : Q) : Z :=
  let fl := Qfloor x in
  let twice := Qfloor (2 * x) in
  if Qeq_bool (2 * x) (inject_Z (2 * fl + 1))
  then (if Z.even fl then fl else fl + 1)%Z
  else (twice - fl)%Z.

(** Follows the specification's words: the train partition holds
    [round(train_fraction * N)] patients. *)
Definition spec_train_size (train_fraction : Q) (population : nat) : Z :=
  py_round (train_fraction * inject_Z (Z.of_nat population)).

End Split.

(** ** The NumPy operations the imaging notebook uses *)

Module Np.
Import Py.

(** A float64 as stored in a feature volume. *)
Inductive fval : Type :=
| Finite (q : Q)
| PosInf
| NegInf
| NaN.

(** [np.finfo(dtype).max] for the two floating-point types a volume can
    be stored in. *)
Definition float64_max : Q := inject_Z (2 ^ 1024 - 2 ^ 971).
Definition float32_max : Q := inject_Z (2 ^ 128 - 2 ^ 104).

(** [np.nan_to_num] on one element of an array whose type has the
    largest finite value [finfo_max]: NaN becomes zero, the infinities
    become the largest finite values of their sign. *)
Definition nan_to_num1 (finfo_max : Q) (x : fval) : Q :=
  match x with
  | Finite q => q
  | PosInf => finfo_max
  | NegInf => - finfo_max
  | NaN => 0
  end.

Definition nan_to_num (finfo_max : Q) (m : list (list fval)) : list (list Q) :=
  map (map (nan_to_num1 finfo_max)) m.

Definition map_result {A B : Type} (f : A -> result B)
  : list A -> result (list B) :=
  fix go (l : list A) : result (list B) :=
    match l with
    | [] => Ok []
    | x :: l' =>
        let* y := f x in
        let* ys := go l' in
        Ok (y :: ys)
    end.

Definition fold_result {A S : Type} (f : S -> A -> result S)
  : list A -> S -> result S :=
  fix go (l : list A) (s : S) : result S :=
    match l with
    | [] => Ok s
    | x :: l' => let* s' := f s x in go l' s'
    end.

(** Broadcasting of one axis: an axis of length 1 is repeated. *)
Definition stretch {A : Type} (n : nat) (l : list A) : list A :=
  match l with
  | [x] => replicate n x
  | _ => l
  end.

Section Shapes.
Context {A : Type}.

Definition rows (m : list (list A)) : nat := length m.
Definition cols (m : list (list A)) : nat :=
  match m with
  | [] => 0
  | r :: _ => length r
  end.

(** Every row of a 2-D array has [w] entries. *)
Definition rect (h w : nat) (m : list (list A)) : Prop :=
  length m = h /\ Forall (fun r => length r = w) m.

(** Every pixel of a rows x columns x channels tensor has [c] channels. *)
Definition shape3 (h w c : nat) (t : list (list (list A))) : Prop :=
  length t = h /\
  Forall (fun r => length r = w /\ Forall (fun px => length px = c) r) t.

Definition broadcastable (d target : nat) : bool :=
  (d =? target)%nat || (d =? 1)%nat.

(** [np.broadcast_to(m, (h, w))] for a 2-D [m]. *)
Definition broadcast_to (h w : nat) (m : list (list A))
  : result (list (list A)) :=
  if broadcastable (rows m) h && broadcastable (cols m) w
  then Ok (map (stretch w) (stretch h m))
  else Raise (ValueError "could not broadcast input array").

(** [m[0:h, 0:w]]. *)
Definition crop (h w : nat) (m : list (list A)) : list (list A) :=
  map (take w) (take h m).

(** [t[:, :, k] = m] for an [m] of the spatial shape of [t]. *)
Definition set_channel (k : nat) (m : list (list A))
    (t : list (list (list A))) : list (list (list A)) :=
  zip_with (zip_with (fun px v => <[k := v]> px)) t m.

(** [t[:, :, k]]. *)
Definition channel (k : nat) (t : list (list (list A)))
  : result (list (list A)) :=
  map_result (map_result (fun px => of_option IndexError (px !! k))) t.

(** [t[r, c, k]]. *)
Definition get3 (t : list (list (list A))) (r c k : nat) : option A :=
  match t !! r with
  | Some row =>
      match row !! c with
      | Some px => px !! k
      | None => None
      end
  | None => None
  end.

Definition get2 (m : list (list A)) (r c : nat) : option A :=
  match m !! r with
  | Some row => row !! c
  | None => None
  end.
End Shapes.

Definition broadcast_dim (a b : nat) : option nat :=
  if (a =? b)%nat then Some a
  else if (a =? 1)%nat then Some b
  else if (b =? 1)%nat then Some a
  else None.

(** [np.multiply(a, b)] on 2-D arrays. *)
Definition multiply (a b : list (list Q)) : result (list (list Q)) :=
  match broadcast_dim (rows a) (rows b), broadcast_dim (cols a) (cols b) with
  | Some h, Some w =>
      let* a' := broadcast_to h w a in
      let* b' := broadcast_to h w b in
      Ok (zip_with (zip_with Qmult) a' b')
  | _, _ => Raise (ValueError "operands could not be broadcast together")
  end.

(** [np.zeros((h, w, c))]. *)
Definition zeros (h w c : nat) : list (list (list Q)) :=
  replicate h (replicate w (replicate c 0%Q)).

Definition map3 {A B : Type} (f : A -> B)
  : list (list (list A)) -> list (list (list B)) :=
  map (map (map f)).

Definition zip3 {A B C : Type} (f : A -> B -> C)
  : list (list (list A)) -> list (list (list B)) -> list (list (list C)) :=
  zip_with (zip_with (zip_with f)).

(** [np.abs(data)] on a 4-D array. *)
Definition np_abs (data : list (list (list (list Q))))
  : list (list (list (list Q))) :=
  map (map3 Qabs) data.

(** [data.max(axis=0)]: the element-wise maximum over the samples. *)
Definition max_axis0 (data : list (list (list (list Q))))
  : result (list (list (list Q))) :=
  match data with
  | [] => Raise (ValueError "zero-size array to reduction operation maximum")
  | t :: ts => Ok (foldl (zip3 Qmax) t ts)
  end.

(** [m.max()] of a 2-D array. *)
Definition max_all (m : list (list Q)) : result Q :=
  match concat m with
  | [] => Raise (ValueError "zero-size array to reduction operation maximum")
  | x :: xs => Ok (foldl Qmax x xs)
  end.

End Np.

(** ** The imaging notebook: loading, masking, assignment, stacking *)

Module Imaging.
Import Py Np.

(** The look-behind marker and the suffix of [(?<=_).+(?=\.nii\.gz)]. *)
Definition name_marker : string := "_".
Definition nii_gz : string := ".nii.gz".

(** One [feature_masks] directory: the volumes behind the files that
    [mask/*_mean.nii.gz] matches, and the name and volume of every file
    that [feature/*.nii.gz] matches, in glob order. A volume is the 2-D
    array [nib.load(path).get_data().T]. *)
Record sample_dir : Type := {
  mask_means : list (list (list Q));
  feature_files : list (string * list (list fval))
}.

(** One patient directory under the data folder. *)
Record patient_dir : Type := {
  patient_name : string;
  patient_samples : list sample_dir
}.

(** [[subdir.name for subdir in data_path.glob('*/') if subdir.is_dir()]]. *)
Definition patients_list (data : list patient_dir) : list string :=
  map patient_name data.

(** [data_path.glob('*/*/feature_masks/')], each path with the name of
    its [parent.parent]. *)
Definition feature_masks (data : list patient_dir)
  : list (string * sample_dir) :=
  flat_map (fun p => map (fun s => (patient_name p, s)) (patient_samples p)) data.

(** The four lists cell 7 fills. *)
Record sets : Type := {
  train_features : list (gmap string (list (list Q)));
  train_classes : list Z;
  test_features : list (gmap string (list (list Q)));
  test_classes : list Z
}.

Definition empty_sets : sets :=
  {| train_features := []; train_classes := [];
     test_features := []; test_classes := [] |}.

Section Load.
(** The largest finite value of the floating-point type of the volumes. *)
Variable finfo_max : Q.

(** The inner loop of cell 7: clean, mask and file each feature map
    under its name. *)
Definition load_feature (mask : list (list Q))
    (patient_features : gmap string (list (list Q)))
    (file : string * list (list fval))
  : result (gmap string (list (list Q))) :=
  let feature_map := nan_to_num finfo_max (snd file) in
  let* masked_feature_map := multiply feature_map mask in
  let* feature_name :=
    of_option AttributeError (Re.search name_marker nii_gz (fst file)) in
  Ok (<[feature_name := masked_feature_map]> patient_features).

Definition load_features (mask : list (list Q))
    (files : list (string * list (list fval)))
  : result (gmap string (list (list Q))) :=
  fold_result (load_feature mask) files ∅.

(** A patient name lies in exactly one of the two lists. *)
Definition in_one_partition (training testing : list string)
    (patient_id : string) : Prop :=
  (patient_id ∈ training /\ patient_id ∉ testing) \/
  (patient_id ∈ testing /\ patient_id ∉ training).

Section Assign.
Variable int : string -> option Z.
Variable patient_id_to_case : gmap Z Z.
Variables training_patients testing_patients : list string.

(** The end of the loop body: the sample goes to the list of its
    patient's partition. *)
Definition assign (st : sets) (patient_id : string)
    (patient_features : gmap string (list (list Q))) (patient_class : Z)
  : result sets :=
  let is_test := bool_decide (patient_id ∈ testing_patients) in
  let is_train := bool_decide (patient_id ∈ training_patients) in
  if is_test && is_train then Raise AssertionError
  else if is_test then
    Ok {| train_features := train_features st;
          train_classes := train_classes st;
          test_features := test_features st ++ [patient_features];
          test_classes := test_classes st ++ [patient_class] |}
  else if is_train then
    Ok {| train_features := train_features st ++ [patient_features];
          train_classes := train_classes st ++ [patient_class];
          test_features := test_features st;
          test_classes := test_classes st |}
  else Raise (ValueError "Patient ID not found!").

(** The label and the feature dictionary of one sample. *)
Definition load_sample (patient_id : string) (s : sample_dir)
  : result (gmap string (list (list Q)) * Z) :=
  let* id := of_option (ValueError "invalid literal for int()")
               (int patient_id) in
  let* patient_class := of_option KeyError (patient_id_to_case !! id) in
  let* mask := first_item (mask_means s) in
  let* patient_features := load_features mask (feature_files s) in
  Ok (patient_features, patient_class).

(** The body of the loop of cell 7. *)
Definition aggregate_step (st : sets) (sample : string * sample_dir)
  : result sets :=
  let* loaded := load_sample (fst sample) (snd sample) in
  assign st (fst sample) (fst loaded) (snd loaded).

Definition aggregate (samples : list (string * sample_dir)) (st : sets)
  : result sets :=
  fold_result aggregate_step samples st.
End Assign.
End Load.

Section Stack.
(** The shape [(34, 26, 29)] of one sample of the 4-D arrays. *)
Variables crop_rows crop_cols n_channels : nat.

(** [data[sample, :, :, feature_number] = sample_dict[feature_name][0:34, 0:26]]. *)
Definition stack_feature (sample_dict : gmap string (list (list Q)))
    (t : list (list (list Q))) (numbered : nat * string)
  : result (list (list (list Q))) :=
  let* feature_map := of_option KeyError (sample_dict !! snd numbered) in
  let cropped := crop crop_rows crop_cols feature_map in
  if (n_channels <=? fst numbered)%nat then Raise IndexError
  else
    let* value := broadcast_to crop_rows crop_cols cropped in
    Ok (set_channel (fst numbered) value t).

Definition stack_sample (ordered_feature_names : list string)
    (sample_dict : gmap string (list (list Q)))
  : result (list (list (list Q))) :=
  fold_result (stack_feature sample_dict)
    (zip (seq 0 (length ordered_feature_names)) ordered_feature_names)
    (zeros crop_rows crop_cols n_channels).

(** Cell 8: the canonical order from the first training sample, then
    both 4-D arrays. *)
Definition combine (st : sets)
  : result (list (list (list (list Q))) * list (list (list (list Q)))) :=
  let* first := first_item (train_features st) in
  let ordered_feature_names := merge_sort String.le (elements (dom first)) in
  let* train_data :=
    map_result (stack_sample ordered_feature_names) (train_features st) in
  let* test_data :=
    map_result (stack_sample ordered_feature_names) (test_features st) in
  Ok (train_data, test_data).
End Stack.

(** The notebook's constants. *)
Definition crop_shape : nat * nat := (34, 26)%nat.
Definition feature_count : nat := 29.

Definition combine_nb (st : sets) :=
  combine (fst crop_shape) (snd crop_shape) feature_count st.

End Imaging.

(** ** The two-pass normalisation (imaging notebook, cell 9) *)

Module Normalize.
Import Py Np.

Definition epsilon : Q := 1 # 100000000.

(** First pass: divide by the largest magnitude found across the
    concatenation of both arrays. *)
Definition cross_sample (train_data test_data : list (list (list (list Q))))
  : result (list (list (list (list Q))) * list (list (list (list Q)))) :=
  let full_data := train_data ++ test_data in
  let* max_image := max_axis0 (np_abs full_data) in
  let divisor := map3 (fun m => (m + epsilon)%Q) max_image in
  Ok (map (fun t => zip3 Qdiv t divisor) train_data,
      map (fun t => zip3 Qdiv t divisor) test_data).

Section Within.
(** [range(29)]. *)
Variable n_channels : nat.

(** The body of the innermost loop for one feature number. *)
Definition normalize_channel (sample : list (list (list Q)))
    (feature_number : nat) : result (list (list (list Q))) :=
  let* feature_map := channel feature_number sample in
  let* max_val := max_all (map (map Qabs) feature_map) in
  Ok (set_channel feature_number
        (map (map (fun x => (x / (max_val + epsilon))%Q)) feature_map) sample).

Definition normalize_sample (sample : list (list (list Q)))
  : result (list (list (list Q))) :=
  fold_result normalize_channel (seq 0 n_channels) sample.

(** Second pass over one of the two arrays. *)
Definition within_sample (data_source : list (list (list (list Q))))
  : result (list (list (list (list Q)))) :=
  map_result normalize_sample data_source.

(** Cell 9. *)
Definition normalize (train_data test_data : list (list (list (list Q))))
  : result (list (list (list (list Q))) * list (list (list (list Q)))) :=
  let* crossed := cross_sample train_data test_data in
  let* train_out := within_sample (fst crossed) in
  let* test_out := within_sample (snd crossed) in
  Ok (train_out, test_out).
End Within.

Definition normalize_nb := normalize Imaging.feature_count.

(** Channel [k] of [t] is channel [k] of [t0] divided by the largest
    magnitude of that channel of [t0] plus epsilon. *)
Definition rescaled_channel (t0 t : list (list (list Q))) (k : nat) : Prop :=
  exists M : Q,
    (forall r col x, get3 t0 r col k = Some x -> (Qabs x <= M)%Q) /\
    (exists r col x, get3 t0 r col k = Some x /\ M = Qabs x) /\
    (forall r col x, get3 t0 r col k = Some x ->
                     get3 t r col k = Some (x / (M + epsilon))%Q).

(** Follows the specification's words: one maximum per channel, taken
    over every value of that channel in every sample. *)
Definition spec_channel_max (full_data : list (list (list (list Q))))
    (k : nat) : Q :=
  foldl Qmax 0%Q
    (map Qabs (flat_map (flat_map (omap (fun px : list Q => px !! k))) full_data)).

Definition spec_cross_sample (train_data test_data : list (list (list (list Q))))
  : list (list (list (list Q))) * list (list (list (list Q))) :=
  let full_data := train_data ++ test_data in
  let scale (px : list Q) :=
    imap (fun k x => (x / (spec_channel_max full_data k + epsilon))%Q) px in
  (map (map (map scale)) train_data, map (map (map scale)) test_data).

End Normalize.

(** ** The tabular notebook: data matrix, column names, elastic-net
    selection (cells 6, 7 and the elastic-net cells) *)

Module Matrix.
Import Py.

(** [x[i] = v] for a row of [width] columns: a vector of that width is
    copied, one of a single entry is repeated, any other is refused. *)
Definition assign_row (width : nat) (v : list Q) : result (list Q) :=
  if (length v =? width)%nat then Ok v
  else if (length v =? 1)%nat then Ok (Np.stretch width v)
  else Raise (ValueError "could not broadcast input array").

(** Cell 6: [np.zeros((len(feature_vectors), len(feature_vectors[0])))]
    filled row by row. *)
Definition to_matrix (feature_vectors : list (list Q))
  : result (list (list Q)) :=
  let* first := first_item feature_vectors in
  Np.map_result (assign_row (length first)) feature_vectors.

(** Cell 7: the column names. *)
Definition colnames (feature_names : list string) : list string :=
  map (fun name => "mean_" +:+ name) feature_names ++
  map (fun name => "std_" +:+ name) feature_names.

(** A [pd.DataFrame] with an index, column labels and a block of values. *)
Record frame : Type := {
  index : list Z;
  columns : list string;
  values : list (list Q)
}.

(** [pd.DataFrame(x, index=..., columns=...)]: the labels have to fit
    the shape of the values. *)
Definition data_frame (x : list (list Q)) (idx : list Z) (cols : list string)
  : result frame :=
  if (length idx =? Np.rows x)%nat && (length cols =? Np.cols x)%nat
  then Ok {| index := idx; columns := cols; values := x |}
  else Raise (ValueError "Shape of passed values does not match the indices").

(** Cells 6 and 7 on the accumulators of cell 5. *)
Definition summary_stats (feature_names : list string) (st : Tabular.acc)
  : result frame :=
  let* x := to_matrix (Tabular.feature_vectors st) in
  data_frame x (Tabular.patient_ids st) (colnames feature_names).

(** A sheet that cell 5 does not skip: both tables are there and keep
    a row when the rows with missing values are dropped. *)
Definition has_rows (s : Tabular.sheet) : bool :=
  match head (Tabular.mean_csvs s), head (Tabular.std_csvs s) with
  | Some mean_df, Some std_df =>
      negb ((length (Tabular.dropna mean_df) =? 0)%nat ||
            (length (Tabular.dropna std_df) =? 0)%nat)
  | _, _ => false
  end.

(** [np.abs(coef) > 1e-9]. *)
Definition nonzero (coef : Q) : bool :=
  negb (Qle_bool (Qabs coef) (1 # 1000000000)).

(** The name printed for coefficient [i]; [None] is the
    [ZeroDivisionError] of [i % len(feature_names)] on an empty list. *)
Definition coef_name (feature_names : list string) (i : nat) : option string :=
  if (i <? length feature_names)%nat then feature_names !! i
  else if (length feature_names =? 0)%nat then None
  else feature_names !! (i mod length feature_names).

(** The loop over [enumerate(elnet.coef_)], from number [i] on. *)
Fixpoint selected_coefs (feature_names : list string) (i : nat)
    (coefs : list Q) (selected : list string) : option (list string) :=
  match coefs with
  | [] => Some selected
  | coef :: rest =>
      if nonzero coef then
        match coef_name feature_names i with
        | Some name => selected_coefs feature_names (S i) rest (selected ++ [name])
        | None => None
        end
      else selected_coefs feature_names (S i) rest selected
  end.

(** [row[mask]] for a boolean mask: the mask has to be as long as the row. *)
Definition mask_row (mask : list bool) (row : list Q) : result (list Q) :=
  if (length mask =? length row)%nat
  then Ok (map snd (List.filter fst (zip mask row)))
  else Raise IndexError.

(** [X[:, np.abs(elnet.coef_) > 1e-9]]. *)
Definition select_columns (coefs : list Q) (X : list (list Q))
  : result (list (list Q)) :=
  Np.map_result (mask_row (map nonzero coefs)) X.

End Matrix.

(** ** The imaging notebook: case counts and partition records
    (cells 5 and 6) *)

Module Census.
Import Py.

Section Labels.
Variable int : string -> option Z.
Variable patient_id_to_case : gmap Z Z.

(** [patient_id_to_case[int(patient_id)]]. *)
Definition case_status (patient_id : string) : result Z :=
  let* id := of_option (ValueError "invalid literal for int()")
               (int patient_id) in
  of_option KeyError (patient_id_to_case !! id).

(** [sum([patient_id_to_case[int(patient_id)] for patient_id in patients])]. *)
Definition count_cases (patients : list string) : result Z :=
  let* statuses := Np.map_result case_status patients in
  Ok (foldl Z.add 0%Z statuses).

(** The lines cell 6 writes after the header, one per patient. A
    missing label raises in the middle of the writing; the model keeps
    the error and not the part of the file written so far. *)
Fixpoint record_lines (patients : list string) : result string :=
  match patients with
  | [] => Ok ""
  | patient_id :: rest =>
      let* status := case_status patient_id in
      let* lines := record_lines rest in
      Ok (patient_id +:+ "," +:+ pretty status +:+ String "010"%char lines)
  end.

(** The content of a partition record file. *)
Definition partition_record (patients : list string) : result string :=
  let* lines := record_lines patients in
  Ok ("patient_id,case_status" +:+ String "010"%char lines).
End Labels.

Fixpoint has_comma (s : string) : bool :=
  match s with
  | EmptyString => false
  | String c s' => Ascii.eqb c ","%char || has_comma s'
  end.

End Census.

(** ** Concrete inputs for the scenarios *)

Module Scenario.

(** An instance of [int] on directory names: a non-empty run of decimal
    digits is read as a number, anything else is refused. *)
Fixpoint digits (value : Z) (s : string) : option Z :=
  match s with
  | EmptyString => Some value
  | String c s' =>
      match Ascii.is_nat c with
      | Some d => digits (10 * value + Z.of_nat d) s'
      | None => None
      end
  end.

Definition decimal (s : string) : option Z :=
  match s with
  | EmptyString => None
  | _ => digits 0 s
  end.

(** A label table with one case and one control. *)
Definition labels : gmap Z Z := <[2036311%Z := 1%Z]> (<[2036312%Z := 0%Z]> ∅).

(** The statistic tables of the three-feature scenario. *)
Definition abc : list string := ["a"; "b"; "c"].
Definition mean_row : Tabular.row :=
  [("a", Some 1%Q); ("b", Some 2%Q); ("c", Some 3%Q)].
Definition std_row : Tabular.row :=
  [("a", Some (1 # 10)%Q); ("b", Some (2 # 10)%Q); ("c", Some (3 # 10)%Q)].
Definition abc_sheet : Tabular.sheet :=
  {| Tabular.sheet_patient := "2036311";
     Tabular.mean_csvs := [[mean_row]];
     Tabular.std_csvs := [[std_row]] |}.

(** A sheet whose std table loses its only row to a missing value. *)
Definition gap_row : Tabular.row :=
  [("a", Some (1 # 10)%Q); ("b", None); ("c", Some (3 # 10)%Q)].
Definition gap_sheet : Tabular.sheet :=
  {| Tabular.sheet_patient := "2036312";
     Tabular.mean_csvs := [[mean_row]];
     Tabular.std_csvs := [[gap_row]] |}.

(** A toy generator to run the split with: the state is a counter, and
    the permutation is a reversed rotation of [arange(n)] by the counter. *)
Definition toy_seed (s : Z) : nat := Z.to_nat s + 3.
Definition toy_permutation (st n : nat) : list nat * nat :=
  (reverse (rotate st (seq 0 n)), S st).

(** Populations of distinct patient names [P0], [P1], ... *)
Definition population (n : nat) : list string :=
  map (fun i => "P" +:+ pretty i) (seq 0 n).

(** A data folder of [n] patients named [2036311], [2036312], ..., every
    fifth one a case, each with a left and a right image of 1 x 2 pixels
    and one feature map. *)
Definition left_image : Imaging.sample_dir :=
  {| Imaging.mask_means := [[[1; 0]]%Q];
     Imaging.feature_files :=
       [("DPm.1.2.840_norm_win_97_sliding_97_box_counting.nii.gz",
         [[Np.Finite 4; Np.NaN]])] |}.
Definition right_image : Imaging.sample_dir :=
  {| Imaging.mask_means := [[[1; 1]]%Q];
     Imaging.feature_files :=
       [("DPm.1.2.841_norm_win_97_sliding_97_box_counting.nii.gz",
         [[Np.Finite (-10); Np.Finite 2]])] |}.

Definition data_folder (n : nat) : list Imaging.patient_dir :=
  map (fun i => {| Imaging.patient_name := pretty (2036311 + Z.of_nat i)%Z;
                   Imaging.patient_samples := [left_image; right_image] |})
      (seq 0 n).

Definition case_table (n : nat) : gmap Z Z :=
  list_to_map
    (map (fun i => ((2036311 + Z.of_nat i)%Z, if (i mod 5 =? 0)%nat then 1%Z else 0%Z))
         (seq 0 n)).

(** One sample with a 3 x 3 mask and two 3 x 3 feature volumes, to be
    cropped to 2 x 2 and stacked into three channels. *)
Definition mask3 : list (list Q) :=
  [[1; 1; 0]; [1; 0; 1]; [0; 1; 1]]%Q.
Definition volumes3 : list (string * list (list Np.fval)) :=
  [("DPm.1.2.840_norm_win_97_sliding_97_edge.nii.gz",
    [[Np.Finite 5; Np.NaN; Np.Finite 7];
     [Np.PosInf; Np.Finite 2; Np.Finite 3];
     [Np.Finite 1; Np.Finite 1; Np.Finite 1]]);
   ("DPm.1.2.840_norm_win_97_sliding_97_box.nii.gz",
    [[Np.Finite (-4); Np.Finite 6; Np.Finite 7];
     [Np.NegInf; Np.Finite 2; Np.Finite 3];
     [Np.Finite 1; Np.Finite 1; Np.Finite 1]])].
Definition names3 : list string :=
  ["norm_win_97_sliding_97_edge"; "norm_win_97_sliding_97_box"].
Definition ordered3 : list string :=
  ["norm_win_97_sliding_97_box"; "norm_win_97_sliding_97_edge"].

(** A feature map of a single row of 26 columns. *)
Definition one_row : gmap string (list (list Q)) :=
  {[ "norm_box" := [replicate 26 7%Q] ]}.

(** Two samples of one row, two columns and one channel: one in the
    train array, one in the test array. *)
Definition pixels_train : list (list (list (list Q))) := [[[[4]; [1]]]]%Q.
Definition pixels_test : list (list (list (list Q))) := [[[[-10]; [2]]]]%Q.

(** Elastic-net coefficients over the six columns of the three-feature
    scenario: two clearly non-zero, one below the threshold of 1e-9. *)
Definition coefs : list Q := [0; 1 # 2; 0; -3 # 100; 0; 1 # 10000000000]%Q.

(** Two feature files of one sample that give the same feature name. *)
Definition twice : list (string * list (list Np.fval)) :=
  [("left_norm_box.nii.gz", [[Np.Finite 7; Np.Finite 7]]);
   ("right_norm_box.nii.gz", [[Np.Finite 2; Np.NaN]])].

(** Loaded partitions: two training samples with the same two feature
    names, one of them with a single-pixel map, and a test sample with a
    third feature. *)
Definition two_sets : Imaging.sets :=
  {| Imaging.train_features :=
       [{[ "norm_box" := [[7; 8]%Q]; "norm_edge" := [[1; 2]%Q] ]};
        {[ "norm_box" := [[3]%Q]; "norm_edge" := [[0; 2]%Q] ]}];
     Imaging.train_classes := [1%Z; 0%Z];
     Imaging.test_features :=
       [{[ "norm_box" := [[5; 6]%Q]; "norm_edge" := [[4; 4]%Q];
           "norm_lacunarity" := [[9; 9]%Q] ]}];
     Imaging.test_classes := [0%Z] |}.

End Scenario.

(** * Properties *)

(** ** The feature-name pattern *)

Section ReFacts.
Import Re.

Lemma prefix_app (p r : string) : String.prefix p (p +:+ r) = true.
Proof.
  induction p as [|c p IH]; simpl.
  - by destruct r.
  - destruct (ascii_dec c c); [done | congruence].
Qed.

Lemma prefix_inv (p s : string) :
  String.prefix p s = true -> exists r, s = p +:+ r.
Proof.
  revert s. induction p as [|c p IH]; intros s Hp.
  - by exists s.
  - destruct s as [|d s]; simpl in Hp; [done |].
    destruct (ascii_dec c d) as [->|]; [| done].
    destruct (IH _ Hp) as [r ->]. by exists r.
Qed.

Lemma drop_app (p r : string) : drop (String.length p) (p +:+ r) = r.
Proof. induction p; simpl; [by destruct r | done]. Qed.

Lemma dot_plus_sound (suf t m : string) :
  dot_plus_until suf t = Some m ->
  m <> EmptyString /\ no_newline m = true /\ exists b, t = m +:+ suf +:+ b.
Proof.
  revert m. induction t as [|c t IH]; intros m H; simpl in H; [done |].
  destruct (is_newline c) eqn:Hc; [done |].
  destruct (dot_plus_until suf t) as [m'|] eqn:Hrec.
  - injection H as <-. destruct (IH _ eq_refl) as (_ & Hnl & b & ->).
    split; [done |]. split; [simpl; by rewrite Hc |]. by exists b.
  - destruct (String.prefix suf t) eqn:Hp; [| done].
    injection H as <-. destruct (prefix_inv _ _ Hp) as [b ->].
    split; [done |]. split; [simpl; by rewrite Hc |]. by exists b.
Qed.

Lemma dot_plus_complete (suf m b : string) :
  m <> EmptyString -> no_newline m = true ->
  is_Some (dot_plus_until suf (m +:+ suf +:+ b)).
Proof.
  induction m as [|c m IH]; intros Hne Hnl; [done |].
  simpl in Hnl. apply andb_prop in Hnl as [Hc Hnl].
  apply negb_true_iff in Hc. simpl. rewrite Hc.
  destruct m as [|d m].
  - change ("" +:+ suf +:+ b) with (suf +:+ b).
    destruct (dot_plus_until suf (suf +:+ b)); [by eexists |].
    rewrite prefix_app. by eexists.
  - destruct (IH ltac:(done) Hnl) as [m' ->]. by eexists.
Qed.

Lemma search_unfold (pre suf s : string) :
  search pre suf s =
  match (if String.prefix pre s
         then dot_plus_until suf (drop (String.length pre) s) else None) with
  | Some m => Some m
  | None =>
      match s with
      | EmptyString => None
      | String _ s' => search pre suf s'
      end
  end.
Proof. by destruct s. Qed.

Lemma search_empty (pre suf : string) : search pre suf "" = None.
Proof. by destruct pre. Qed.

Lemma search_sound (pre suf s m : string) :
  search pre suf s = Some m ->
  m <> EmptyString /\ no_newline m = true /\
  exists a b, s = a +:+ pre +:+ m +:+ suf +:+ b.
Proof.
  induction s as [|c s IH].
  - by rewrite search_empty.
  - rewrite search_unfold.
    destruct (String.prefix pre (String c s)) eqn:Hp.
    + destruct (prefix_inv _ _ Hp) as [r Hr].
      destruct (dot_plus_until suf (drop (String.length pre) (String c s)))
        eqn:Hd.
      * intros [= <-]. rewrite Hr, drop_app in Hd.
        destruct (dot_plus_sound _ _ _ Hd) as (? & ? & b & ->).
        repeat split; try done. exists "", b. by rewrite Hr.
      * intros H. destruct (IH H) as (? & ? & a & b & ->).
        repeat split; try done. by exists (String c a), b.
    + intros H. destruct (IH H) as (? & ? & a & b & ->).
      repeat split; try done. by exists (String c a), b.
Qed.

Lemma search_complete (pre suf s : string) :
  follows_convention pre suf s -> is_Some (search pre suf s).
Proof.
  intros (a & m & b & -> & Hne & Hnl).
  induction a as [|c a IH].
  - change ("" +:+ pre +:+ m +:+ suf +:+ b) with (pre +:+ m +:+ suf +:+ b).
    destruct (dot_plus_complete suf m b Hne Hnl) as [m' Hm'].
    rewrite search_unfold, prefix_app, drop_app, Hm'. by eexists.
  - rewrite search_unfold.
    change (String c a +:+ pre +:+ m +:+ suf +:+ b)
      with (String c (a +:+ pre +:+ m +:+ suf +:+ b)).
    destruct (if String.prefix pre (String c (a +:+ pre +:+ m +:+ suf +:+ b))
              then _ else _); [by eexists | done].
Qed.

(** The search fails exactly on the names that break the convention. *)
Lemma search_None_iff (pre suf s : string) :
  search pre suf s = None <-> ~ follows_convention pre suf s.
Proof.
  split.
  - intros H Hf. apply search_complete in Hf as [m Hm]. congruence.
  - intros H. destruct (search pre suf s) as [m|] eqn:E; [| done].
    exfalso. apply H. destruct (search_sound _ _ _ _ E) as (? & ? & a & b & ->).
    by exists a, m, b.
Qed.
End ReFacts.

(** ** The tabular notebook *)

Section TabularFacts.
Import Py Tabular.

Lemma extract_names_raises (acc files : list string) (filename : string) :
  In filename files ->
  Re.search norm_marker nii_gz filename = None ->
  extract_names acc files = Raise AttributeError.
Proof.
  revert acc. induction files as [|f files IH]; intros acc Hin Hnone; [done |].
  simpl. destruct (Re.search norm_marker nii_gz f) as [m|] eqn:Hf; simpl.
  - destruct Hin as [->|Hin]; [congruence | by apply IH].
  - done.
Qed.

Lemma has_missing_false (r : row) :
  has_missing r = false <-> Forall (fun cell => snd cell <> None) r.
Proof.
  unfold has_missing. induction r as [|[label [v|]] r IH]; simpl.
  - split; [constructor | done].
  - rewrite IH. split.
    + intros H. by constructor.
    + by inversion 1.
  - split; [done |]. inversion 1; simplify_eq/=.
Qed.

Lemma dropna_spec (df : table) (r : row) :
  In r (dropna df) <-> In r df /\ Forall (fun cell => snd cell <> None) r.
Proof.
  unfold dropna. rewrite filter_In, negb_true_iff, has_missing_false. tauto.
Qed.

Lemma select_values (r : row) (names : list string) (vs : list Q) :
  Forall2 (fun name v => row_lookup r name = Some (Some v)) names vs ->
  select r names = Ok vs.
Proof.
  induction 1 as [|name v names vs Hv _ IH]; [done |].
  simpl. by rewrite Hv, IH.
Qed.
Lemma glob_without (listing : list string) (filename : string) :
  Re.ends_with nii_gz filename = false ->
  glob_nii_gz (List.filter (fun name => negb (String.eqb name filename)) listing)
  = glob_nii_gz listing.
Proof.
  intros Hglob. unfold glob_nii_gz.
  induction listing as [|name listing IH]; [done |]. simpl.
  destruct (String.eqb_spec name filename) as [-> | Hne]; simpl.
  - by rewrite Hglob.
  - by rewrite IH.
Qed.
End TabularFacts.

(** C9, as the code has it. A name of the scanned directory that does
    not follow the naming convention [..._norm_<feature>.nii.gz] makes the
    discovery fail when the [*.nii.gz] glob selects it: the failed search
    has no [.group()], which raises (the specification names this failure
    NamingConventionError), and the name is not skipped. When the glob
    does not select it, the name is never examined: the outcome is that of
    the directory without it. *)
Theorem discover_feature_names_fails_on_selected_name
    (listing : list string) (filename : string) :
  In filename listing ->
  ~ Re.follows_convention Tabular.norm_marker Tabular.nii_gz filename ->
  (Re.ends_with Tabular.nii_gz filename = true ->
   Tabular.discover_feature_names listing = Py.Raise Py.AttributeError) /\
  (Re.ends_with Tabular.nii_gz filename = false ->
   Tabular.discover_feature_names listing =
   Tabular.discover_feature_names
     (List.filter (fun name => negb (String.eqb name filename)) listing)).
Proof.
  intros Hin Hbad. split; intros Hglob.
  - unfold Tabular.discover_feature_names.
    apply search_None_iff in Hbad.
    rewrite (extract_names_raises [] _ filename); [done | | done].
    apply filter_In. by split.
  - unfold Tabular.discover_feature_names. f_equal.
    by rewrite (glob_without listing filename Hglob).
Qed.

Lemma discover_feature_names_fails_on_selected_name_witness :
  Tabular.discover_feature_names
    ["DPm.1.2.840_norm_win_97_sliding_97_box_counting.nii.gz"; "DPm.1.2.840.nii.gz"]
  = Py.Raise Py.AttributeError.
Proof.
  apply (discover_feature_names_fails_on_selected_name _ "DPm.1.2.840.nii.gz").
  - simpl. tauto.
  - apply search_None_iff. reflexivity.
  - reflexivity.
Defined.

(** C9 as stated fails: a name in the scanned directory that does not
    follow the convention, yet is silently left out, because the glob
    never hands it to the loop. *)
Lemma discover_feature_names_skips_unselected_name :
  In "notes.txt"
     ["DPm.1.2.840_norm_win_97_sliding_97_box_counting.nii.gz"; "notes.txt"] /\
  ~ Re.follows_convention Tabular.norm_marker Tabular.nii_gz "notes.txt" /\
  Tabular.discover_feature_names
    ["DPm.1.2.840_norm_win_97_sliding_97_box_counting.nii.gz"; "notes.txt"]
  = Py.Ok ["win_97_sliding_97_box_counting"].
Proof.
  split; [simpl; tauto |]. split; [| reflexivity].
  apply search_None_iff. reflexivity.
Qed.

(** C7. For a sheet whose tables keep at least one row, the appended
    vector is the first mean row read at the feature names, in their
    order, followed by the first std row read at the same names in the
    same order; it has twice as many entries as there are names. *)
Theorem aggregate_step_vector
    (int : string -> option Z) (patient_id_to_case : gmap Z Z)
    (feature_names : list string) (st : Tabular.acc) (s : Tabular.sheet)
    (patient_id case : Z) (mean_df std_df : Tabular.table)
    (mean_row std_row : Tabular.row) (mean_rest std_rest : Tabular.table)
    (means stds : list Q) :
  int (Tabular.sheet_patient s) = Some patient_id ->
  head (Tabular.mean_csvs s) = Some mean_df ->
  head (Tabular.std_csvs s) = Some std_df ->
  Tabular.dropna mean_df = mean_row :: mean_rest ->
  Tabular.dropna std_df = std_row :: std_rest ->
  Forall2 (fun name v => Tabular.row_lookup mean_row name = Some (Some v))
          feature_names means ->
  Forall2 (fun name v => Tabular.row_lookup std_row name = Some (Some v))
          feature_names stds ->
  patient_id_to_case !! patient_id = Some case ->
  Tabular.aggregate_step int patient_id_to_case feature_names st s =
    Py.Ok {| Tabular.patient_ids := Tabular.patient_ids st ++ [patient_id];
             Tabular.feature_vectors := Tabular.feature_vectors st ++ [means ++ stds];
             Tabular.classes := Tabular.classes st ++ [case] |} /\
  length (means ++ stds) = 2 * length feature_names.
Proof.
  intros Hint Hmean Hstd Hm Hs Hmeans Hstds Hcase. split.
  - unfold Tabular.aggregate_step, Py.next. rewrite Hint, Hmean, Hstd. simpl.
    rewrite Hm, Hs. simpl.
    rewrite (select_values _ _ _ Hmeans), (select_values _ _ _ Hstds). simpl.
    by rewrite Hcase.
  - rewrite length_app, <- (Forall2_length _ _ _ Hmeans),
      <- (Forall2_length _ _ _ Hstds). lia.
Qed.

Lemma aggregate_step_vector_witness :
  Tabular.aggregate_step Scenario.decimal Scenario.labels Scenario.abc
    Tabular.empty_acc Scenario.abc_sheet =
    Py.Ok {| Tabular.patient_ids := [2036311%Z];
             Tabular.feature_vectors :=
               [[1; 2; 3; 1 # 10; 2 # 10; 3 # 10]%Q];
             Tabular.classes := [1%Z] |} /\
  length [1; 2; 3; 1 # 10; 2 # 10; 3 # 10]%Q = 2 * length Scenario.abc.
Proof.
  apply (aggregate_step_vector Scenario.decimal Scenario.labels Scenario.abc
           Tabular.empty_acc Scenario.abc_sheet 2036311 1
           [Scenario.mean_row] [Scenario.std_row]
           Scenario.mean_row Scenario.std_row [] []
           [1; 2; 3]%Q [1 # 10; 2 # 10; 3 # 10]%Q);
    try reflexivity; repeat constructor.
Defined.

(** C8. Rows with a missing value are dropped from both tables, and a
    sheet one of whose tables is then empty leaves the three accumulators
    as they were: no vector, no patient id and no label is appended, and
    the loop goes on with the next sheet. *)
Theorem aggregate_step_skips_empty_table
    (int : string -> option Z) (patient_id_to_case : gmap Z Z)
    (feature_names : list string) (st : Tabular.acc) (s : Tabular.sheet)
    (patient_id : Z) (mean_df std_df : Tabular.table) :
  int (Tabular.sheet_patient s) = Some patient_id ->
  head (Tabular.mean_csvs s) = Some mean_df ->
  head (Tabular.std_csvs s) = Some std_df ->
  Tabular.dropna mean_df = [] \/ Tabular.dropna std_df = [] ->
  (forall df r, In r (Tabular.dropna df) <->
                In r df /\ Forall (fun cell => snd cell <> None) r) /\
  Tabular.aggregate_step int patient_id_to_case feature_names st s = Py.Ok st /\
  forall rest,
    Tabular.aggregate int patient_id_to_case feature_names st (s :: rest) =
    Tabular.aggregate int patient_id_to_case feature_names st rest.
Proof.
  intros Hint Hmean Hstd Hempty.
  assert (Hstep : Tabular.aggregate_step int patient_id_to_case feature_names st s
                  = Py.Ok st).
  { unfold Tabular.aggregate_step, Py.next. rewrite Hint, Hmean, Hstd. simpl.
    destruct Hempty as [-> | ->]; simpl; [done |].
    by rewrite orb_true_r. }
  split; [apply dropna_spec |]. split; [done |].
  intros rest. simpl. by rewrite Hstep.
Qed.

Lemma aggregate_step_skips_empty_table_witness :
  Tabular.aggregate_step Scenario.decimal Scenario.labels Scenario.abc
    Tabular.empty_acc Scenario.gap_sheet = Py.Ok Tabular.empty_acc.
Proof.
  apply (aggregate_step_skips_empty_table Scenario.decimal Scenario.labels
           Scenario.abc Tabular.empty_acc Scenario.gap_sheet 2036312
           [Scenario.mean_row] [Scenario.gap_row]);
    try reflexivity.
  right. reflexivity.
Defined.

(** ** The patient-level splitter *)

Section SplitFacts.
Import Py Split.

Lemma take_indices_spec (a : list string) (idx : list nat) :
  Forall (fun i => i < length a) idx ->
  exists xs, take_indices a idx = Ok xs /\
             Forall2 (fun i x => a !! i = Some x) idx xs.
Proof.
  induction 1 as [|i idx Hi _ (xs & IH & Hxs)]; [by exists [] |].
  destruct (lookup_lt_is_Some_2 a i Hi) as [x Hx].
  exists (x :: xs). simpl. rewrite Hx, IH. split; [done | by constructor].
Qed.

Lemma picked_NoDup (a : list string) (idx : list nat) (xs : list string) :
  NoDup a -> NoDup idx ->
  Forall2 (fun i x => a !! i = Some x) idx xs -> NoDup xs.
Proof.
  intros Ha Hidx H. induction H as [|i x idx xs Hx Hrest IH]; [constructor |].
  apply NoDup_cons in Hidx as [Hi Hidx]. apply NoDup_cons. split; [| by apply IH].
  intros Hin. apply Hi. clear IH Hidx Hi.
  induction Hrest as [|j y idx xs Hy _ IH]; [by apply elem_of_nil in Hin |].
  apply elem_of_cons in Hin as [-> | Hin].
  - rewrite (NoDup_lookup a i j y Ha Hx Hy). apply elem_of_cons. by left.
  - apply elem_of_cons. right. by apply IH.
Qed.

Lemma picked_subset (a : list string) (idx : list nat) (xs : list string) :
  Forall2 (fun i x => a !! i = Some x) idx xs -> forall x, x ∈ xs -> x ∈ a.
Proof.
  induction 1 as [|i y idx xs Hy _ IH]; intros x Hin.
  - by apply elem_of_nil in Hin.
  - apply elem_of_cons in Hin as [-> | Hin]; [| by apply IH].
    by eapply list_elem_of_lookup_2.
Qed.

Lemma remaining_partition (patients train : list string) :
  NoDup patients -> NoDup train -> (forall x, x ∈ train -> x ∈ patients) ->
  train ++ filter (fun patient => patient ∉ train) patients ≡ₚ patients.
Proof.
  intros Hp Ht Hsub. apply NoDup_Permutation; [| done |].
  - apply NoDup_app. split; [done |]. split; [| by apply NoDup_filter].
    intros x Hx Hin. apply list_elem_of_filter in Hin as [Hn _]. by apply Hn.
  - intros x. rewrite elem_of_app, list_elem_of_filter. split.
    + intros [Hin | [_ Hin]]; auto.
    + intros Hin. destruct (decide (x ∈ train)); [by left | by right].
Qed.

Lemma toy_permutation_spec (st n : nat) :
  fst (Scenario.toy_permutation st n) ≡ₚ seq 0 n.
Proof.
  unfold Scenario.toy_permutation, rotate. simpl.
  rewrite reverse_Permutation, Permutation_app_comm. by rewrite take_drop.
Qed.
Lemma split_patients_ok (rng_state : Type) (seed : Z -> rng_state)
    (permutation : rng_state -> nat -> list nat * rng_state)
    (st : rng_state) (patients : list string) :
  fst (permutation (seed Split.split_seed) (length patients))
    ≡ₚ seq 0 (length patients) ->
  Split.train_size <= length patients ->
  exists training,
    fst (Split.split_patients seed permutation st patients)
      = Py.Ok (training, filter (fun patient => patient ∉ training) patients) /\
    Forall2 (fun i x => patients !! i = Some x)
      (take Split.train_size
         (fst (permutation (seed Split.split_seed) (length patients))))
      training.
Proof.
  intros Hperm Hsize. unfold Split.split_patients, Split.choice.
  destruct (Nat.eqb_spec (length patients) 0) as [Hzero|_];
    [unfold Split.train_size in Hsize; lia |].
  destruct (Nat.ltb_spec (length patients) Split.train_size) as [Hlt|_]; [lia |].
  destruct (permutation (seed Split.split_seed) (length patients))
    as [idx st1] eqn:Hgen.
  simpl in Hperm.
  assert (Hidx : Forall (fun i => i < length patients) (take Split.train_size idx)).
  { apply Forall_take, Forall_forall. intros i Hi.
    rewrite Hperm in Hi. apply elem_of_seq in Hi. lia. }
  destruct (take_indices_spec _ _ Hidx) as (training & Htake & Hpick).
  exists training. simpl. by rewrite Htake.
Qed.

Lemma split_patients_too_few (rng_state : Type) (seed : Z -> rng_state)
    (permutation : rng_state -> nat -> list nat * rng_state)
    (st : rng_state) (patients : list string) :
  length patients < Split.train_size ->
  exists msg,
    fst (Split.split_patients seed permutation st patients)
      = Py.Raise (Py.ValueError msg).
Proof.
  intros Hsize. unfold Split.split_patients, Split.choice.
  destruct (Nat.eqb_spec (length patients) 0) as [Hzero|_]; [by eexists |].
  destruct (Nat.ltb_spec (length patients) Split.train_size) as [_|Hge];
    [by eexists | lia].
Qed.
End SplitFacts.

(** C2, as the code has it. On a list of at least 455 distinct patient
    names the split succeeds; the train partition is read off the list at
    the first 455 indices of the seeded permutation, so it holds exactly
    455 distinct patients of the population (the 455 being
    [round(0.8 * 569)], the size of the studied population, not a
    function of the population at hand); the test partition is exactly
    the patients that were not chosen, so the two are disjoint, together
    they are the population, and the test partition holds the other
    [N - 455]. On a shorter list the split raises. *)
Theorem split_patients_fixed_size_partition
    (rng_state : Type) (seed : Z -> rng_state)
    (permutation : rng_state -> nat -> list nat * rng_state)
    (st : rng_state) (patients_list : list string) :
  fst (permutation (seed Split.split_seed) (length patients_list))
    ≡ₚ seq 0 (length patients_list) ->
  NoDup patients_list ->
  (Split.train_size <= length patients_list ->
   exists training testing,
     fst (Split.split_patients seed permutation st patients_list)
       = Py.Ok (training, testing) /\
     Forall2 (fun i x => patients_list !! i = Some x)
       (take Split.train_size
          (fst (permutation (seed Split.split_seed) (length patients_list))))
       training /\
     length training = 455 /\
     Z.of_nat 455 = Split.spec_train_size (4 # 5) 569 /\
     NoDup training /\
     testing = filter (fun patient => patient ∉ training) patients_list /\
     (forall patient, patient ∈ training -> patient ∉ testing) /\
     training ++ testing ≡ₚ patients_list /\
     length testing = length patients_list - 455) /\
  (length patients_list < Split.train_size ->
   exists msg,
     fst (Split.split_patients seed permutation st patients_list)
       = Py.Raise (Py.ValueError msg)).
Proof.
  intros Hperm Hnodup. split; [| apply split_patients_too_few].
  intros Hsize.
  destruct (split_patients_ok rng_state seed permutation st _ Hperm Hsize)
    as (training & Hsplit & Hpick).
  exists training, (filter (fun patient => patient ∉ training) patients_list).
  assert (Hlen : length training = 455).
  { rewrite <- (Forall2_length _ _ _ Hpick), length_take_le; [done |].
    rewrite Hperm, length_seq. exact Hsize. }
  assert (Htrain : NoDup training).
  { eapply picked_NoDup; [exact Hnodup | | exact Hpick].
    apply (sublist_NoDup _ (fst (permutation (seed Split.split_seed)
                                   (length patients_list))));
      [| apply sublist_take].
    rewrite Hperm. apply NoDup_seq. }
  assert (Hpart := remaining_partition patients_list training Hnodup Htrain
                     (picked_subset _ _ _ Hpick)).
  repeat split; try done.
  - intros patient Hin Hout. apply list_elem_of_filter in Hout as [Hn _].
    by apply Hn.
  - apply Permutation_length in Hpart. rewrite length_app in Hpart. lia.
Qed.

Lemma split_patients_fixed_size_partition_witness :
  exists training testing,
    fst (Split.split_patients Scenario.toy_seed Scenario.toy_permutation 7
           (Scenario.population 569))
      = Py.Ok (training, testing) /\
    Forall2 (fun i x => Scenario.population 569 !! i = Some x)
      (take Split.train_size
         (fst (Scenario.toy_permutation (Scenario.toy_seed Split.split_seed)
                 (length (Scenario.population 569)))))
      training /\
    length training = 455 /\
    Z.of_nat 455 = Split.spec_train_size (4 # 5) 569 /\
    NoDup training /\
    testing = filter (fun patient => patient ∉ training) (Scenario.population 569) /\
    (forall patient, patient ∈ training -> patient ∉ testing) /\
    training ++ testing ≡ₚ Scenario.population 569 /\
    length testing = length (Scenario.population 569) - 455.
Proof.
  apply (split_patients_fixed_size_partition nat Scenario.toy_seed
           Scenario.toy_permutation 7 (Scenario.population 569)).
  - apply toy_permutation_spec.
  - apply (bool_decide_unpack (NoDup (Scenario.population 569))).
    vm_compute. exact I.
  - vm_compute. lia.
Defined.

(** C2 as stated fails: with 570 patients and the notebook's 80 percent
    the train partition still has 455 members where the rounded fraction
    is 456, and with 10 patients the split raises where the rounded
    fraction is 8. *)
Lemma split_patients_size_is_not_rounded_fraction :
  (exists training testing,
     fst (Split.split_patients Scenario.toy_seed Scenario.toy_permutation 0
            (Scenario.population 570)) = Py.Ok (training, testing) /\
     Z.of_nat (length training) = 455%Z /\
     Split.spec_train_size (4 # 5) (length (Scenario.population 570)) = 456%Z) /\
  (fst (Split.split_patients Scenario.toy_seed Scenario.toy_permutation 0
          (Scenario.population 10))
     = Py.Raise (Py.ValueError
         "Cannot take a larger sample than population when 'replace=False'") /\
   Split.spec_train_size (4 # 5) (length (Scenario.population 10)) = 8%Z).
Proof.
  split; [| split; reflexivity].
  eexists _, _. split; [vm_compute; reflexivity |].
  split; vm_compute; reflexivity.
Qed.

(** ** The split and the order of the patient list *)

Section ListingFacts.
Import Py Split.





End ListingFacts.




(** The draw alone is not reproducible: without the seeding it follows
    the state of the generator. *)
Example choice_follows_generator_state :
  fst (Split.choice Scenario.toy_permutation 0 (Scenario.population 4) 2) <>
  fst (Split.choice Scenario.toy_permutation 1 (Scenario.population 4) 2).
Proof. vm_compute. discriminate. Qed.

(** ** Assignment of the image samples to the partitions *)

Section AssignFacts.
Import Py Np Imaging.
Variable finfo_max : Q.
Variable int : string -> option Z.
Variable patient_id_to_case : gmap Z Z.
Variables training testing : list string.

Local Abbreviation in_one_partition := (Imaging.in_one_partition training testing).

Lemma assign_inv st patient_id patient_features patient_class st1 :
  assign training testing st patient_id patient_features patient_class = Ok st1 ->
  (patient_id ∈ training /\ (patient_id ∉ testing) /\
   st1 = {| train_features := train_features st ++ [patient_features];
            train_classes := train_classes st ++ [patient_class];
            test_features := test_features st;
            test_classes := test_classes st |}) \/
  (patient_id ∈ testing /\ (patient_id ∉ training) /\
   st1 = {| train_features := train_features st;
            train_classes := train_classes st;
            test_features := test_features st ++ [patient_features];
            test_classes := test_classes st ++ [patient_class] |}).
Proof.
  unfold assign.
  destruct (decide (patient_id ∈ testing)) as [Hte|Hte];
    destruct (decide (patient_id ∈ training)) as [Htr|Htr];
    rewrite ?(bool_decide_eq_true_2 _ Hte), ?(bool_decide_eq_true_2 _ Htr),
      ?(bool_decide_eq_false_2 _ Hte), ?(bool_decide_eq_false_2 _ Htr);
    simpl; intros H; simplify_eq; auto.
Qed.

Lemma assign_ok st patient_id patient_features patient_class :
  in_one_partition patient_id ->
  is_ok (assign training testing st patient_id patient_features patient_class).
Proof.
  unfold assign.
  intros [[Htr Hte] | [Hte Htr]];
    rewrite ?(bool_decide_eq_true_2 _ Hte), ?(bool_decide_eq_true_2 _ Htr),
      ?(bool_decide_eq_false_2 _ Hte), ?(bool_decide_eq_false_2 _ Htr);
    exact I.
Qed.

(** What a successful run of the loop has done, sample by sample. *)
Lemma aggregate_inv samples st st' :
  aggregate finfo_max int patient_id_to_case training testing samples st = Ok st' ->
  exists loaded,
    Forall2 (fun sample l =>
               load_sample finfo_max int patient_id_to_case (fst sample) (snd sample) = Ok l)
            samples loaded /\
    Forall in_one_partition (map fst samples) /\
    train_features st' = train_features st ++
      map (fun x => fst (snd x))
          (filter (fun x => fst x ∈ training) (zip (map fst samples) loaded)) /\
    train_classes st' = train_classes st ++
      map (fun x => snd (snd x))
          (filter (fun x => fst x ∈ training) (zip (map fst samples) loaded)) /\
    test_features st' = test_features st ++
      map (fun x => fst (snd x))
          (filter (fun x => fst x ∈ testing) (zip (map fst samples) loaded)) /\
    test_classes st' = test_classes st ++
      map (fun x => snd (snd x))
          (filter (fun x => fst x ∈ testing) (zip (map fst samples) loaded)).
Proof.
  revert st. induction samples as [|[patient_id s] samples IH]; intros st H.
  - simpl in H. injection H as <-. exists []. simpl.
    rewrite !app_nil_r. repeat split; constructor.
  - unfold aggregate in H. simpl in H. unfold aggregate_step in H. simpl in H.
    destruct (load_sample finfo_max int patient_id_to_case patient_id s)
      as [[patient_features patient_class]|] eqn:Hload; [| done].
    simpl in H.
    destruct (assign training testing st patient_id patient_features patient_class)
      as [st1|] eqn:Hassign; [| done].
    simpl in H. destruct (IH _ H) as (loaded & Hl & Hone & Htf & Htc & Hsf & Hsc).
    exists ((patient_features, patient_class) :: loaded).
    split; [by constructor |].
    apply assign_inv in Hassign as [(Htr & Hte & ->) | (Hte & Htr & ->)];
      simpl in *; rewrite !filter_cons; simpl;
      (destruct (decide (patient_id ∈ training)); [| try done]);
      (destruct (decide (patient_id ∈ testing)); try done);
      simpl; rewrite Htf, Htc, Hsf, Hsc, <- ?app_assoc; simpl;
      (split; [constructor; [unfold Imaging.in_one_partition; auto | done] | done]).
Qed.

(** The loop completes when every sample loads and every patient is in
    exactly one list. *)
Lemma aggregate_total samples st :
  Forall (fun sample =>
            is_ok (load_sample finfo_max int patient_id_to_case (fst sample) (snd sample)))
         samples ->
  Forall in_one_partition (map fst samples) ->
  is_ok (aggregate finfo_max int patient_id_to_case training testing samples st).
Proof.
  revert st. induction samples as [|[patient_id s] samples IH];
    intros st Hload Hone; [exact I |].
  apply Forall_cons in Hload as [Hl Hload]. simpl in Hone.
  apply Forall_cons in Hone as [Ho Hone].
  unfold aggregate. simpl. unfold aggregate_step. simpl in *.
  destruct (load_sample finfo_max int patient_id_to_case patient_id s)
    as [[patient_features patient_class]|]; [| done]. simpl.
  pose proof (assign_ok st patient_id patient_features patient_class Ho) as Ha.
  destruct (assign training testing st patient_id patient_features patient_class);
    [| done].
  simpl. by apply IH.
Qed.

Lemma fold_result_app {X S : Type} (f : S -> X -> result S)
    (l1 l2 : list X) (s0 : S) :
  fold_result f (l1 ++ l2) s0 =
  bind (fold_result f l1 s0) (fold_result f l2).
Proof.
  revert s0. induction l1 as [|x l1 IH]; intros s0; simpl; [done |].
  destruct (f s0 x); simpl; [apply IH | done].
Qed.

(** A sample that loads and is reached, and whose patient is in neither
    list, ends the run with the error of the last branch. *)
Lemma aggregate_raises_not_found before sample after st st1 l :
  aggregate finfo_max int patient_id_to_case training testing before st = Ok st1 ->
  load_sample finfo_max int patient_id_to_case (fst sample) (snd sample) = Ok l ->
  (fst sample ∉ training) -> (fst sample ∉ testing) ->
  aggregate finfo_max int patient_id_to_case training testing
    (before ++ sample :: after) st
  = Raise (ValueError "Patient ID not found!").
Proof.
  intros Hbefore Hload Htr Hte. unfold aggregate in *.
  rewrite fold_result_app, Hbefore. simpl. unfold aggregate_step at 1.
  rewrite Hload. simpl. unfold assign.
  by rewrite (bool_decide_eq_false_2 _ Hte), (bool_decide_eq_false_2 _ Htr).
Qed.

(** A sample of a patient who is in neither list stops the run. *)
Lemma aggregate_unknown_patient samples st sample :
  sample ∈ samples -> (fst sample ∉ training) -> (fst sample ∉ testing) ->
  ~ is_ok (aggregate finfo_max int patient_id_to_case training testing samples st).
Proof.
  intros Hin Htr Hte Hok.
  destruct (aggregate finfo_max int patient_id_to_case training testing samples st)
    as [st'|] eqn:Hrun; [| done].
  apply aggregate_inv in Hrun as (_ & _ & Hone & _).
  rewrite Forall_forall in Hone.
  destruct (Hone (fst sample)) as [[? _] | [? _]]; [| done | done].
  apply list_elem_of_fmap. by exists sample.
Qed.
End AssignFacts.

Section PartitionFacts.
Import Py Np Imaging.

Lemma remaining_in_one_partition (patients training : list string) :
  (forall x, x ∈ training -> x ∈ patients) ->
  forall p, p ∈ patients ->
    in_one_partition training
      (filter (fun patient => patient ∉ training) patients) p.
Proof.
  intros Hsub p Hp. unfold in_one_partition.
  destruct (decide (p ∈ training)) as [Hin|Hout].
  - left. split; [done |]. rewrite list_elem_of_filter. tauto.
  - right. split; [| done]. by apply list_elem_of_filter.
Qed.

Lemma feature_masks_patient (data : list patient_dir) sample :
  sample ∈ feature_masks data -> fst sample ∈ patients_list data.
Proof.
  unfold feature_masks, patients_list.
  rewrite !list_elem_of_In, in_flat_map. intros (p & Hp & Hs).
  apply in_map_iff in Hs as (s & <- & _). simpl.
  apply in_map_iff. by exists p.
Qed.

Lemma load_sample_class finfo_max int (patient_id_to_case : gmap Z Z) patient_id s l :
  load_sample finfo_max int patient_id_to_case patient_id s = Ok l ->
  exists id, int patient_id = Some id /\ patient_id_to_case !! id = Some (snd l).
Proof.
  unfold load_sample. destruct (int patient_id) as [id|]; [| done]. simpl.
  destruct (patient_id_to_case !! id) as [c|] eqn:Hc; [| done]. simpl.
  destruct (first_item (mask_means s)) as [mask|]; [| done]. simpl.
  destruct (load_features finfo_max mask (feature_files s)) as [pf|]; [| done]. simpl.
  intros [= <-]. by exists id.
Qed.

Lemma entries_loaded finfo_max int (patient_id_to_case : gmap Z Z)
    (samples : list (string * sample_dir)) loaded x :
  Forall2 (fun sample l =>
             load_sample finfo_max int patient_id_to_case (fst sample) (snd sample) = Ok l)
          samples loaded ->
  x ∈ zip (map fst samples) loaded ->
  exists s, load_sample finfo_max int patient_id_to_case (fst x) s = Ok (snd x).
Proof.
  induction 1 as [|sample l samples loaded Hl _ IH]; simpl; intros Hin.
  - by apply elem_of_nil in Hin.
  - apply elem_of_cons in Hin as [-> | Hin]; [by exists (snd sample) | by apply IH].
Qed.

Lemma Forall_is_okb {A B : Type} (f : A -> result B) (l : list A) :
  forallb (fun x => is_okb (f x)) l = true -> Forall (fun x => is_ok (f x)) l.
Proof.
  induction l as [|x l IH]; simpl; [constructor |].
  intros H. apply andb_prop in H as [Hx Hl]. constructor; [| by apply IH].
  by destruct (f x).
Qed.
(** The two filters of the loop split the entries of a run in which
    every patient is in exactly one list. *)
Lemma partition_lengths {Y : Type} (training testing : list string)
    (names : list string) (loaded : list Y) :
  Forall (Imaging.in_one_partition training testing) names ->
  length (filter (fun x : string * Y => fst x ∈ training) (zip names loaded)) +
  length (filter (fun x : string * Y => fst x ∈ testing) (zip names loaded))
    = length (zip names loaded).
Proof.
  intros Hone. revert loaded.
  induction Hone as [|p names Hp _ IH]; intros [|l loaded]; simpl; try done.
  rewrite !filter_cons. simpl. specialize (IH loaded).
  destruct Hp as [[Htr Hte] | [Hte Htr]];
    rewrite ?(decide_True _ _ Htr), ?(decide_False _ _ Htr),
      ?(decide_True _ _ Hte), ?(decide_False _ _ Hte); simpl; lia.
Qed.
End PartitionFacts.

(** C10. At the end of the loop body a sample whose patient is in
    exactly one of the two lists is appended, with its label, to the
    lists of that partition and the other lists stay as they are; one
    whose patient is in neither list raises
    [ValueError('Patient ID not found!')] and one whose patient is in
    both fails the assertion. So a run over samples that all load and
    whose patients are each in exactly one list completes and has
    appended every sample, in order, to exactly one of the train and
    test lists, the one of its patient; a run over samples one of which
    has an unlisted patient never completes, and ends with that
    [ValueError] when the sample is reached and loads; and whatever run
    completes has appended every sample in that way. *)
Theorem aggregate_assigns_each_sample_or_aborts
    (finfo_max : Q) (int : string -> option Z) (patient_id_to_case : gmap Z Z)
    (training testing : list string) :
  (forall st patient_id patient_features patient_class,
     patient_id ∈ training -> patient_id ∉ testing ->
     Imaging.assign training testing st patient_id patient_features patient_class
       = Py.Ok {| Imaging.train_features :=
                    Imaging.train_features st ++ [patient_features];
                  Imaging.train_classes :=
                    Imaging.train_classes st ++ [patient_class];
                  Imaging.test_features := Imaging.test_features st;
                  Imaging.test_classes := Imaging.test_classes st |}) /\
  (forall st patient_id patient_features patient_class,
     patient_id ∈ testing -> patient_id ∉ training ->
     Imaging.assign training testing st patient_id patient_features patient_class
       = Py.Ok {| Imaging.train_features := Imaging.train_features st;
                  Imaging.train_classes := Imaging.train_classes st;
                  Imaging.test_features :=
                    Imaging.test_features st ++ [patient_features];
                  Imaging.test_classes :=
                    Imaging.test_classes st ++ [patient_class] |}) /\
  (forall st patient_id patient_features patient_class,
     patient_id ∉ training -> patient_id ∉ testing ->
     Imaging.assign training testing st patient_id patient_features patient_class
       = Py.Raise (Py.ValueError "Patient ID not found!")) /\
  (forall st patient_id patient_features patient_class,
     patient_id ∈ training -> patient_id ∈ testing ->
     Imaging.assign training testing st patient_id patient_features patient_class
       = Py.Raise Py.AssertionError) /\
  (forall samples st,
     Forall (fun sample =>
               Py.is_ok (Imaging.load_sample finfo_max int patient_id_to_case
                           (fst sample) (snd sample)))
            samples ->
     Forall (Imaging.in_one_partition training testing) (map fst samples) ->
     exists st' loaded,
       Imaging.aggregate finfo_max int patient_id_to_case training testing samples st
         = Py.Ok st' /\
       Forall2 (fun sample l =>
                  Imaging.load_sample finfo_max int patient_id_to_case
                    (fst sample) (snd sample) = Py.Ok l)
               samples loaded /\
       Imaging.train_features st' = Imaging.train_features st ++
         map (fun x => fst (snd x))
             (filter (fun x => fst x ∈ training) (zip (map fst samples) loaded)) /\
       Imaging.train_classes st' = Imaging.train_classes st ++
         map (fun x => snd (snd x))
             (filter (fun x => fst x ∈ training) (zip (map fst samples) loaded)) /\
       Imaging.test_features st' = Imaging.test_features st ++
         map (fun x => fst (snd x))
             (filter (fun x => fst x ∈ testing) (zip (map fst samples) loaded)) /\
       Imaging.test_classes st' = Imaging.test_classes st ++
         map (fun x => snd (snd x))
             (filter (fun x => fst x ∈ testing) (zip (map fst samples) loaded)) /\
       length (Imaging.train_features st') + length (Imaging.test_features st')
         = length (Imaging.train_features st) + length (Imaging.test_features st)
           + length samples) /\
  (forall samples st sample,
     sample ∈ samples -> (fst sample ∉ training) -> (fst sample ∉ testing) ->
     ~ Py.is_ok (Imaging.aggregate finfo_max int patient_id_to_case training testing
                   samples st)) /\
  (forall before sample after st st1 l,
     Imaging.aggregate finfo_max int patient_id_to_case training testing before st
       = Py.Ok st1 ->
     Imaging.load_sample finfo_max int patient_id_to_case (fst sample) (snd sample)
       = Py.Ok l ->
     (fst sample ∉ training) -> (fst sample ∉ testing) ->
     Imaging.aggregate finfo_max int patient_id_to_case training testing
       (before ++ sample :: after) st
     = Py.Raise (Py.ValueError "Patient ID not found!")) /\
  (forall samples st st',
     Imaging.aggregate finfo_max int patient_id_to_case training testing samples st
       = Py.Ok st' ->
     exists loaded,
       Forall2 (fun sample l =>
                  Imaging.load_sample finfo_max int patient_id_to_case
                    (fst sample) (snd sample) = Py.Ok l)
               samples loaded /\
       Forall (Imaging.in_one_partition training testing) (map fst samples) /\
       Imaging.train_features st' = Imaging.train_features st ++
         map (fun x => fst (snd x))
             (filter (fun x => fst x ∈ training) (zip (map fst samples) loaded)) /\
       Imaging.train_classes st' = Imaging.train_classes st ++
         map (fun x => snd (snd x))
             (filter (fun x => fst x ∈ training) (zip (map fst samples) loaded)) /\
       Imaging.test_features st' = Imaging.test_features st ++
         map (fun x => fst (snd x))
             (filter (fun x => fst x ∈ testing) (zip (map fst samples) loaded)) /\
       Imaging.test_classes st' = Imaging.test_classes st ++
         map (fun x => snd (snd x))
             (filter (fun x => fst x ∈ testing) (zip (map fst samples) loaded))).
Proof.
  split; [| split; [| split; [| split; [| split; [| split; [| split]]]]]].
  - intros st patient_id pf pc Htr Hte. unfold Imaging.assign.
    by rewrite (bool_decide_eq_false_2 _ Hte), (bool_decide_eq_true_2 _ Htr).
  - intros st patient_id pf pc Hte Htr. unfold Imaging.assign.
    by rewrite (bool_decide_eq_true_2 _ Hte), (bool_decide_eq_false_2 _ Htr).
  - intros st patient_id pf pc Htr Hte. unfold Imaging.assign.
    by rewrite (bool_decide_eq_false_2 _ Hte), (bool_decide_eq_false_2 _ Htr).
  - intros st patient_id pf pc Htr Hte. unfold Imaging.assign.
    by rewrite (bool_decide_eq_true_2 _ Hte), (bool_decide_eq_true_2 _ Htr).
  - intros samples st Hload Hone.
    pose proof (aggregate_total finfo_max int patient_id_to_case training testing
                  samples st Hload Hone) as Hok.
    destruct (Imaging.aggregate finfo_max int patient_id_to_case training testing
                samples st) as [st'|] eqn:Hrun; [| done].
    destruct (aggregate_inv _ _ _ _ _ _ _ _ Hrun)
      as (loaded & Hl & _ & Htf & Htc & Hsf & Hsc).
    exists st', loaded. repeat (split; [done |]).
    rewrite Htf, Hsf, !length_app, !length_map.
    pose proof (partition_lengths training testing (map fst samples) loaded Hone) as Hlen.
    rewrite length_zip, length_map, <- (Forall2_length _ _ _ Hl) in Hlen. lia.
  - intros samples st sample. apply aggregate_unknown_patient.
  - intros before sample after st st1 l. apply aggregate_raises_not_found.
  - intros samples st st'. apply aggregate_inv.
Qed.

Lemma aggregate_assigns_each_sample_or_aborts_witness :
  exists st',
    Imaging.aggregate Np.float64_max Scenario.decimal Scenario.labels
      ["2036311"] ["2036312"]
      [("2036311", Scenario.left_image); ("2036312", Scenario.right_image);
       ("2036311", Scenario.right_image)]
      Imaging.empty_sets = Py.Ok st' /\
    Imaging.train_classes st' = [1%Z; 1%Z] /\
    Imaging.test_classes st' = [0%Z] /\
    length (Imaging.train_features st') = 2 /\
    length (Imaging.test_features st') = 1.
Proof.
  destruct (aggregate_assigns_each_sample_or_aborts Np.float64_max Scenario.decimal
              Scenario.labels ["2036311"] ["2036312"])
    as (_ & _ & _ & _ & Hruns & _).
  destruct (Hruns [("2036311", Scenario.left_image); ("2036312", Scenario.right_image);
                   ("2036311", Scenario.right_image)] Imaging.empty_sets)
    as (st' & loaded & Hrun & _).
  - apply Forall_is_okb. vm_compute. reflexivity.
  - refine (bool_decide_unpack
              (Forall (fun p : string =>
                         (p ∈ ["2036311"] /\ p ∉ ["2036312"]) \/
                         (p ∈ ["2036312"] /\ p ∉ ["2036311"]))
                      ["2036311"; "2036312"; "2036311"]) _).
    vm_compute. exact I.
  - exists st'. split; [exact Hrun |].
    vm_compute in Hrun. injection Hrun as <-. repeat split.
Defined.

(** C1. On a data folder with at least 455 patients whose samples all
    load, the split and the loop over the samples both complete, and:
    no patient is in both partitions; every patient of the population,
    hence every patient that contributes a sample, is in exactly one; the
    train lists hold, in order, the features and labels of exactly the
    samples of training patients, the test lists those of testing
    patients; and two entries of the same patient carry the same label and
    go to the same partition. *)
Theorem patient_level_partition
    (rng_state : Type) (seed : Z -> rng_state)
    (permutation : rng_state -> nat -> list nat * rng_state) (st : rng_state)
    (finfo_max : Q) (int : string -> option Z) (patient_id_to_case : gmap Z Z)
    (data : list Imaging.patient_dir) :
  fst (permutation (seed Split.split_seed) (length (Imaging.patients_list data)))
    ≡ₚ seq 0 (length (Imaging.patients_list data)) ->
  Split.train_size <= length (Imaging.patients_list data) ->
  Forall (fun sample =>
            Py.is_ok (Imaging.load_sample finfo_max int patient_id_to_case
                        (fst sample) (snd sample)))
         (Imaging.feature_masks data) ->
  exists training testing sets loaded,
    fst (Split.split_patients seed permutation st (Imaging.patients_list data))
      = Py.Ok (training, testing) /\
    Imaging.aggregate finfo_max int patient_id_to_case training testing
      (Imaging.feature_masks data) Imaging.empty_sets = Py.Ok sets /\
    (forall p, p ∈ training -> p ∉ testing) /\
    (forall p, p ∈ Imaging.patients_list data ->
               Imaging.in_one_partition training testing p) /\
    (forall sample, sample ∈ Imaging.feature_masks data ->
               Imaging.in_one_partition training testing (fst sample)) /\
    Forall2 (fun sample l =>
               Imaging.load_sample finfo_max int patient_id_to_case
                 (fst sample) (snd sample) = Py.Ok l)
            (Imaging.feature_masks data) loaded /\
    let entries := zip (map fst (Imaging.feature_masks data)) loaded in
    Imaging.train_features sets =
      map (fun x => fst (snd x)) (filter (fun x => fst x ∈ training) entries) /\
    Imaging.train_classes sets =
      map (fun x => snd (snd x)) (filter (fun x => fst x ∈ training) entries) /\
    Imaging.test_features sets =
      map (fun x => fst (snd x)) (filter (fun x => fst x ∈ testing) entries) /\
    Imaging.test_classes sets =
      map (fun x => snd (snd x)) (filter (fun x => fst x ∈ testing) entries) /\
    (forall x y, x ∈ entries -> y ∈ entries -> fst x = fst y ->
       snd (snd x) = snd (snd y) /\
       (fst x ∈ training <-> fst y ∈ training) /\
       (fst x ∈ testing <-> fst y ∈ testing)).
Proof.
  intros Hperm Hsize Hload.
  destruct (split_patients_ok rng_state seed permutation st _ Hperm Hsize)
    as (training & Hsplit & Hpick).
  set (testing := filter (fun patient => patient ∉ training)
                    (Imaging.patients_list data)) in *.
  assert (Hone : forall p, p ∈ Imaging.patients_list data ->
                   Imaging.in_one_partition training testing p).
  { apply remaining_in_one_partition. by apply (picked_subset _ _ _ Hpick). }
  assert (Hsamples : Forall (Imaging.in_one_partition training testing)
                       (map fst (Imaging.feature_masks data))).
  { apply Forall_forall. intros p Hp.
    apply list_elem_of_fmap in Hp as (sample & -> & Hs).
    by apply Hone, feature_masks_patient. }
  pose proof (aggregate_total finfo_max int patient_id_to_case training testing
                _ Imaging.empty_sets Hload Hsamples) as Hok.
  destruct (Imaging.aggregate finfo_max int patient_id_to_case training testing
              (Imaging.feature_masks data) Imaging.empty_sets)
    as [sets|] eqn:Hrun; [| done].
  destruct (aggregate_inv _ _ _ _ _ _ _ _ Hrun)
    as (loaded & Hl & _ & Htf & Htc & Hsf & Hsc).
  exists training, testing, sets, loaded.
  split; [done |]. split; [done |].
  split; [intros p Hp Hq; apply list_elem_of_filter in Hq as [Hn _]; by apply Hn |].
  split; [done |].
  split; [intros sample Hs; by apply Hone, feature_masks_patient |].
  split; [done |].
  simpl. split; [done |]. split; [done |]. split; [done |]. split; [done |].
  intros x y Hx Hy Hxy.
  destruct (entries_loaded _ _ _ _ _ _ Hl Hx) as (sx & Hlx).
  destruct (entries_loaded _ _ _ _ _ _ Hl Hy) as (sy & Hly).
  apply load_sample_class in Hlx as (idx & Hix & Hcx).
  apply load_sample_class in Hly as (idy & Hiy & Hcy).
  rewrite Hxy in *. split; [congruence | done].
Qed.

Lemma patient_level_partition_witness :
  exists training testing sets loaded,
    fst (Split.split_patients Scenario.toy_seed Scenario.toy_permutation 5
           (Imaging.patients_list (Scenario.data_folder 460)))
      = Py.Ok (training, testing) /\
    Imaging.aggregate Np.float64_max Scenario.decimal (Scenario.case_table 460) training testing
      (Imaging.feature_masks (Scenario.data_folder 460)) Imaging.empty_sets
      = Py.Ok sets /\
    (forall p, p ∈ training -> p ∉ testing) /\
    (forall p, p ∈ Imaging.patients_list (Scenario.data_folder 460) ->
               Imaging.in_one_partition training testing p) /\
    (forall sample, sample ∈ Imaging.feature_masks (Scenario.data_folder 460) ->
               Imaging.in_one_partition training testing (fst sample)) /\
    Forall2 (fun sample l =>
               Imaging.load_sample Np.float64_max Scenario.decimal (Scenario.case_table 460)
                 (fst sample) (snd sample) = Py.Ok l)
            (Imaging.feature_masks (Scenario.data_folder 460)) loaded /\
    let entries :=
      zip (map fst (Imaging.feature_masks (Scenario.data_folder 460))) loaded in
    Imaging.train_features sets =
      map (fun x => fst (snd x)) (filter (fun x => fst x ∈ training) entries) /\
    Imaging.train_classes sets =
      map (fun x => snd (snd x)) (filter (fun x => fst x ∈ training) entries) /\
    Imaging.test_features sets =
      map (fun x => fst (snd x)) (filter (fun x => fst x ∈ testing) entries) /\
    Imaging.test_classes sets =
      map (fun x => snd (snd x)) (filter (fun x => fst x ∈ testing) entries) /\
    (forall x y, x ∈ entries -> y ∈ entries -> fst x = fst y ->
       snd (snd x) = snd (snd y) /\
       (fst x ∈ training <-> fst y ∈ training) /\
       (fst x ∈ testing <-> fst y ∈ testing)).
Proof.
  apply (patient_level_partition nat Scenario.toy_seed Scenario.toy_permutation 5
           Np.float64_max Scenario.decimal (Scenario.case_table 460) (Scenario.data_folder 460)).
  - apply toy_permutation_spec.
  - vm_compute. lia.
  - apply Forall_is_okb. vm_compute. reflexivity.
Defined.

(** ** Arrays: cropping, broadcasting and channel assignment *)

Lemma lookup_map {X Y : Type} (f : X -> Y) (l : list X) (i : nat) :
  map f l !! i = f <$> (l !! i).
Proof. exact (list_lookup_fmap f l i). Qed.

Section NpFacts.
Import Py Np.
Context {A : Type}.
Implicit Types (m b : list (list A)) (t : list (list (list A))).

Lemma rect_lookup h w m r row :
  rect h w m -> m !! r = Some row -> r < h /\ length row = w.
Proof.
  intros [Hh Hw] Hr. split.
  - rewrite <- Hh. by eapply lookup_lt_Some.
  - rewrite Forall_forall in Hw. apply Hw. by eapply list_elem_of_lookup_2.
Qed.

Lemma get2_Some h w m r c :
  rect h w m -> r < h -> c < w -> is_Some (get2 m r c).
Proof.
  intros Hm Hr Hc. unfold get2.
  destruct (m !! r) as [row|] eqn:Hrow.
  - apply lookup_lt_is_Some_2. destruct (rect_lookup _ _ _ _ _ Hm Hrow). lia.
  - apply lookup_ge_None_1 in Hrow. destruct Hm. lia.
Qed.

Lemma get2_crop h w m r c :
  r < h -> c < w -> get2 (crop h w m) r c = get2 m r c.
Proof.
  intros Hr Hc. unfold get2, crop.
  rewrite lookup_map, lookup_take_lt by done.
  destruct (m !! r); simpl; [by rewrite lookup_take_lt | done].
Qed.

Lemma rect_crop h w h' w' m :
  rect h' w' m -> h <= h' -> w <= w' -> rect h w (crop h w m).
Proof.
  intros [Hh Hw] Hle1 Hle2. unfold crop. split.
  - rewrite length_map, length_take_le; lia.
  - apply Forall_fmap, Forall_take.
    eapply Forall_impl; [exact Hw |]. intros row Hrow. simpl in *.
    rewrite length_take. lia.
Qed.

Lemma stretch_same {B : Type} (n : nat) (l : list B) :
  length l = n -> stretch n l = l.
Proof. destruct l as [|x [|y l]]; simpl; intros <-; done. Qed.

Lemma cols_rect h w m : rect h w m -> 0 < h -> cols m = w.
Proof.
  intros [Hh Hw] Hpos. destruct m as [|row m]; simpl in *; [lia |].
  by apply Forall_cons in Hw as [? _].
Qed.

Lemma broadcast_to_rect h w m :
  rect h w m -> 0 < h -> broadcast_to h w m = Ok m.
Proof.
  intros Hm Hpos. unfold broadcast_to, broadcastable, rows.
  rewrite (cols_rect _ _ _ Hm Hpos). destruct Hm as [Hh Hw].
  rewrite Hh, !Nat.eqb_refl. simpl.
  rewrite (stretch_same h m Hh). f_equal. clear Hh Hpos.
  induction Hw as [|row m Hrow _ IH]; simpl; [done |].
  by rewrite (stretch_same w row Hrow), IH.
Qed.

(** An array with too few rows or columns, other than a single one, does
    not broadcast. *)
Lemma broadcast_to_small h w h' w' m :
  rect h' w' m -> 0 < h -> 0 < w ->
  (h' < h /\ h' <> 1) \/ (w' < w /\ w' <> 1) ->
  broadcast_to h w (crop h w m)
    = Raise (ValueError "could not broadcast input array").
Proof.
  intros Hm Hh Hw Hsmall. unfold broadcast_to, broadcastable, rows.
  assert (Hrows : length (crop h w m) = min h h').
  { unfold crop. destruct Hm as [<- _]. by rewrite length_map, length_take. }
  destruct (decide (h' = 0)) as [-> | Hne0].
  { rewrite Hrows, Nat.min_0_r.
    destruct (Nat.eqb_spec 0 h); [lia |]. done. }
  destruct Hsmall as [[Hlt Hne] | [Hlt Hne]].
  - rewrite Hrows, Nat.min_r by lia.
    destruct (Nat.eqb_spec h' h); [lia |].
    destruct (Nat.eqb_spec h' 1); [lia |]. done.
  - assert (Hc : cols (crop h w m) = w').
    { destruct Hm as [Hlen Hall]. destruct m as [|row m]; simpl in *; [lia |].
      apply Forall_cons in Hall as [Hrow _].
      destruct h; [lia |]. simpl. rewrite length_take. lia. }
    rewrite Hc.
    destruct (Nat.eqb_spec w' w); [lia |].
    destruct (Nat.eqb_spec w' 1); [lia |]. by rewrite andb_false_r.
Qed.

Lemma shape3_lookup h w c t r row :
  shape3 h w c t -> t !! r = Some row ->
  r < h /\ length row = w /\ Forall (fun px => length px = c) row.
Proof.
  intros [Hh Hall] Hr. rewrite Forall_forall in Hall.
  destruct (Hall row) as [Hw Hpx]; [by eapply list_elem_of_lookup_2 |].
  split; [| done]. rewrite <- Hh. by eapply lookup_lt_Some.
Qed.

Lemma shape3_set_channel h w c k b t :
  shape3 h w c t -> rect h w b -> shape3 h w c (set_channel k b t).
Proof.
  intros Ht Hb. unfold set_channel. split.
  - rewrite length_zip_with. destruct Ht as [-> _], Hb as [-> _]. lia.
  - apply Forall_forall. intros row Hrow.
    apply list_elem_of_lookup_1 in Hrow as [r Hr].
    apply lookup_zip_with_Some in Hr as (trow & brow & -> & Htr & Hbr).
    destruct (shape3_lookup _ _ _ _ _ _ Ht Htr) as (_ & Hlen & Hpx).
    destruct (rect_lookup _ _ _ _ _ Hb Hbr) as [_ Hblen].
    split; [rewrite length_zip_with; lia |].
    apply Forall_forall. intros px Hin.
    apply list_elem_of_lookup_1 in Hin as [i Hi].
    apply lookup_zip_with_Some in Hi as (px' & v & -> & Hpx' & _).
    rewrite length_insert. rewrite Forall_forall in Hpx. apply Hpx.
    by eapply list_elem_of_lookup_2.
Qed.

Lemma get3_set_channel h w c k b t r col k' :
  shape3 h w c t -> rect h w b -> k < c -> r < h -> col < w ->
  get3 (set_channel k b t) r col k' =
    if decide (k' = k) then get2 b r col else get3 t r col k'.
Proof.
  intros Ht Hb Hk Hr Hc. unfold get3, get2, set_channel.
  rewrite lookup_zip_with.
  destruct (lookup_lt_is_Some_2 t r) as [trow Htr]; [destruct Ht; lia |].
  destruct (lookup_lt_is_Some_2 b r) as [brow Hbr]; [destruct Hb; lia |].
  rewrite Htr, Hbr. simpl. rewrite lookup_zip_with.
  destruct (shape3_lookup _ _ _ _ _ _ Ht Htr) as (_ & Hlen & Hpx).
  destruct (rect_lookup _ _ _ _ _ Hb Hbr) as [_ Hblen].
  destruct (lookup_lt_is_Some_2 trow col) as [px Hpx']; [lia |].
  destruct (lookup_lt_is_Some_2 brow col) as [v Hv]; [lia |].
  rewrite Hpx', Hv. simpl.
  assert (length px = c).
  { rewrite Forall_forall in Hpx. apply Hpx. by eapply list_elem_of_lookup_2. }
  destruct (decide (k' = k)) as [-> | Hne].
  - apply list_lookup_insert_eq. lia.
  - by apply list_lookup_insert_ne.
Qed.
End NpFacts.

Lemma shape3_zeros h w c : Np.shape3 h w c (Np.zeros h w c).
Proof.
  unfold Np.zeros. split; [apply length_replicate |].
  apply Forall_replicate. split; [apply length_replicate |].
  apply Forall_replicate, length_replicate.
Qed.

Lemma get3_zeros h w c r col k :
  r < h -> col < w -> k < c -> Np.get3 (Np.zeros h w c) r col k = Some 0%Q.
Proof.
  intros Hr Hc Hk. unfold Np.get3, Np.zeros.
  by rewrite !lookup_replicate_2.
Qed.

(** ** Masking, cropping and stacking of the feature maps *)

Section ImagingFacts.
Import Py Np Imaging.

Lemma fold_result_fails {X S : Type} (f : S -> X -> result S)
    (l : list X) (s0 : S) (x : X) :
  x ∈ l -> (forall s, ~ is_ok (f s x)) -> ~ is_ok (fold_result f l s0).
Proof.
  revert s0. induction l as [|y l IH]; intros s0 Hin Hbad.
  - by apply elem_of_nil in Hin.
  - simpl. destruct (f s0 y) as [s1|] eqn:Hy; simpl; [| tauto].
    apply elem_of_cons in Hin as [-> | Hin]; [| by apply IH].
    exfalso. apply (Hbad s0). by rewrite Hy.
Qed.

Lemma map_result_inv {X Y : Type} (f : X -> result Y) (l : list X) (l' : list Y) :
  map_result f l = Ok l' -> Forall2 (fun x y => f x = Ok y) l l'.
Proof.
  revert l'. induction l as [|x l IH]; intros l' H; simpl in H.
  - injection H as <-. constructor.
  - destruct (f x) as [y|] eqn:Hx; [| done]. simpl in H.
    destruct (map_result f l) as [ys|]; [| done]. simpl in H.
    injection H as <-. constructor; [done | by apply IH].
Qed.

Lemma rect_nan_to_num finfo_max h w (vol : list (list fval)) :
  rect h w vol -> rect h w (nan_to_num finfo_max vol).
Proof.
  intros [Hh Hw]. unfold nan_to_num. split; [by rewrite length_map |].
  apply Forall_fmap. eapply Forall_impl; [exact Hw |].
  intros row Hrow. simpl. by rewrite length_map.
Qed.

Lemma get2_nan_to_num finfo_max (vol : list (list fval)) r c :
  get2 (nan_to_num finfo_max vol) r c = nan_to_num1 finfo_max <$> get2 vol r c.
Proof.
  unfold get2, nan_to_num. rewrite lookup_map.
  destruct (vol !! r); simpl; [apply lookup_map | done].
Qed.

Lemma multiply_same_shape h w (a b : list (list Q)) :
  rect h w a -> rect h w b -> 0 < h ->
  multiply a b = Ok (zip_with (zip_with Qmult) a b).
Proof.
  intros Ha Hb Hpos. unfold multiply, rows.
  rewrite (cols_rect _ _ _ Ha Hpos), (cols_rect _ _ _ Hb Hpos).
  destruct Ha as [Hla Hwa] eqn:Ea, Hb as [Hlb Hwb] eqn:Eb.
  rewrite Hla, Hlb. unfold broadcast_dim. rewrite !Nat.eqb_refl.
  by rewrite (broadcast_to_rect h w a), (broadcast_to_rect h w b).
Qed.

Lemma get2_product (a b : list (list Q)) r c x y :
  get2 a r c = Some x -> get2 b r c = Some y ->
  get2 (zip_with (zip_with Qmult) a b) r c = Some (x * y)%Q.
Proof.
  unfold get2. rewrite lookup_zip_with.
  destruct (a !! r) as [ra|]; [| done]. destruct (b !! r) as [rb|]; [| done].
  simpl. rewrite lookup_zip_with. by intros -> ->.
Qed.

Lemma rect_product h w (a b : list (list Q)) :
  rect h w a -> rect h w b -> rect h w (zip_with (zip_with Qmult) a b).
Proof.
  intros [Hla Hwa] [Hlb Hwb]. split; [rewrite length_zip_with; lia |].
  apply Forall_forall. intros row Hrow.
  apply list_elem_of_lookup_1 in Hrow as [r Hr].
  apply lookup_zip_with_Some in Hr as (ra & rb & -> & Hra & Hrb).
  rewrite Forall_forall in Hwa, Hwb. rewrite length_zip_with.
  rewrite (Hwa ra), (Hwb rb); [lia | |]; by eapply list_elem_of_lookup_2.
Qed.

(** The dictionary the inner loop builds: every file's cleaned and
    masked map, in full size, under the name found in its file name. *)
Lemma load_features_from finfo_max h w mask files names d0 :
  rect h w mask -> 0 < h ->
  Forall (fun file => rect h w (snd file)) files ->
  Forall2 (fun file name => Re.search name_marker nii_gz (fst file) = Some name)
          files names ->
  NoDup names ->
  exists d,
    fold_result (load_feature finfo_max mask) files d0 = Ok d /\
    (forall i file name,
       files !! i = Some file -> names !! i = Some name ->
       d !! name = Some (zip_with (zip_with Qmult) (nan_to_num finfo_max (snd file)) mask)) /\
    (forall name, name ∉ names -> d !! name = d0 !! name).
Proof.
  intros Hmask Hpos Hvols Hnames. revert d0 Hvols.
  induction Hnames as [|file name files names Hname _ IH]; intros d0 Hvols Hnd.
  - exists d0. simpl. split; [done |]. split; [| done].
    intros i file name Hi. by rewrite lookup_nil in Hi.
  - apply Forall_cons in Hvols as [Hvol Hvols].
    apply NoDup_cons in Hnd as [Hfresh Hnd].
    set (masked := zip_with (zip_with Qmult) (nan_to_num finfo_max (snd file)) mask).
    destruct (IH (<[name := masked]> d0) Hvols Hnd) as (d & Hrun & Hin & Hout).
    exists d. simpl. unfold load_feature at 1.
    rewrite (multiply_same_shape h w) by (try apply rect_nan_to_num; done).
    simpl. rewrite Hname. simpl. split; [exact Hrun |]. split.
    + intros [|i] file' name' Hf Hn; simpl in *.
      * injection Hf as <-. injection Hn as <-.
        rewrite (Hout name Hfresh). apply lookup_insert_eq.
      * by apply (Hin i).
    + intros name' Hnot. apply not_elem_of_cons in Hnot as [Hne Hnot].
      rewrite (Hout name' Hnot). by apply lookup_insert_ne.
Qed.

Lemma stack_feature_fits h w c h' w' (d : gmap string (list (list Q))) t k name m :
  d !! name = Some m -> rect h' w' m -> h <= h' -> w <= w' -> 0 < h -> k < c ->
  stack_feature h w c d t (k, name) = Ok (set_channel k (crop h w m) t).
Proof.
  intros Hm Hrect Hh Hw Hpos Hk. unfold stack_feature. simpl. rewrite Hm. simpl.
  destruct (Nat.leb_spec c k); [lia |].
  by rewrite (broadcast_to_rect h w _ (rect_crop _ _ _ _ _ Hrect Hh Hw) Hpos).
Qed.

Lemma stack_feature_small h w c h' w' (d : gmap string (list (list Q))) t k name m :
  d !! name = Some m -> rect h' w' m -> 0 < h -> 0 < w ->
  (h' < h /\ h' <> 1) \/ (w' < w /\ w' <> 1) ->
  ~ is_ok (stack_feature h w c d t (k, name)).
Proof.
  intros Hm Hrect Hh Hw Hsmall. unfold stack_feature. simpl. rewrite Hm. simpl.
  destruct (c <=? k)%nat; [simpl; tauto |].
  rewrite (broadcast_to_small h w h' w' m) by done. simpl. tauto.
Qed.

(** The loop over the numbered feature names, started at number [j] on
    a tensor [t0]: the channels [j], [j+1], ... receive the cropped maps,
    every other channel keeps its content. *)
Lemma stack_fold h w c h' w' (d : gmap string (list (list Q))) names j t0 :
  0 < h -> h <= h' -> w <= w' ->
  shape3 h w c t0 ->
  j + length names <= c ->
  Forall (fun name => exists m, d !! name = Some m /\ rect h' w' m) names ->
  exists t,
    fold_result (stack_feature h w c d) (zip (seq j (length names)) names) t0
      = Ok t /\
    shape3 h w c t /\
    (forall k name m r col,
       names !! k = Some name -> d !! name = Some m -> r < h -> col < w ->
       get3 t r col (j + k) = get2 m r col) /\
    (forall k r col,
       k < j \/ j + length names <= k -> r < h -> col < w ->
       get3 t r col k = get3 t0 r col k).
Proof.
  intros Hpos Hh Hw. revert j t0.
  induction names as [|name names IH]; intros j t0 Ht0 Hlen Hall.
  - exists t0. simpl. split; [done |]. split; [done |]. split; [| done].
    intros k name m r col Hk. by rewrite lookup_nil in Hk.
  - apply Forall_cons in Hall as [(m & Hm & Hrect) Hall]. simpl in Hlen.
    pose proof (rect_crop _ _ _ _ _ Hrect Hh Hw) as Hcrop.
    destruct (IH (S j) (set_channel j (crop h w m) t0)) as (t & Hrun & Hshape & Hin & Hout);
      [by apply shape3_set_channel | lia | done |].
    exists t. simpl.
    rewrite (stack_feature_fits h w c h' w' d t0 j name m) by (done || lia).
    simpl. split; [exact Hrun |]. split; [done |]. split.
    + intros [|k] name' m' r col Hn Hm' Hr Hc; simpl in Hn.
      * injection Hn as <-. rewrite Hm in Hm'. injection Hm' as <-.
        rewrite Nat.add_0_r, (Hout j r col) by (done || lia).
        rewrite (get3_set_channel h w c) by (done || lia).
        rewrite decide_True by done. by apply get2_crop.
      * replace (j + S k) with (S j + k) by lia. by eapply Hin.
    + intros k r col Hk Hr Hc. rewrite (Hout k r col) by (done || lia).
      rewrite (get3_set_channel h w c) by (done || lia).
      rewrite decide_False by lia. done.
Qed.
End ImagingFacts.

(** C6, as the code has it. For a sample whose mask and feature volumes
    share a shape at least as large as the crop shape: every loaded value
    is cleaned ([NaN] to zero, the infinities to the largest finite floats
    of their sign), the cleaned map is multiplied element by element with
    the mask in full size, before any cropping, and filed under its
    feature name; each channel of the resulting tensor is the top-left
    crop of the masked map of the feature name with that number in the
    ordered name list, the channels beyond the list staying zero. A map
    with fewer rows or columns than the crop shape, unless it has exactly
    one, stops the run. The ordered name list of cell 8 is the sorted key
    list of the first training sample, used for every sample of both
    arrays. *)
Theorem imaging_tensor_masked_cropped_stacked
    (finfo_max : Q) (h w c h' w' : nat) (mask : list (list Q))
    (files : list (string * list (list Np.fval)))
    (names ordered : list string) :
  0 < h -> 0 < w -> h <= h' -> w <= w' ->
  Np.rect h' w' mask ->
  Forall (fun file => Np.rect h' w' (snd file)) files ->
  Forall2 (fun file name =>
             Re.search Imaging.name_marker Imaging.nii_gz (fst file) = Some name)
          files names ->
  NoDup names ->
  Forall (fun name => name ∈ names) ordered ->
  length ordered <= c ->
  (Np.nan_to_num1 finfo_max Np.NaN = 0%Q /\
   Np.nan_to_num1 finfo_max Np.PosInf = finfo_max /\
   Np.nan_to_num1 finfo_max Np.NegInf = (- finfo_max)%Q /\
   forall q, Np.nan_to_num1 finfo_max (Np.Finite q) = q) /\
  (exists d t,
     Imaging.load_features finfo_max mask files = Py.Ok d /\
     Imaging.stack_sample h w c ordered d = Py.Ok t /\
     Np.shape3 h w c t /\
     (forall i file name,
        files !! i = Some file -> names !! i = Some name ->
        exists m, d !! name = Some m /\ Np.rect h' w' m /\
          forall r col x y,
            Np.get2 (snd file) r col = Some x -> Np.get2 mask r col = Some y ->
            Np.get2 m r col = Some (Np.nan_to_num1 finfo_max x * y)%Q) /\
     (forall k i file name r col x y,
        ordered !! k = Some name ->
        files !! i = Some file -> names !! i = Some name ->
        r < h -> col < w ->
        Np.get2 (snd file) r col = Some x -> Np.get2 mask r col = Some y ->
        Np.get3 t r col k = Some (Np.nan_to_num1 finfo_max x * y)%Q) /\
     (forall k r col,
        length ordered <= k -> k < c -> r < h -> col < w ->
        Np.get3 t r col k = Some 0%Q)) /\
  (forall (d : gmap string (list (list Q))) k name m rows_m cols_m,
     ordered !! k = Some name -> d !! name = Some m ->
     Np.rect rows_m cols_m m ->
     (rows_m < h /\ rows_m <> 1) \/ (cols_m < w /\ cols_m <> 1) ->
     ~ Py.is_ok (Imaging.stack_sample h w c ordered d)) /\
  (forall st train_data test_data,
     Imaging.combine h w c st = Py.Ok (train_data, test_data) ->
     exists first,
       head (Imaging.train_features st) = Some first /\
       Sorted String.le (merge_sort String.le (elements (dom first))) /\
       merge_sort String.le (elements (dom first)) ≡ₚ elements (dom first) /\
       Forall2 (fun sample_dict t =>
                  Imaging.stack_sample h w c
                    (merge_sort String.le (elements (dom first))) sample_dict
                  = Py.Ok t)
               (Imaging.train_features st) train_data /\
       Forall2 (fun sample_dict t =>
                  Imaging.stack_sample h w c
                    (merge_sort String.le (elements (dom first))) sample_dict
                  = Py.Ok t)
               (Imaging.test_features st) test_data).
Proof.
  intros Hh Hw Hle1 Hle2 Hmask Hvols Hnames Hnd Hsub Hlen.
  assert (Hh' : 0 < h') by lia.
  split; [done |]. split; [| split].
  - destruct (load_features_from finfo_max h' w' mask files names ∅
                Hmask Hh' Hvols Hnames Hnd) as (d & Hload & Hin & _).
    assert (Hmaps : forall name, name ∈ names ->
              exists i file, files !! i = Some file /\ names !! i = Some name /\
                d !! name = Some (zip_with (zip_with Qmult)
                                    (Np.nan_to_num finfo_max (snd file)) mask)).
    { intros name Hname. apply list_elem_of_lookup_1 in Hname as [i Hi].
      destruct (Forall2_lookup_r _ _ _ _ _ Hnames Hi) as (file & Hf & _).
      exists i, file. split; [done |]. split; [done |]. by eapply Hin. }
    assert (Hrect : forall file, file ∈ files ->
              Np.rect h' w' (zip_with (zip_with Qmult)
                               (Np.nan_to_num finfo_max (snd file)) mask)).
    { intros file Hf. apply rect_product; [| done]. apply rect_nan_to_num.
      rewrite Forall_forall in Hvols. by apply Hvols. }
    destruct (stack_fold h w c h' w' d ordered 0 (Np.zeros h w c))
      as (t & Hstack & Hshape & Hchan & Hrest);
      [done | done | done | apply shape3_zeros | simpl; lia | |].
    { apply Forall_forall. intros name Hname. rewrite Forall_forall in Hsub.
      destruct (Hmaps name (Hsub _ Hname)) as (i & file & Hf & _ & Hd).
      eexists. split; [exact Hd |]. apply Hrect. by eapply list_elem_of_lookup_2. }
    exists d, t. split; [exact Hload |]. split; [exact Hstack |].
    split; [done |]. split; [| split].
    + intros i file name Hf Hn. eexists. split; [by eapply Hin |].
      split; [apply Hrect; by eapply list_elem_of_lookup_2 |].
      intros r col x y Hx Hy. apply get2_product; [| done].
      by rewrite get2_nan_to_num, Hx.
    + intros k i file name r col x y Hk Hf Hn Hr Hc Hx Hy.
      rewrite <- (Nat.add_0_l k).
      rewrite (Hchan k name _ r col Hk (Hin i file name Hf Hn) Hr Hc).
      apply get2_product; [| done]. by rewrite get2_nan_to_num, Hx.
    + intros k r col Hk1 Hk2 Hr Hc. rewrite (Hrest k r col) by (done || lia).
      by apply get3_zeros.
  - intros d k name m rows_m cols_m Hk Hm Hrect Hsmall.
    unfold Imaging.stack_sample.
    apply (fold_result_fails _ _ _ (k, name)).
    + apply list_elem_of_lookup. exists k. apply lookup_zip_Some.
      split; [| done]. apply lookup_seq. split; [done |].
      by eapply lookup_lt_Some.
    + intros t. by eapply stack_feature_small.
  - intros st train_data test_data Hrun. unfold Imaging.combine in Hrun.
    unfold Py.first_item in Hrun.
    destruct (head (Imaging.train_features st)) as [first|]; [| done].
    simpl in Hrun. exists first. split; [done |].
    split; [apply Sorted_merge_sort, _ |].
    split; [apply merge_sort_Permutation |].
    destruct (Np.map_result _ (Imaging.train_features st)) as [tr|] eqn:Htr;
      [| done].
    simpl in Hrun.
    destruct (Np.map_result _ (Imaging.test_features st)) as [te|] eqn:Hte;
      [| done].
    simpl in Hrun. injection Hrun as <- <-.
    split; by apply map_result_inv.
Qed.

Lemma imaging_tensor_masked_cropped_stacked_witness :
  exists d t,
    Imaging.load_features Np.float64_max Scenario.mask3 Scenario.volumes3 = Py.Ok d /\
    Imaging.stack_sample 2 2 3 Scenario.ordered3 d = Py.Ok t /\
    Np.shape3 2 2 3 t /\
    (forall i file name,
       Scenario.volumes3 !! i = Some file -> Scenario.names3 !! i = Some name ->
       exists m, d !! name = Some m /\ Np.rect 3 3 m /\
         forall r col x y,
           Np.get2 (snd file) r col = Some x ->
           Np.get2 Scenario.mask3 r col = Some y ->
           Np.get2 m r col = Some (Np.nan_to_num1 Np.float64_max x * y)%Q) /\
    (forall k i file name r col x y,
       Scenario.ordered3 !! k = Some name ->
       Scenario.volumes3 !! i = Some file -> Scenario.names3 !! i = Some name ->
       r < 2 -> col < 2 ->
       Np.get2 (snd file) r col = Some x ->
       Np.get2 Scenario.mask3 r col = Some y ->
       Np.get3 t r col k = Some (Np.nan_to_num1 Np.float64_max x * y)%Q) /\
    (forall k r col,
       length Scenario.ordered3 <= k -> k < 3 -> r < 2 -> col < 2 ->
       Np.get3 t r col k = Some 0%Q).
Proof.
  apply (imaging_tensor_masked_cropped_stacked Np.float64_max 2 2 3 3 3
           Scenario.mask3
           Scenario.volumes3 Scenario.names3 Scenario.ordered3); try lia.
  - split; [reflexivity | repeat constructor].
  - repeat constructor.
  - repeat constructor.
  - apply (bool_decide_unpack (NoDup Scenario.names3)). vm_compute. exact I.
  - apply (bool_decide_unpack
             (Forall (fun name => name ∈ Scenario.names3) Scenario.ordered3)).
    vm_compute. exact I.
  - simpl. lia.
Defined.

(** C6 as stated fails in two places: an infinite value of a feature
    volume is not replaced with zero but with the largest finite float,
    and a feature map of a single row, smaller than the crop shape, is
    repeated over all 34 rows instead of being an error. *)
Lemma imaging_keeps_infinity_and_repeats_single_row :
  (exists d m,
     Imaging.load_features Np.float64_max [[1; 1]%Q]
       [("DPm.1.2.840_norm_box.nii.gz", [[Np.PosInf; Np.NaN]])] = Py.Ok d /\
     d !! "norm_box" = Some m /\
     Np.get2 m 0 0 = Some (Np.float64_max * 1)%Q /\
     ~ (Np.float64_max * 1 == 0)%Q) /\
  (exists t,
     Imaging.stack_sample (fst Imaging.crop_shape) (snd Imaging.crop_shape)
       Imaging.feature_count ["norm_box"] Scenario.one_row = Py.Ok t /\
     Scenario.one_row !! "norm_box" = Some [replicate 26 7%Q] /\
     Np.get3 t 0 25 0 = Some 7%Q /\
     Np.get3 t 33 25 0 = Some 7%Q).
Proof.
  split.
  - eexists _, _. split; [vm_compute; reflexivity |].
    split; [vm_compute; reflexivity |]. split; [reflexivity |].
    intros H. vm_compute in H. discriminate.
  - eexists. split; [vm_compute; reflexivity |].
    split; [vm_compute; reflexivity |]. split; vm_compute; reflexivity.
Qed.

(** ** The two-pass normalisation *)

Section PointwiseFacts.
Import Py Np.

Lemma get3_map3 {X Y : Type} (f : X -> Y) (t : list (list (list X))) r col k :
  get3 (map3 f t) r col k = f <$> get3 t r col k.
Proof.
  unfold get3, map3. rewrite lookup_map.
  destruct (t !! r) as [row|]; simpl; [| done]. rewrite lookup_map.
  destruct (row !! col) as [px|]; simpl; [apply lookup_map | done].
Qed.

Lemma get3_zip3 {X Y Z : Type} (f : X -> Y -> Z)
    (a : list (list (list X))) (b : list (list (list Y))) r col k :
  get3 (zip3 f a b) r col k =
    match get3 a r col k, get3 b r col k with
    | Some x, Some y => Some (f x y)
    | _, _ => None
    end.
Proof.
  unfold get3, zip3. rewrite lookup_zip_with.
  destruct (a !! r) as [ra|], (b !! r) as [rb|]; simpl; try done.
  - rewrite lookup_zip_with.
    destruct (ra !! col) as [pa|], (rb !! col) as [pb|]; simpl; try done.
    + rewrite lookup_zip_with. by destruct (pa !! k), (pb !! k).
    + by destruct (pa !! k).
  - destruct (ra !! col) as [pa|]; [| done]. by destruct (pa !! k).
Qed.

Lemma shape3_map3 {X Y : Type} (f : X -> Y) h w c (t : list (list (list X))) :
  shape3 h w c t -> shape3 h w c (map3 f t).
Proof.
  intros [Hh Hall]. unfold map3. split; [by rewrite length_map |].
  apply Forall_fmap. eapply Forall_impl; [exact Hall |].
  intros row [Hw Hpx]. simpl. split; [by rewrite length_map |].
  apply Forall_fmap. eapply Forall_impl; [exact Hpx |].
  intros px Hc. simpl. by rewrite length_map.
Qed.

Lemma shape3_zip3 {X Y Z : Type} (f : X -> Y -> Z) h w c
    (a : list (list (list X))) (b : list (list (list Y))) :
  shape3 h w c a -> shape3 h w c b -> shape3 h w c (zip3 f a b).
Proof.
  intros Ha Hb. unfold zip3. split.
  - rewrite length_zip_with. destruct Ha as [-> _], Hb as [-> _]. lia.
  - apply Forall_forall. intros row Hrow.
    apply list_elem_of_lookup_1 in Hrow as [r Hr].
    apply lookup_zip_with_Some in Hr as (ra & rb & -> & Hra & Hrb).
    destruct (shape3_lookup _ _ _ _ _ _ Ha Hra) as (_ & Hla & Hpa).
    destruct (shape3_lookup _ _ _ _ _ _ Hb Hrb) as (_ & Hlb & Hpb).
    split; [rewrite length_zip_with; lia |].
    apply Forall_forall. intros px Hpx.
    apply list_elem_of_lookup_1 in Hpx as [i Hi].
    apply lookup_zip_with_Some in Hi as (pa & pb & -> & Hia & Hib).
    rewrite Forall_forall in Hpa. rewrite Forall_forall in Hpb.
    rewrite length_zip_with.
    rewrite (Hpa pa), (Hpb pb); [lia | |]; by eapply list_elem_of_lookup_2.
Qed.

Lemma get3_Some {X : Type} h w c (t : list (list (list X))) r col k :
  shape3 h w c t -> r < h -> col < w -> k < c -> is_Some (get3 t r col k).
Proof.
  intros Ht Hr Hc Hk. unfold get3.
  destruct (lookup_lt_is_Some_2 t r) as [row Hrow]; [destruct Ht; lia |].
  rewrite Hrow. destruct (shape3_lookup _ _ _ _ _ _ Ht Hrow) as (_ & Hw & Hpx).
  destruct (lookup_lt_is_Some_2 row col) as [px Hpx']; [lia |].
  rewrite Hpx'. apply lookup_lt_is_Some_2.
  rewrite Forall_forall in Hpx. rewrite (Hpx px); [done |].
  by eapply list_elem_of_lookup_2.
Qed.

Lemma get3_bounds {X : Type} h w c (t : list (list (list X))) r col k x :
  shape3 h w c t -> get3 t r col k = Some x -> r < h /\ col < w /\ k < c.
Proof.
  intros Ht. unfold get3.
  destruct (t !! r) as [row|] eqn:Hrow; [| done].
  destruct (shape3_lookup _ _ _ _ _ _ Ht Hrow) as (Hr & Hw & Hpx).
  destruct (row !! col) as [px|] eqn:Hcol; [| done].
  intros Hk. split; [done |]. split.
  - rewrite <- Hw. by eapply lookup_lt_Some.
  - rewrite Forall_forall in Hpx. rewrite <- (Hpx px).
    + by eapply lookup_lt_Some.
    + by eapply list_elem_of_lookup_2.
Qed.

Lemma Qmax_cases (x y : Q) : Qmax x y = x \/ Qmax x y = y.
Proof.
  unfold Qmax, GenericMinMax.gmax. destruct (x ?= y)%Q; auto.
Qed.

(** A running maximum: above its start and every element, and equal to
    one of them. *)
Lemma foldl_Qmax (xs : list Q) (x0 : Q) :
  (x0 <= foldl Qmax x0 xs)%Q /\
  (forall x, x ∈ xs -> (x <= foldl Qmax x0 xs)%Q) /\
  (foldl Qmax x0 xs = x0 \/ foldl Qmax x0 xs ∈ xs).
Proof.
  revert x0. induction xs as [|y xs IH]; intros x0; simpl.
  - split; [apply Qle_refl |]. split; [| by left].
    intros x Hx. by apply elem_of_nil in Hx.
  - destruct (IH (Qmax x0 y)) as (Hge & Hall & Hin).
    split; [eapply Qle_trans; [apply Q.le_max_l | exact Hge] |]. split.
    + intros x Hx. apply elem_of_cons in Hx as [-> | Hx]; [| by apply Hall].
      eapply Qle_trans; [apply Q.le_max_r | exact Hge].
    + destruct Hin as [Heq | Hin]; [| right; by apply elem_of_cons; right].
      rewrite Heq. destruct (Qmax_cases x0 y) as [-> | ->]; [by left |].
      right. apply elem_of_cons. by left.
Qed.

Lemma Qabs_div_le_1 (x d : Q) :
  (0 < d)%Q -> (Qabs x <= d)%Q -> (Qabs (x / d) <= 1)%Q.
Proof.
  intros Hd Hx. apply Qabs_Qle_condition in Hx as [Hlo Hhi].
  apply Qabs_Qle_condition. split.
  - apply Qle_shift_div_l; [done |]. lra.
  - apply Qle_shift_div_r; [done |]. lra.
Qed.

Lemma epsilon_pos : (0 < Normalize.epsilon)%Q.
Proof. reflexivity. Qed.
End PointwiseFacts.

Section CrossSampleFacts.
Import Py Np Normalize.

Lemma foldl_max_shape h w c (ts : list (list (list (list Q)))) t0 :
  shape3 h w c t0 -> Forall (shape3 h w c) ts ->
  shape3 h w c (foldl (zip3 Qmax) t0 ts).
Proof.
  intros Ht0 Hts. revert t0 Ht0.
  induction Hts as [|t ts Ht _ IH]; intros t0 Ht0; simpl; [done |].
  apply IH. by apply shape3_zip3.
Qed.

Lemma foldl_max_at (ts : list (list (list (list Q)))) t0 r col k x0 :
  get3 t0 r col k = Some x0 ->
  Forall (fun t => is_Some (get3 t r col k)) ts ->
  get3 (foldl (zip3 Qmax) t0 ts) r col k =
    Some (foldl Qmax x0 (omap (fun t => get3 t r col k) ts)).
Proof.
  intros Hx0 Hts. revert t0 x0 Hx0.
  induction Hts as [|t ts [x Hx] _ IH]; intros t0 x0 Hx0; simpl; [done |].
  rewrite Hx. simpl. apply IH. by rewrite get3_zip3, Hx0, Hx.
Qed.

(** The image of maxima: it exists for a non-empty data set, has the
    shape of a sample, and holds at every position the largest magnitude
    found there across the samples. *)
Lemma max_image_spec h w c (data : list (list (list (list Q)))) :
  Forall (shape3 h w c) data -> data <> [] ->
  exists max_image,
    max_axis0 (np_abs data) = Ok max_image /\
    shape3 h w c max_image /\
    forall r col k, r < h -> col < w -> k < c ->
      exists M,
        get3 max_image r col k = Some M /\
        (forall t x, t ∈ data -> get3 t r col k = Some x -> (Qabs x <= M)%Q) /\
        (exists t x, t ∈ data /\ get3 t r col k = Some x /\ M = Qabs x).
Proof.
  intros Hshape Hne. destruct data as [|t0 ts]; [done |].
  apply Forall_cons in Hshape as [Ht0 Hts].
  exists (foldl (zip3 Qmax) (map3 Qabs t0) (map (map3 Qabs) ts)).
  split; [done |].
  assert (Habs : Forall (shape3 h w c) (map (map3 Qabs) ts)).
  { apply Forall_fmap. eapply Forall_impl; [exact Hts |].
    intros t Ht. by apply shape3_map3. }
  split; [apply foldl_max_shape; [by apply shape3_map3 | done] |].
  intros r col k Hr Hc Hk.
  destruct (get3_Some h w c t0 r col k Ht0 Hr Hc Hk) as [x0 Hx0].
  eexists. split.
  { apply foldl_max_at; [by rewrite get3_map3, Hx0 |].
    eapply Forall_impl; [exact Habs |]. intros t Ht. by eapply get3_Some. }
  destruct (foldl_Qmax
              (omap (fun t => get3 t r col k) (map (map3 Qabs) ts)) (Qabs x0))
    as (Hge & Hall & Hin).
  split.
  - intros t x Ht Hx. apply elem_of_cons in Ht as [-> | Ht].
    + rewrite Hx0 in Hx. injection Hx as <-. exact Hge.
    + apply Hall. apply list_elem_of_omap. exists (map3 Qabs t).
      split; [apply list_elem_of_fmap; by exists t |].
      by rewrite get3_map3, Hx.
  - destruct Hin as [-> | Hin].
    + exists t0, x0. split; [apply elem_of_cons; by left | done].
    + apply list_elem_of_omap in Hin as (t' & Ht' & Hget).
      apply list_elem_of_fmap in Ht' as (t & -> & Ht).
      rewrite get3_map3 in Hget.
      destruct (get3 t r col k) as [x|] eqn:Hx; [| done].
      injection Hget as Hget. exists t, x.
      split; [apply elem_of_cons; by right | done].
Qed.

Lemma divide_lookup (data : list (list (list (list Q)))) divisor i t :
  data !! i = Some t ->
  map (fun t => zip3 Qdiv t divisor) data !! i = Some (zip3 Qdiv t divisor).
Proof. intros Hi. by rewrite lookup_map, Hi. Qed.
End CrossSampleFacts.

Section CrossSampleTheorem.
Import Py Np Normalize.

Lemma Forall2_map_self {X Y : Type} (P : X -> Prop) (R : X -> Y -> Prop)
    (f : X -> Y) (l : list X) :
  (forall x, P x -> R x (f x)) -> Forall P l -> Forall2 R l (map f l).
Proof.
  intros HR. induction 1; simpl; constructor; auto.
Qed.
(** The first pass in full: it completes on a non-empty data set of
    samples of one shape, keeps the shapes, and divides every value by
    the largest magnitude found at its position, plus epsilon. *)
Lemma cross_sample_spec
    (h w c : nat) (train_data test_data : list (list (list (list Q)))) :
  Forall (shape3 h w c) (train_data ++ test_data) ->
  train_data ++ test_data <> [] ->
  exists train_out test_out,
    cross_sample train_data test_data = Ok (train_out, test_out) /\
    Forall (shape3 h w c) train_out /\
    Forall (shape3 h w c) test_out /\
    forall r col k, r < h -> col < w -> k < c ->
      exists M,
        (forall t x, t ∈ train_data ++ test_data ->
                     get3 t r col k = Some x -> (Qabs x <= M)%Q) /\
        (exists t x, t ∈ train_data ++ test_data /\
                     get3 t r col k = Some x /\ M = Qabs x) /\
        Forall2 (fun t t' => exists x,
                   get3 t r col k = Some x /\
                   get3 t' r col k = Some (x / (M + epsilon))%Q)
                train_data train_out /\
        Forall2 (fun t t' => exists x,
                   get3 t r col k = Some x /\
                   get3 t' r col k = Some (x / (M + epsilon))%Q)
                test_data test_out.
Proof.
  intros Hshape Hne.
  destruct (max_image_spec h w c _ Hshape Hne) as (max_image & Hmax & Hms & Hat).
  unfold cross_sample. rewrite Hmax. simpl.
  set (divisor := map3 (fun m => (m + epsilon)%Q) max_image).
  assert (Hds : shape3 h w c divisor) by by apply shape3_map3.
  apply Forall_app in Hshape as [Htrain Htest].
  eexists _, _. split; [reflexivity |].
  split; [apply Forall_fmap; eapply Forall_impl; [exact Htrain |];
          intros t Ht; by apply shape3_zip3 |].
  split; [apply Forall_fmap; eapply Forall_impl; [exact Htest |];
          intros t Ht; by apply shape3_zip3 |].
  intros r col k Hr Hc Hk.
  destruct (Hat r col k Hr Hc Hk) as (M & HM & Hall & Hatt).
  exists M. split; [done |]. split; [done |].
  assert (Hdiv : forall t, shape3 h w c t -> exists x,
            get3 t r col k = Some x /\
            get3 (zip3 Qdiv t divisor) r col k = Some (x / (M + epsilon))%Q).
  { intros t Ht. destruct (get3_Some h w c t r col k Ht Hr Hc Hk) as [x Hx].
    exists x. split; [done |].
    rewrite get3_zip3, Hx. unfold divisor. by rewrite get3_map3, HM. }
  split; by eapply Forall2_map_self.
Qed.
End CrossSampleTheorem.

(** C4, as the code has it. The divisor of the first pass is an image:
    for each pixel position of each channel, the largest magnitude found
    at that position over the train and the test samples taken together;
    every sample of both arrays is divided, position by position, by that
    shared maximum plus epsilon. Two samples whose channel-0 values at a
    position are 4 and -10 are both divided by 10 + 1e-8 there. *)
Theorem cross_sample_divides_by_joint_maximum_image
    (h w c : nat) (train_data test_data : list (list (list (list Q)))) :
  Forall (Np.shape3 h w c) (train_data ++ test_data) ->
  train_data ++ test_data <> [] ->
  (exists train_out test_out,
     Normalize.cross_sample train_data test_data = Py.Ok (train_out, test_out) /\
     Forall (Np.shape3 h w c) train_out /\
     Forall (Np.shape3 h w c) test_out /\
     forall r col k, r < h -> col < w -> k < c ->
       exists M,
         (forall t x, t ∈ train_data ++ test_data ->
                      Np.get3 t r col k = Some x -> (Qabs x <= M)%Q) /\
         (exists t x, t ∈ train_data ++ test_data /\
                      Np.get3 t r col k = Some x /\ M = Qabs x) /\
         Forall2 (fun t t' => exists x,
                    Np.get3 t r col k = Some x /\
                    Np.get3 t' r col k = Some (x / (M + Normalize.epsilon))%Q)
                 train_data train_out /\
         Forall2 (fun t t' => exists x,
                    Np.get3 t r col k = Some x /\
                    Np.get3 t' r col k = Some (x / (M + Normalize.epsilon))%Q)
                 test_data test_out) /\
  Normalize.cross_sample [[[[4%Q]]]] [[[[(-10)%Q]]]] =
    Py.Ok ([[[[(4 / (10 + Normalize.epsilon))%Q]]]],
           [[[[(-10 / (10 + Normalize.epsilon))%Q]]]]).
Proof.
  intros Hshape Hne. split; [| vm_compute; reflexivity].
  by apply cross_sample_spec.
Qed.

Lemma cross_sample_divides_by_joint_maximum_image_witness :
  exists train_out test_out,
    Normalize.cross_sample Scenario.pixels_train Scenario.pixels_test
      = Py.Ok (train_out, test_out) /\
    Forall (Np.shape3 1 2 1) train_out /\
    Forall (Np.shape3 1 2 1) test_out /\
    forall r col k, r < 1 -> col < 2 -> k < 1 ->
      exists M,
        (forall t x, t ∈ Scenario.pixels_train ++ Scenario.pixels_test ->
                     Np.get3 t r col k = Some x -> (Qabs x <= M)%Q) /\
        (exists t x, t ∈ Scenario.pixels_train ++ Scenario.pixels_test /\
                     Np.get3 t r col k = Some x /\ M = Qabs x) /\
        Forall2 (fun t t' => exists x,
                   Np.get3 t r col k = Some x /\
                   Np.get3 t' r col k = Some (x / (M + Normalize.epsilon))%Q)
                Scenario.pixels_train train_out /\
        Forall2 (fun t t' => exists x,
                   Np.get3 t r col k = Some x /\
                   Np.get3 t' r col k = Some (x / (M + Normalize.epsilon))%Q)
                Scenario.pixels_test test_out.
Proof.
  apply (cross_sample_divides_by_joint_maximum_image 1 2 1
           Scenario.pixels_train Scenario.pixels_test).
  - repeat constructor.
  - discriminate.
Defined.

(** C4 as stated fails: with the values 4 and 1 in one sample and -10 and
    2 in the other, all in channel 0, the value 1 is divided by
    2 + epsilon, the maximum at its own position, where one maximum per
    channel would divide it by 10 + epsilon. *)
Lemma cross_sample_is_not_one_maximum_per_channel :
  exists train_out test_out t t',
    Normalize.cross_sample Scenario.pixels_train Scenario.pixels_test
      = Py.Ok (train_out, test_out) /\
    train_out !! 0 = Some t /\
    Np.get3 t 0 1 0 = Some (1 / (2 + Normalize.epsilon))%Q /\
    fst (Normalize.spec_cross_sample Scenario.pixels_train Scenario.pixels_test)
      !! 0 = Some t' /\
    Np.get3 t' 0 1 0 = Some (1 / (10 + Normalize.epsilon))%Q /\
    ~ (1 / (2 + Normalize.epsilon) == 1 / (10 + Normalize.epsilon))%Q.
Proof.
  eexists _, _, _, _. split; [vm_compute; reflexivity |].
  split; [reflexivity |]. split; [vm_compute; reflexivity |].
  split; [vm_compute; reflexivity |]. split; [vm_compute; reflexivity |].
  intros H. vm_compute in H. discriminate.
Qed.

Section WithinSampleFacts.
Import Py Np Normalize.

Lemma row_channel w c (row : list (list Q)) k :
  length row = w -> Forall (fun px => length px = c) row -> k < c ->
  exists vs,
    map_result (fun px => of_option IndexError (px !! k)) row = Ok vs /\
    length vs = w /\
    forall col, vs !! col = match row !! col with
                            | Some px => px !! k
                            | None => None
                            end.
Proof.
  intros <- Hpx Hk. induction Hpx as [|px row Hlen _ (vs & Hvs & Hl & Hat)].
  - exists []. split; [done |]. split; [done |]. by intros [|col].
  - destruct (lookup_lt_is_Some_2 px k) as [v Hv]; [lia |].
    exists (v :: vs). simpl. rewrite Hv, Hvs. simpl.
    split; [done |]. split; [by rewrite Hl |].
    intros [|col]; simpl; [done | apply Hat].
Qed.

Lemma channel_spec h w c (t : list (list (list Q))) k :
  shape3 h w c t -> k < c ->
  exists fm,
    channel k t = Ok fm /\ rect h w fm /\
    forall r col, get2 fm r col = get3 t r col k.
Proof.
  intros [<- Hall] Hk. unfold channel.
  induction Hall as [|row t [Hw Hpx] _ (fm & Hfm & [Hl Hrect] & Hat)].
  - exists []. split; [done |]. split; [by split |]. by intros [|r] col.
  - destruct (row_channel w c row k Hw Hpx Hk) as (vs & Hvs & Hlen & Hrow).
    exists (vs :: fm). simpl. rewrite Hvs. simpl.
    change (map_result _ t) with
      (map_result (map_result (fun px : list Q => of_option IndexError (px !! k))) t).
    rewrite Hfm. simpl. split; [done |].
    split; [split; [simpl; by rewrite Hl | by constructor] |].
    intros [|r] col; [apply Hrow | apply Hat].
Qed.

Lemma elem_of_concat_abs (fm : list (list Q)) (y : Q) :
  y ∈ concat (map (map Qabs) fm) <->
  exists r col x, get2 fm r col = Some x /\ y = Qabs x.
Proof.
  rewrite list_elem_of_In, in_concat. split.
  - intros (row' & Hrow' & Hy).
    apply in_map_iff in Hrow' as (row & <- & Hrow).
    apply in_map_iff in Hy as (x & <- & Hx).
    apply list_elem_of_In, list_elem_of_lookup_1 in Hrow as [r Hr].
    apply list_elem_of_In, list_elem_of_lookup_1 in Hx as [col Hc].
    exists r, col, x. unfold get2. by rewrite Hr.
  - intros (r & col & x & Hget & ->). unfold get2 in Hget.
    destruct (fm !! r) as [row|] eqn:Hr; [| done].
    exists (map Qabs row). split.
    + apply in_map, list_elem_of_In. by eapply list_elem_of_lookup_2.
    + apply in_map, list_elem_of_In. by eapply list_elem_of_lookup_2.
Qed.

Lemma max_all_spec h w (fm : list (list Q)) :
  rect h w fm -> 0 < h -> 0 < w ->
  exists M,
    max_all (map (map Qabs) fm) = Ok M /\
    (forall r col x, get2 fm r col = Some x -> (Qabs x <= M)%Q) /\
    (exists r col x, get2 fm r col = Some x /\ M = Qabs x).
Proof.
  intros Hrect Hh Hw. unfold max_all.
  destruct (concat (map (map Qabs) fm)) as [|y ys] eqn:Hflat.
  - exfalso. destruct (get2_Some h w fm 0 0 Hrect Hh Hw) as [x Hx].
    assert (Hin : Qabs x ∈ concat (map (map Qabs) fm)).
    { apply elem_of_concat_abs. by exists 0, 0, x. }
    rewrite Hflat in Hin. by apply elem_of_nil in Hin.
  - exists (foldl Qmax y ys). split; [done |].
    destruct (foldl_Qmax ys y) as (Hge & Hall & Hin). split.
    + intros r col x Hx.
      assert (Hmem : Qabs x ∈ y :: ys).
      { rewrite <- Hflat. apply elem_of_concat_abs. by exists r, col, x. }
      apply elem_of_cons in Hmem as [-> | Hmem]; [done | by apply Hall].
    + apply elem_of_concat_abs. rewrite Hflat. apply elem_of_cons.
      destruct Hin as [-> | Hin]; [by left | by right].
Qed.

Lemma get2_map2 {X Y : Type} (f : X -> Y) (m : list (list X)) r col :
  get2 (map (map f) m) r col = f <$> get2 m r col.
Proof.
  unfold get2. rewrite lookup_map.
  destruct (m !! r); simpl; [apply lookup_map | done].
Qed.

Lemma rect_map2 {X Y : Type} (f : X -> Y) h w (m : list (list X)) :
  rect h w m -> rect h w (map (map f) m).
Proof.
  intros [Hh Hw]. split; [by rewrite length_map |].
  apply Forall_fmap. eapply Forall_impl; [exact Hw |].
  intros row Hrow. simpl. by rewrite length_map.
Qed.

(** One pass of the innermost loop rescales its channel and leaves the
    other channels alone. *)
Lemma normalize_channel_spec h w c (t : list (list (list Q))) k :
  0 < h -> 0 < w -> shape3 h w c t -> k < c ->
  exists t',
    normalize_channel t k = Ok t' /\ shape3 h w c t' /\
    rescaled_channel t t' k /\
    (forall k' r col, k' <> k -> r < h -> col < w ->
                      get3 t' r col k' = get3 t r col k').
Proof.
  intros Hh Hw Ht Hk. unfold normalize_channel.
  destruct (channel_spec h w c t k Ht Hk) as (fm & -> & Hrect & Hfm). simpl.
  destruct (max_all_spec h w fm Hrect Hh Hw) as (M & -> & Hall & Hatt). simpl.
  set (scaled := map (map (fun x => (x / (M + epsilon))%Q)) fm).
  assert (Hscaled : rect h w scaled) by by apply rect_map2.
  eexists. split; [reflexivity |].
  split; [by apply shape3_set_channel |]. split.
  - exists M. split; [| split].
    + intros r col x Hx. apply (Hall r col). by rewrite Hfm.
    + destruct Hatt as (r & col & x & Hx & ->). exists r, col, x.
      by rewrite <- Hfm.
    + intros r col x Hx.
      destruct (get3_bounds _ _ _ _ _ _ _ _ Ht Hx) as (Hr & Hc & _).
      rewrite (get3_set_channel h w c) by done.
      rewrite decide_True by done. unfold scaled.
      by rewrite get2_map2, Hfm, Hx.
  - intros k' r col Hne Hr Hc.
    rewrite (get3_set_channel h w c) by done. by rewrite decide_False.
Qed.

Lemma normalize_fold h w c (t0 : list (list (list Q))) j n :
  0 < h -> 0 < w -> shape3 h w c t0 -> j + n <= c ->
  exists t,
    fold_result normalize_channel (seq j n) t0 = Ok t /\
    shape3 h w c t /\
    (forall k, j <= k < j + n -> rescaled_channel t0 t k) /\
    (forall k r col, k < j \/ j + n <= k -> r < h -> col < w ->
                     get3 t r col k = get3 t0 r col k).
Proof.
  intros Hh Hw. revert j t0. induction n as [|n IH]; intros j t0 Ht0 Hle.
  - exists t0. simpl. split; [done |]. split; [done |]. split; [| done].
    intros k Hk. lia.
  - destruct (normalize_channel_spec h w c t0 j Hh Hw Ht0)
      as (t1 & Hstep & Ht1 & Hres & Hframe); [lia |].
    destruct (IH (S j) t1 Ht1) as (t & Hrun & Ht & Hin & Hout); [lia |].
    exists t. simpl. rewrite Hstep. simpl.
    split; [exact Hrun |]. split; [done |]. split.
    + intros k Hk. destruct (decide (k = j)) as [-> | Hne].
      * destruct Hres as (M & Hall & Hatt & Hval).
        exists M. split; [done |]. split; [done |].
        intros r col x Hx.
        destruct (get3_bounds _ _ _ _ _ _ _ _ Ht0 Hx) as (Hr & Hc & _).
        rewrite (Hout j r col) by (done || lia). by apply Hval.
      * destruct (Hin k) as (M & Hall & Hatt & Hval); [lia |].
        exists M. split; [| split].
        -- intros r col x Hx.
           destruct (get3_bounds _ _ _ _ _ _ _ _ Ht0 Hx) as (Hr & Hc & _).
           apply (Hall r col). by rewrite (Hframe k r col).
        -- destruct Hatt as (r & col & x & Hx & ->).
           destruct (get3_bounds _ _ _ _ _ _ _ _ Ht1 Hx) as (Hr & Hc & _).
           exists r, col, x. by rewrite <- (Hframe k r col).
        -- intros r col x Hx.
           destruct (get3_bounds _ _ _ _ _ _ _ _ Ht0 Hx) as (Hr & Hc & _).
           apply Hval. by rewrite (Hframe k r col).
    + intros k r col Hk Hr Hc.
      rewrite (Hout k r col) by (done || lia).
      apply Hframe; [lia | done | done].
Qed.

Lemma rescaled_channel_bound h w c (t0 t : list (list (list Q))) k r col y :
  shape3 h w c t0 -> shape3 h w c t ->
  rescaled_channel t0 t k -> get3 t r col k = Some y -> (Qabs y <= 1)%Q.
Proof.
  intros Ht0 Ht (M & Hall & (r' & col' & x' & _ & HM) & Hval) Hy.
  destruct (get3_bounds _ _ _ _ _ _ _ _ Ht Hy) as (Hr & Hc & Hk).
  destruct (get3_Some h w c t0 r col k Ht0 Hr Hc Hk) as [x Hx].
  rewrite (Hval r col x Hx) in Hy. injection Hy as <-.
  pose proof (Hall r col x Hx) as Hle.
  pose proof (Qabs_nonneg x') as Hpos. rewrite <- HM in Hpos.
  pose proof epsilon_pos as Heps.
  apply Qabs_div_le_1; lra.
Qed.

Lemma within_sample_spec h w c (data : list (list (list (list Q)))) :
  0 < h -> 0 < w -> Forall (shape3 h w c) data ->
  exists out,
    within_sample c data = Ok out /\
    Forall2 (fun t1 t2 =>
               shape3 h w c t2 /\
               forall k, k < c ->
                 rescaled_channel t1 t2 k /\
                 forall r col y, get3 t2 r col k = Some y -> (Qabs y <= 1)%Q)
            data out.
Proof.
  intros Hh Hw Hdata. unfold within_sample.
  induction Hdata as [|t data Ht _ (out & Hout & Hall)].
  - exists []. by split.
  - destruct (normalize_fold h w c t 0 c Hh Hw Ht) as (t' & Hrun & Ht' & Hin & _);
      [lia |].
    exists (t' :: out). simpl. unfold normalize_sample at 1. rewrite Hrun. simpl.
    rewrite Hout. simpl. split; [done |]. constructor; [| done].
    split; [done |]. intros k Hk.
    assert (Hres : rescaled_channel t t' k) by (apply Hin; lia).
    split; [done |]. intros r col y.
    exact (rescaled_channel_bound h w c t t' k r col y Ht Ht' Hres).
Qed.
End WithinSampleFacts.

(** C5. On arrays of samples of a common non-empty shape the two passes
    complete, the second working on the output of the first for all
    samples; in the result every channel of every sample is that channel
    of the first pass's output divided by its own largest magnitude plus
    epsilon, and so no value of the result exceeds 1 in magnitude. *)
Theorem normalize_rescales_each_channel_within_one
    (h w c : nat) (train_data test_data : list (list (list (list Q)))) :
  0 < h -> 0 < w ->
  Forall (Np.shape3 h w c) (train_data ++ test_data) ->
  train_data ++ test_data <> [] ->
  exists train_mid test_mid train_out test_out,
    Normalize.cross_sample train_data test_data = Py.Ok (train_mid, test_mid) /\
    Normalize.normalize c train_data test_data = Py.Ok (train_out, test_out) /\
    Forall2 (fun t1 t2 =>
               Np.shape3 h w c t2 /\
               forall k, k < c ->
                 Normalize.rescaled_channel t1 t2 k /\
                 forall r col y, Np.get3 t2 r col k = Some y -> (Qabs y <= 1)%Q)
            train_mid train_out /\
    Forall2 (fun t1 t2 =>
               Np.shape3 h w c t2 /\
               forall k, k < c ->
                 Normalize.rescaled_channel t1 t2 k /\
                 forall r col y, Np.get3 t2 r col k = Some y -> (Qabs y <= 1)%Q)
            test_mid test_out.
Proof.
  intros Hh Hw Hshape Hne.
  destruct (cross_sample_spec h w c _ _ Hshape Hne)
    as (train_mid & test_mid & Hcross & Htrain & Htest & _).
  destruct (within_sample_spec h w c train_mid Hh Hw Htrain)
    as (train_out & Hrun1 & Hall1).
  destruct (within_sample_spec h w c test_mid Hh Hw Htest)
    as (test_out & Hrun2 & Hall2).
  exists train_mid, test_mid, train_out, test_out.
  split; [done |]. split; [| done].
  unfold Normalize.normalize. rewrite Hcross. simpl.
  rewrite Hrun1. simpl. by rewrite Hrun2.
Qed.

Lemma normalize_rescales_each_channel_within_one_witness :
  exists train_mid test_mid train_out test_out,
    Normalize.cross_sample Scenario.pixels_train Scenario.pixels_test
      = Py.Ok (train_mid, test_mid) /\
    Normalize.normalize 1 Scenario.pixels_train Scenario.pixels_test
      = Py.Ok (train_out, test_out) /\
    Forall2 (fun t1 t2 =>
               Np.shape3 1 2 1 t2 /\
               forall k, k < 1 ->
                 Normalize.rescaled_channel t1 t2 k /\
                 forall r col y, Np.get3 t2 r col k = Some y -> (Qabs y <= 1)%Q)
            train_mid train_out /\
    Forall2 (fun t1 t2 =>
               Np.shape3 1 2 1 t2 /\
               forall k, k < 1 ->
                 Normalize.rescaled_channel t1 t2 k /\
                 forall r col y, Np.get3 t2 r col k = Some y -> (Qabs y <= 1)%Q)
            test_mid test_out.
Proof.
  apply (normalize_rescales_each_channel_within_one 1 2 1
           Scenario.pixels_train Scenario.pixels_test); try lia.
  - repeat constructor.
  - discriminate.
Defined.

(** * Further properties of the notebooks *)

(** ** The feature catalogue *)

Section CatalogueFacts.
Import Py Tabular.

Lemma extract_names_inv (acc files names : list string) :
  extract_names acc files = Ok names ->
  exists found,
    names = acc ++ found /\
    Forall2 (fun f n => Re.search norm_marker nii_gz f = Some n) files found.
Proof.
  revert acc. induction files as [|f files IH]; intros acc H; simpl in H.
  - injection H as <-. exists []. by rewrite app_nil_r.
  - destruct (Re.search norm_marker nii_gz f) as [n|] eqn:Hf; [| done].
    simpl in H. destruct (IH _ H) as (found & -> & Hall).
    exists (n :: found). rewrite <- app_assoc. split; [done | by constructor].
Qed.

Lemma extract_names_found (acc files found : list string) :
  Forall2 (fun f n => Re.search norm_marker nii_gz f = Some n) files found ->
  extract_names acc files = Ok (acc ++ found).
Proof.
  intros H. revert acc. induction H as [|f n files found Hf _ IH]; intros acc.
  - by rewrite app_nil_r.
  - simpl. rewrite Hf. simpl. rewrite IH. by rewrite <- app_assoc.
Qed.

Lemma extract_names_error (acc files : list string) (e : exn) :
  extract_names acc files = Raise e ->
  e = AttributeError /\
  exists f, In f files /\ Re.search norm_marker nii_gz f = None.
Proof.
  revert acc. induction files as [|f files IH]; intros acc H; simpl in H; [done |].
  destruct (Re.search norm_marker nii_gz f) as [n|] eqn:Hf; simpl in H.
  - destruct (IH _ H) as (-> & f' & Hin & Hnone).
    split; [done |]. exists f'. split; [by right | done].
  - injection H as <-. split; [done |]. exists f. split; [by left | done].
Qed.

Lemma glob_Permutation (l1 l2 : list string) :
  l1 ≡ₚ l2 -> glob_nii_gz l1 ≡ₚ glob_nii_gz l2.
Proof.
  unfold glob_nii_gz. induction 1 as [|x l l' _ IH|x y l|l l' l'' _ IH1 _ IH2];
    simpl.
  - done.
  - destruct (Re.ends_with nii_gz x); [by constructor | done].
  - destruct (Re.ends_with nii_gz x), (Re.ends_with nii_gz y);
      try done; apply perm_swap.
  - by etrans.
Qed.

Lemma Forall2_Permutation_l {X Y : Type} (R : X -> Y -> Prop)
    (l l' : list X) (k : list Y) :
  Forall2 R l k -> l ≡ₚ l' -> exists k', Forall2 R l' k' /\ k ≡ₚ k'.
Proof.
  intros H Hp. revert k H.
  induction Hp as [|x l l' _ IH|x y l|l l' l'' _ IH1 _ IH2]; intros k H.
  - exists k. by split.
  - apply Forall2_cons_inv_l in H as (z & k0 & Hz & Hk & ->).
    destruct (IH _ Hk) as (k' & Hk' & Hp').
    exists (z :: k'). split; [by constructor | by constructor].
  - apply Forall2_cons_inv_l in H as (z1 & k0 & Hz1 & Hk & ->).
    apply Forall2_cons_inv_l in Hk as (z2 & k1 & Hz2 & Hk & ->).
    exists (z2 :: z1 :: k1). split; [by repeat constructor | apply perm_swap].
  - destruct (IH1 _ H) as (k1 & Hk1 & Hp1).
    destruct (IH2 _ Hk1) as (k2 & Hk2 & Hp2).
    exists k2. split; [done | by etrans].
Qed.
End CatalogueFacts.

(** X1. When the discovery succeeds, the catalogue is sorted and holds
    exactly one name per selected file, duplicates included; every name
    is non-empty, lies on one line, and stands in a selected file name
    between the marker and the suffix. *)
Theorem discover_feature_names_catalogue
    (listing names : list string) :
  Tabular.discover_feature_names listing = Py.Ok names ->
  Sorted String.le names /\
  length names = length (Tabular.glob_nii_gz listing) /\
  (exists found,
     Forall2 (fun f n => Re.search Tabular.norm_marker Tabular.nii_gz f = Some n)
             (Tabular.glob_nii_gz listing) found /\
     names ≡ₚ found) /\
  Forall (fun n =>
            n <> EmptyString /\ Re.no_newline n = true /\
            exists f a b,
              In f listing /\
              f = a +:+ Tabular.norm_marker +:+ n +:+ Tabular.nii_gz +:+ b)
         names.
Proof.
  unfold Tabular.discover_feature_names. intros H.
  destruct (Tabular.extract_names [] (Tabular.glob_nii_gz listing))
    as [raw|] eqn:Hraw; [| done].
  simpl in H. injection H as <-.
  apply extract_names_inv in Hraw as (found & -> & Hall). simpl.
  pose proof (merge_sort_Permutation String.le found) as Hperm.
  split; [apply Sorted_merge_sort, _ |].
  split; [rewrite Hperm; symmetry; by eapply Forall2_length |].
  split; [by exists found |].
  rewrite Hperm. apply Forall_forall. intros n Hn.
  apply list_elem_of_lookup_1 in Hn as [i Hi].
  destruct (Forall2_lookup_r _ _ _ _ _ Hall Hi) as (f & Hf & Hsearch).
  destruct (search_sound _ _ _ _ Hsearch) as (Hne & Hnl & a & b & Heq).
  split; [done |]. split; [done |]. exists f, a, b. split; [| done].
  apply list_elem_of_lookup_2, list_elem_of_In in Hf.
  unfold Tabular.glob_nii_gz in Hf. by apply filter_In in Hf as [? _].
Qed.

Lemma discover_feature_names_catalogue_witness :
  Sorted String.le ["box"; "box"; "edge"] /\
  length ["box"; "box"; "edge"] =
    length (Tabular.glob_nii_gz
              ["a_norm_edge.nii.gz"; "b_norm_box.nii.gz"; "notes.txt";
               "c_norm_box.nii.gz"]) /\
  (exists found,
     Forall2 (fun f n => Re.search Tabular.norm_marker Tabular.nii_gz f = Some n)
             (Tabular.glob_nii_gz
                ["a_norm_edge.nii.gz"; "b_norm_box.nii.gz"; "notes.txt";
                 "c_norm_box.nii.gz"]) found /\
     ["box"; "box"; "edge"] ≡ₚ found) /\
  Forall (fun n =>
            n <> EmptyString /\ Re.no_newline n = true /\
            exists f a b,
              In f ["a_norm_edge.nii.gz"; "b_norm_box.nii.gz"; "notes.txt";
                    "c_norm_box.nii.gz"] /\
              f = a +:+ Tabular.norm_marker +:+ n +:+ Tabular.nii_gz +:+ b)
         ["box"; "box"; "edge"].
Proof.
  apply (discover_feature_names_catalogue
           ["a_norm_edge.nii.gz"; "b_norm_box.nii.gz"; "notes.txt";
            "c_norm_box.nii.gz"]).
  reflexivity.
Defined.

(** X2. The catalogue does not depend on the order in which the
    directory is listed: two listings with the same names give the same
    outcome, the same sorted names or the same failure. *)
Theorem discover_feature_names_listing_order
    (listing1 listing2 : list string) :
  listing1 ≡ₚ listing2 ->
  Tabular.discover_feature_names listing1 =
  Tabular.discover_feature_names listing2.
Proof.
  intros Hp. apply glob_Permutation in Hp.
  unfold Tabular.discover_feature_names.
  destruct (Tabular.extract_names [] (Tabular.glob_nii_gz listing1))
    as [raw|e] eqn:Hraw.
  - apply extract_names_inv in Hraw as (found & -> & Hall).
    destruct (Forall2_Permutation_l _ _ _ _ Hall Hp) as (found' & Hall' & Hp').
    rewrite (extract_names_found [] _ _ Hall'). simpl. f_equal.
    apply (Sorted_unique String.le).
    + apply Sorted_merge_sort, _.
    + apply Sorted_merge_sort, _.
    + by rewrite !merge_sort_Permutation.
  - apply extract_names_error in Hraw as (-> & f & Hin & Hnone).
    rewrite (extract_names_raises [] _ f); [done | | done].
    apply list_elem_of_In. rewrite <- Hp. by apply list_elem_of_In.
Qed.

Lemma discover_feature_names_listing_order_witness :
  Tabular.discover_feature_names
    ["a_norm_edge.nii.gz"; "b_norm_box.nii.gz"; "notes.txt"] =
  Tabular.discover_feature_names
    ["b_norm_box.nii.gz"; "a_norm_edge.nii.gz"; "notes.txt"].
Proof.
  apply discover_feature_names_listing_order. apply perm_swap.
Defined.

(** ** The tabular aggregation as a whole *)

Section TabularRunFacts.
Import Py Tabular.
Variable int : string -> option Z.
Variable patient_id_to_case : gmap Z Z.
Variable feature_names : list string.

Lemma select_inv (r : row) (names : list string) (vs : list Q) :
  select r names = Ok vs ->
  Forall2 (fun name v => row_lookup r name = Some (Some v)) names vs.
Proof.
  revert vs. induction names as [|name names IH]; intros vs H; simpl in H.
  - injection H as <-. constructor.
  - destruct (row_lookup r name) as [[v|]|] eqn:Hv; try done.
    destruct (select r names) as [vs'|]; [| done]. simpl in H.
    injection H as <-. constructor; [done | by apply IH].
Qed.

Lemma select_error (r : row) (names : list string) (e : exn) :
  select r names = Raise e -> e = KeyError.
Proof.
  induction names as [|name names IH]; simpl; [done |].
  destruct (row_lookup r name) as [[v|]|]; try by intros [= <-].
  destruct (select r names) as [vs'|]; [done |]. simpl.
  intros [= <-]. by apply IH.
Qed.

(** What one pass of the loop body does when it completes. *)
Lemma aggregate_step_inv (st st' : acc) (s : sheet) :
  aggregate_step int patient_id_to_case feature_names st s = Ok st' ->
  (Matrix.has_rows s = false /\ st' = st) \/
  (Matrix.has_rows s = true /\
   exists patient_id feat case,
     int (sheet_patient s) = Some patient_id /\
     length feat = 2 * length feature_names /\
     patient_id_to_case !! patient_id = Some case /\
     st' = {| patient_ids := patient_ids st ++ [patient_id];
              feature_vectors := feature_vectors st ++ [feat];
              classes := classes st ++ [case] |}).
Proof.
  unfold aggregate_step, Matrix.has_rows, next, first_item.
  destruct (int (sheet_patient s)) as [pid|] eqn:Hint; [| done]. simpl.
  destruct (head (mean_csvs s)) as [mean_df|]; [| done]. simpl.
  destruct (head (std_csvs s)) as [std_df|]; [| done]. simpl.
  destruct ((length (dropna mean_df) =? 0)%nat || (length (dropna std_df) =? 0)%nat)
    eqn:Hempty.
  - intros [= <-]. by left.
  - destruct (dropna mean_df) as [|mean_row ?]; [done |].
    destruct (dropna std_df) as [|std_row ?]; [done |]. simpl.
    destruct (select mean_row feature_names) as [means|] eqn:Hm; [| done].
    destruct (select std_row feature_names) as [stds|] eqn:Hs; [| done]. simpl.
    destruct (patient_id_to_case !! pid) as [case|] eqn:Hc; [| done]. simpl.
    intros [= <-]. right. split; [done |].
    exists pid, (means ++ stds), case. repeat split; try done.
    apply select_inv, Forall2_length in Hm, Hs. rewrite length_app. lia.
Qed.

Lemma aggregate_app (st : acc) (l1 l2 : list sheet) :
  aggregate int patient_id_to_case feature_names st (l1 ++ l2) =
  bind (aggregate int patient_id_to_case feature_names st l1)
       (fun st1 => aggregate int patient_id_to_case feature_names st1 l2).
Proof.
  revert st. induction l1 as [|s l1 IH]; intros st; simpl; [done |].
  destruct (aggregate_step int patient_id_to_case feature_names st s);
    simpl; [apply IH | done].
Qed.

(** The accumulators after a complete run: the rows of the kept sheets,
    in order, appended to what was there. *)
Lemma aggregate_run_inv (st st' : acc) (sheets : list sheet) :
  aggregate int patient_id_to_case feature_names st sheets = Ok st' ->
  exists ids vectors cases,
    patient_ids st' = patient_ids st ++ ids /\
    feature_vectors st' = feature_vectors st ++ vectors /\
    classes st' = classes st ++ cases /\
    Forall2 (fun s id => int (sheet_patient s) = Some id)
            (List.filter Matrix.has_rows sheets) ids /\
    Forall2 (fun id case => patient_id_to_case !! id = Some case) ids cases /\
    length vectors = length ids /\
    Forall (fun v => length v = 2 * length feature_names) vectors.
Proof.
  revert st. induction sheets as [|s sheets IH]; intros st H; simpl in H.
  - injection H as <-. exists [], [], []. rewrite !app_nil_r.
    repeat split; constructor.
  - destruct (aggregate_step int patient_id_to_case feature_names st s)
      as [st1|] eqn:Hstep; [| done]. simpl in H.
    destruct (IH _ H) as (ids & vs & cs & Hi & Hv & Hc & Hkept & Hlab & Hlen & Hw).
    apply aggregate_step_inv in Hstep
      as [[Hskip ->] | (Hkeep & pid & feat & case & Hint & Hfeat & Hcase & ->)].
    + exists ids, vs, cs. simpl. rewrite Hskip. done.
    + exists (pid :: ids), (feat :: vs), (case :: cs). simpl in *.
      rewrite Hkeep, Hi, Hv, Hc, <- !app_assoc. simpl.
      repeat split; try done; try by constructor. by rewrite Hlen.
Qed.
End TabularRunFacts.

(** X3. After a complete run of the aggregation loop the three lists
    are parallel: as many patient ids as vectors as labels, every vector
    with two entries per feature name, and every label the one the table
    gives for the patient id at the same position. *)
Theorem aggregate_keeps_lists_parallel
    (int : string -> option Z) (patient_id_to_case : gmap Z Z)
    (feature_names : list string) (sheets : list Tabular.sheet)
    (st : Tabular.acc) :
  Tabular.aggregate int patient_id_to_case feature_names Tabular.empty_acc sheets
    = Py.Ok st ->
  length (Tabular.patient_ids st) = length (Tabular.feature_vectors st) /\
  length (Tabular.feature_vectors st) = length (Tabular.classes st) /\
  Forall (fun v => length v = 2 * length feature_names)
         (Tabular.feature_vectors st) /\
  Forall2 (fun id case => patient_id_to_case !! id = Some case)
          (Tabular.patient_ids st) (Tabular.classes st).
Proof.
  intros H. apply aggregate_run_inv in H
    as (ids & vs & cs & -> & -> & -> & _ & Hlab & Hlen & Hw).
  simpl. pose proof (Forall2_length _ _ _ Hlab). repeat split; try done; lia.
Qed.

Lemma aggregate_keeps_lists_parallel_witness :
  length [2036311%Z] = length [[1; 2; 3; 1 # 10; 2 # 10; 3 # 10]%Q] /\
  length [[1; 2; 3; 1 # 10; 2 # 10; 3 # 10]%Q] = length [1%Z] /\
  Forall (fun v => length v = 2 * length Scenario.abc)
         [[1; 2; 3; 1 # 10; 2 # 10; 3 # 10]%Q] /\
  Forall2 (fun id case => Scenario.labels !! id = Some case)
          [2036311%Z] [1%Z].
Proof.
  apply (aggregate_keeps_lists_parallel Scenario.decimal Scenario.labels
           Scenario.abc [Scenario.gap_sheet; Scenario.abc_sheet]
           {| Tabular.patient_ids := [2036311%Z];
              Tabular.feature_vectors := [[1; 2; 3; 1 # 10; 2 # 10; 3 # 10]%Q];
              Tabular.classes := [1%Z] |}).
  reflexivity.
Defined.

(** X4. A complete run yields one row per sheet that is not skipped, in
    the order of the sheets: the patient ids are the numbers of the
    directories of exactly the sheets both of whose tables keep a row. *)
Theorem aggregate_rows_are_kept_sheets
    (int : string -> option Z) (patient_id_to_case : gmap Z Z)
    (feature_names : list string) (sheets : list Tabular.sheet)
    (st : Tabular.acc) :
  Tabular.aggregate int patient_id_to_case feature_names Tabular.empty_acc sheets
    = Py.Ok st ->
  Forall2 (fun s id => int (Tabular.sheet_patient s) = Some id)
          (List.filter Matrix.has_rows sheets) (Tabular.patient_ids st) /\
  length (Tabular.feature_vectors st)
    = length (List.filter Matrix.has_rows sheets).
Proof.
  intros H. apply aggregate_run_inv in H
    as (ids & vs & cs & Hi & Hv & _ & Hkept & _ & Hlen & _).
  rewrite Hi, Hv. simpl. split; [done |].
  rewrite Hlen. symmetry. by eapply Forall2_length.
Qed.

Lemma aggregate_rows_are_kept_sheets_witness :
  Forall2 (fun s id => Scenario.decimal (Tabular.sheet_patient s) = Some id)
          (List.filter Matrix.has_rows [Scenario.gap_sheet; Scenario.abc_sheet])
          [2036311%Z] /\
  length [[1; 2; 3; 1 # 10; 2 # 10; 3 # 10]%Q]
    = length (List.filter Matrix.has_rows
                [Scenario.gap_sheet; Scenario.abc_sheet]).
Proof.
  apply (aggregate_rows_are_kept_sheets Scenario.decimal Scenario.labels
           Scenario.abc [Scenario.gap_sheet; Scenario.abc_sheet]
           {| Tabular.patient_ids := [2036311%Z];
              Tabular.feature_vectors := [[1; 2; 3; 1 # 10; 2 # 10; 3 # 10]%Q];
              Tabular.classes := [1%Z] |}).
  reflexivity.
Defined.

(** X5. A sheet whose tables keep a row but whose patient has no entry
    in the label table ends the run with a [KeyError] as soon as it is
    reached, whatever its tables hold and whatever follows. *)
Theorem aggregate_unlabelled_patient_raises
    (int : string -> option Z) (patient_id_to_case : gmap Z Z)
    (feature_names : list string)
    (before after : list Tabular.sheet) (s : Tabular.sheet)
    (st st1 : Tabular.acc) (patient_id : Z) :
  Tabular.aggregate int patient_id_to_case feature_names st before = Py.Ok st1 ->
  int (Tabular.sheet_patient s) = Some patient_id ->
  Matrix.has_rows s = true ->
  patient_id_to_case !! patient_id = None ->
  Tabular.aggregate int patient_id_to_case feature_names st
    (before ++ s :: after) = Py.Raise Py.KeyError.
Proof.
  intros Hbefore Hint Hrows Hnone.
  rewrite aggregate_app, Hbefore. simpl.
  unfold Tabular.aggregate_step, Matrix.has_rows, Py.next, Py.first_item in *.
  rewrite Hint. simpl.
  destruct (head (Tabular.mean_csvs s)) as [mean_df|]; [| done].
  destruct (head (Tabular.std_csvs s)) as [std_df|]; [| done]. simpl.
  apply negb_true_iff in Hrows. rewrite Hrows.
  destruct (Tabular.dropna mean_df) as [|mean_row ?]; [done |].
  destruct (Tabular.dropna std_df) as [|std_row ?];
    [by simpl in Hrows |]. simpl.
  destruct (Tabular.select mean_row feature_names) as [means|e] eqn:Hm; simpl;
    [| by rewrite (select_error _ _ _ Hm)].
  destruct (Tabular.select std_row feature_names) as [stds|e] eqn:Hs; simpl;
    [| by rewrite (select_error _ _ _ Hs)].
  by rewrite Hnone.
Qed.

Lemma aggregate_unlabelled_patient_raises_witness :
  Tabular.aggregate Scenario.decimal (delete 2036311%Z Scenario.labels)
    Scenario.abc Tabular.empty_acc
    ([Scenario.gap_sheet] ++ Scenario.abc_sheet :: [Scenario.abc_sheet])
  = Py.Raise Py.KeyError.
Proof.
  apply (aggregate_unlabelled_patient_raises Scenario.decimal
           (delete 2036311%Z Scenario.labels) Scenario.abc
           [Scenario.gap_sheet] [Scenario.abc_sheet] Scenario.abc_sheet
           Tabular.empty_acc Tabular.empty_acc 2036311);
    reflexivity.
Defined.

(** ** The data matrix, its column names and the elastic-net selection *)

Section MatrixFacts.
Import Py Tabular Matrix.

Lemma map_result_same {X : Type} (f : X -> result X) (l : list X) :
  Forall (fun x => f x = Ok x) l -> Np.map_result f l = Ok l.
Proof.
  induction 1 as [|x l Hx _ IH]; simpl; [done |]. by rewrite Hx, IH.
Qed.

Lemma to_matrix_uniform (n : nat) (vectors : list (list Q)) :
  vectors <> [] -> Forall (fun v => length v = n) vectors ->
  to_matrix vectors = Ok vectors.
Proof.
  intros Hne Hall. unfold to_matrix, first_item.
  destruct vectors as [|v vs]; [done |]. simpl head. simpl of_option.
  unfold bind. apply map_result_same.
  pose proof (Forall_inv Hall) as Hv. simpl in Hv.
  eapply Forall_impl; [exact Hall |]. intros v' Hv'. simpl in Hv'.
  unfold assign_row. rewrite Hv, Hv'. by rewrite Nat.eqb_refl.
Qed.

Lemma length_colnames (feature_names : list string) :
  length (colnames feature_names) = 2 * length feature_names.
Proof. unfold colnames. rewrite length_app, !length_map. lia. Qed.

Lemma colnames_lookup (feature_names : list string) (j : nat) (name : string) :
  feature_names !! j = Some name ->
  colnames feature_names !! j = Some ("mean_" +:+ name) /\
  colnames feature_names !! (length feature_names + j) = Some ("std_" +:+ name).
Proof.
  intros Hj. unfold colnames. split.
  - rewrite lookup_app_l by (rewrite length_map; by eapply lookup_lt_Some).
    by rewrite lookup_map, Hj.
  - rewrite lookup_app_r by (rewrite length_map; lia).
    rewrite length_map. replace (length feature_names + j - length feature_names)
      with j by lia.
    by rewrite lookup_map, Hj.
Qed.

Lemma colnames_NoDup (feature_names : list string) :
  NoDup feature_names -> NoDup (colnames feature_names).
Proof.
  intros Hnd. unfold colnames. apply NoDup_app. split; [| split].
  - apply (NoDup_fmap_2 (String.app "mean_")), Hnd.
  - intros x Hm Hs.
    apply list_elem_of_fmap in Hm as (a & -> & _).
    apply list_elem_of_fmap in Hs as (b & Heq & _).
    cbv in Heq. discriminate.
  - apply (NoDup_fmap_2 (String.app "std_")), Hnd.
Qed.
End MatrixFacts.

(** X6. On the result of a complete aggregation, cells 6 and 7 raise
    an [IndexError] when every sheet was skipped, and otherwise build the
    table whose rows are the aggregated vectors unchanged, indexed by the
    patient ids, under the column names of cell 7: the shapes always
    fit. *)
Theorem summary_stats_of_aggregate
    (int : string -> option Z) (patient_id_to_case : gmap Z Z)
    (feature_names : list string) (sheets : list Tabular.sheet)
    (st : Tabular.acc) :
  Tabular.aggregate int patient_id_to_case feature_names Tabular.empty_acc sheets
    = Py.Ok st ->
  (Tabular.feature_vectors st = [] ->
   Matrix.summary_stats feature_names st = Py.Raise Py.IndexError) /\
  (Tabular.feature_vectors st <> [] ->
   Matrix.summary_stats feature_names st =
   Py.Ok {| Matrix.index := Tabular.patient_ids st;
            Matrix.columns := Matrix.colnames feature_names;
            Matrix.values := Tabular.feature_vectors st |}).
Proof.
  intros H. apply aggregate_run_inv in H
    as (ids & vs & cs & Hi & Hv & _ & _ & _ & Hlen & Hw).
  simpl in Hi, Hv. unfold Matrix.summary_stats. rewrite Hi, Hv. split.
  - by intros ->.
  - intros Hne.
    rewrite (to_matrix_uniform (2 * length feature_names)) by done. simpl.
    unfold Matrix.data_frame, Np.rows, Np.cols.
    rewrite length_colnames, Hlen, Nat.eqb_refl.
    destruct vs as [|v vs']; [done |].
    apply Forall_inv in Hw. simpl in Hw. by rewrite Hw, Nat.eqb_refl.
Qed.

Lemma summary_stats_of_aggregate_witness :
  Matrix.summary_stats Scenario.abc
    {| Tabular.patient_ids := [2036311%Z];
       Tabular.feature_vectors := [[1; 2; 3; 1 # 10; 2 # 10; 3 # 10]%Q];
       Tabular.classes := [1%Z] |} =
  Py.Ok {| Matrix.index := [2036311%Z];
           Matrix.columns := Matrix.colnames Scenario.abc;
           Matrix.values := [[1; 2; 3; 1 # 10; 2 # 10; 3 # 10]%Q] |}.
Proof.
  apply (summary_stats_of_aggregate Scenario.decimal Scenario.labels
           Scenario.abc [Scenario.gap_sheet; Scenario.abc_sheet]
           {| Tabular.patient_ids := [2036311%Z];
              Tabular.feature_vectors := [[1; 2; 3; 1 # 10; 2 # 10; 3 # 10]%Q];
              Tabular.classes := [1%Z] |}).
  - reflexivity.
  - discriminate.
Defined.

(** X7. The column names line up with the vector: for the feature name
    at position [j], entry [j] of the vector is the mean row's value of
    that name and stands under [mean_<name>], entry [len + j] is the std
    row's value and stands under [std_<name>]; there are two columns per
    name, and distinct names give distinct columns. *)
Theorem colnames_align_with_vector
    (feature_names : list string) (mean_row std_row : Tabular.row)
    (means stds : list Q) (j : nat) (name : string) :
  Tabular.select mean_row feature_names = Py.Ok means ->
  Tabular.select std_row feature_names = Py.Ok stds ->
  feature_names !! j = Some name ->
  (exists m sd,
     (means ++ stds) !! j = Some m /\
     Tabular.row_lookup mean_row name = Some (Some m) /\
     Matrix.colnames feature_names !! j = Some ("mean_" +:+ name) /\
     (means ++ stds) !! (length feature_names + j) = Some sd /\
     Tabular.row_lookup std_row name = Some (Some sd) /\
     Matrix.colnames feature_names !! (length feature_names + j)
       = Some ("std_" +:+ name)) /\
  length (Matrix.colnames feature_names) = length (means ++ stds) /\
  (NoDup feature_names -> NoDup (Matrix.colnames feature_names)).
Proof.
  intros Hm Hs Hj. apply select_inv in Hm, Hs.
  destruct (Forall2_lookup_l _ _ _ _ _ Hm Hj) as (m & Hmj & Hmv).
  destruct (Forall2_lookup_l _ _ _ _ _ Hs Hj) as (sd & Hsj & Hsv).
  destruct (colnames_lookup _ _ _ Hj) as [Hc1 Hc2].
  pose proof (Forall2_length _ _ _ Hm) as Hlm.
  pose proof (Forall2_length _ _ _ Hs) as Hls.
  split; [| split].
  - exists m, sd. repeat split; try done.
    + by apply lookup_app_l_Some.
    + rewrite lookup_app_r by lia.
      by replace (length feature_names + j - length means) with j by lia.
  - rewrite length_colnames, length_app. lia.
  - apply colnames_NoDup.
Qed.

Lemma colnames_align_with_vector_witness :
  (exists m sd,
     ([1; 2; 3] ++ [1 # 10; 2 # 10; 3 # 10])%Q !! 1 = Some m /\
     Tabular.row_lookup Scenario.mean_row "b" = Some (Some m) /\
     Matrix.colnames Scenario.abc !! 1 = Some ("mean_" +:+ "b") /\
     ([1; 2; 3] ++ [1 # 10; 2 # 10; 3 # 10])%Q !! (length Scenario.abc + 1)
       = Some sd /\
     Tabular.row_lookup Scenario.std_row "b" = Some (Some sd) /\
     Matrix.colnames Scenario.abc !! (length Scenario.abc + 1)
       = Some ("std_" +:+ "b")) /\
  length (Matrix.colnames Scenario.abc)
    = length ([1; 2; 3] ++ [1 # 10; 2 # 10; 3 # 10])%Q /\
  (NoDup Scenario.abc -> NoDup (Matrix.colnames Scenario.abc)).
Proof.
  apply (colnames_align_with_vector Scenario.abc Scenario.mean_row
           Scenario.std_row [1; 2; 3]%Q [1 # 10; 2 # 10; 3 # 10]%Q 1 "b");
    reflexivity.
Defined.

Section ElasticNetFacts.
Import Py Matrix.

Lemma coef_name_mod (feature_names : list string) (i : nat) :
  0 < length feature_names ->
  coef_name feature_names i = feature_names !! (i mod length feature_names).
Proof.
  intros Hpos. unfold coef_name.
  destruct (Nat.ltb_spec i (length feature_names)) as [Hlt|Hge].
  - by rewrite Nat.mod_small.
  - destruct (Nat.eqb_spec (length feature_names) 0); [lia | done].
Qed.

(** The name of a coefficient is the feature name of its column. *)
Lemma coef_name_column (feature_names : list string) (i : nat) :
  i < 2 * length feature_names ->
  exists name,
    coef_name feature_names i = Some name /\
    colnames feature_names !! i =
      Some ((if (i <? length feature_names)%nat then "mean_" else "std_")
            +:+ name).
Proof.
  intros Hi. assert (Hpos : 0 < length feature_names) by lia.
  rewrite (coef_name_mod _ _ Hpos).
  destruct (lookup_lt_is_Some_2 feature_names (i mod length feature_names))
    as [name Hname]; [apply Nat.mod_upper_bound; lia |].
  exists name. split; [done |].
  destruct (colnames_lookup _ _ _ Hname) as [Hmean Hstd].
  destruct (Nat.ltb_spec i (length feature_names)) as [Hlt|Hge].
  - by rewrite Nat.mod_small in Hmean.
  - replace (i mod length feature_names) with (i - length feature_names) in Hstd.
    + by replace (length feature_names + (i - length feature_names)) with i
        in Hstd by lia.
    + apply Nat.mod_unique with (q := 1); lia.
Qed.

Lemma selected_coefs_inv (feature_names : list string) (coefs : list Q)
    (i : nat) (selected names : list string) :
  i + length coefs <= 2 * length feature_names ->
  selected_coefs feature_names i coefs selected = Some names ->
  exists picked,
    names = selected ++ picked /\
    Forall2 (fun p name =>
               colnames feature_names !! fst p =
                 Some ((if (fst p <? length feature_names)%nat
                        then "mean_" else "std_") +:+ name))
            (List.filter (fun p => nonzero (snd p))
                         (zip (seq i (length coefs)) coefs))
            picked.
Proof.
  revert i selected. induction coefs as [|coef coefs IH];
    intros i selected Hlen H; simpl in *.
  - injection H as <-. exists []. by rewrite app_nil_r.
  - destruct (nonzero coef) eqn:Hnz.
    + destruct (coef_name_column feature_names i) as (name & Hname & Hcol);
        [lia |].
      rewrite Hname in H.
      destruct (IH (S i) _ ltac:(lia) H) as (picked & -> & Hall).
      exists (name :: picked). rewrite <- app_assoc. split; [done |].
      by constructor.
    + apply (IH (S i)); [lia | done].
Qed.

Lemma length_filter_zip (i : nat) (coefs : list Q) :
  length (List.filter (fun p : nat * Q => nonzero (snd p))
            (zip (seq i (length coefs)) coefs))
  = length (List.filter nonzero coefs).
Proof.
  revert i. induction coefs as [|coef coefs IH]; intros i; simpl; [done |].
  destruct (nonzero coef); simpl; by rewrite IH.
Qed.

Lemma mask_row_length (coefs row kept : list Q) :
  mask_row (map nonzero coefs) row = Ok kept ->
  length row = length coefs /\
  length kept = length (List.filter nonzero coefs).
Proof.
  unfold mask_row. rewrite length_map.
  destruct (Nat.eqb_spec (length coefs) (length row)) as [Hlen|]; [| done].
  intros [= <-]. split; [done |]. rewrite length_map. clear -Hlen.
  revert row Hlen. induction coefs as [|coef coefs IH]; intros [|x row] Hlen;
    simpl in *; try done.
  destruct (nonzero coef); simpl; rewrite IH; auto.
Qed.
End ElasticNetFacts.

(** X8. With one coefficient per column, every name the elastic-net
    loop collects is the feature name of the column of its coefficient
    (the loop never fails there); and the number of names it prints is
    the number of columns the two reduced matrices keep. *)
Theorem elastic_net_names_match_columns
    (feature_names : list string) (coefs : list Q) :
  length coefs = 2 * length feature_names ->
  exists names,
    Matrix.selected_coefs feature_names 0 coefs [] = Some names /\
    Forall2 (fun p name =>
               Matrix.colnames feature_names !! fst p =
                 Some ((if (fst p <? length feature_names)%nat
                        then "mean_" else "std_") +:+ name))
            (List.filter (fun p => Matrix.nonzero (snd p))
                         (zip (seq 0 (length coefs)) coefs))
            names /\
    forall X X',
      Matrix.select_columns coefs X = Py.Ok X' ->
      Forall (fun row => length row = length names) X'.
Proof.
  intros Hlen.
  assert (Hsome : forall cs i selected,
            i + length cs <= 2 * length feature_names ->
            is_Some (Matrix.selected_coefs feature_names i cs selected)).
  { induction cs as [|coef cs IH]; intros i selected Hle; simpl in *;
      [by eexists |].
    destruct (Matrix.nonzero coef); [| apply IH; lia].
    destruct (coef_name_column feature_names i) as (name & -> & _); [lia |].
    apply IH. lia. }
  destruct (Hsome coefs 0 []) as [names Hnames]; [lia |].
  exists names. split; [done |].
  destruct (selected_coefs_inv feature_names coefs 0 [] names ltac:(lia) Hnames)
    as (picked & -> & Hall).
  simpl. split; [done |].
  intros X X' HX. unfold Matrix.select_columns in HX.
  apply map_result_inv in HX. apply Forall_forall. intros row' Hrow'.
  apply list_elem_of_lookup_1 in Hrow' as [k Hk].
  destruct (Forall2_lookup_r _ _ _ _ _ HX Hk) as (row & _ & Hmask).
  apply mask_row_length in Hmask as [_ ->].
  rewrite <- (Forall2_length _ _ _ Hall). symmetry. apply length_filter_zip.
Qed.

Lemma elastic_net_names_match_columns_witness :
  exists names,
    Matrix.selected_coefs Scenario.abc 0 Scenario.coefs [] = Some names /\
    Forall2 (fun p name =>
               Matrix.colnames Scenario.abc !! fst p =
                 Some ((if (fst p <? length Scenario.abc)%nat
                        then "mean_" else "std_") +:+ name))
            (List.filter (fun p => Matrix.nonzero (snd p))
                         (zip (seq 0 (length Scenario.coefs)) Scenario.coefs))
            names /\
    forall X X',
      Matrix.select_columns Scenario.coefs X = Py.Ok X' ->
      Forall (fun row => length row = length names) X'.
Proof.
  apply (elastic_net_names_match_columns Scenario.abc Scenario.coefs).
  reflexivity.
Defined.

(** ** Loading the samples of the imaging notebook *)

Section LoadFacts.
Import Py Np Imaging.
Variable finfo_max : Q.

Lemma load_feature_inv mask d0 file d :
  load_feature finfo_max mask d0 file = Ok d ->
  exists masked name,
    multiply (nan_to_num finfo_max (snd file)) mask = Ok masked /\
    Re.search name_marker nii_gz (fst file) = Some name /\
    d = <[name := masked]> d0.
Proof.
  unfold load_feature.
  destruct (multiply (nan_to_num finfo_max (snd file)) mask) as [masked|];
    [| done]. simpl.
  destruct (Re.search name_marker nii_gz (fst file)) as [name|]; [| done].
  simpl. intros [= <-]. by exists masked, name.
Qed.

Lemma load_fold_frame mask files d0 d n :
  fold_result (load_feature finfo_max mask) files d0 = Ok d ->
  (forall file, file ∈ files ->
                Re.search name_marker nii_gz (fst file) <> Some n) ->
  d !! n = d0 !! n.
Proof.
  revert d0. induction files as [|file files IH]; intros d0 H Hnot; simpl in H.
  - by injection H as <-.
  - destruct (load_feature finfo_max mask d0 file) as [d1|] eqn:Hstep; [| done].
    simpl in H. rewrite (IH _ H) by (intros f Hf; apply Hnot; by right).
    apply load_feature_inv in Hstep as (masked & name & _ & Hname & ->).
    apply lookup_insert_ne. intros ->. by apply (Hnot file); [left |].
Qed.

Lemma load_fold_keys mask files d0 d :
  fold_result (load_feature finfo_max mask) files d0 = Ok d ->
  (forall n, is_Some (d !! n) <->
             is_Some (d0 !! n) \/
             exists file, file ∈ files /\
                          Re.search name_marker nii_gz (fst file) = Some n) /\
  size d <= size d0 + length files.
Proof.
  revert d0. induction files as [|file files IH]; intros d0 H; simpl in H.
  - injection H as <-. split; [| simpl; lia]. intros n. split; [by left |].
    intros [? | (f & Hf & _)]; [done | by apply elem_of_nil in Hf].
  - destruct (load_feature finfo_max mask d0 file) as [d1|] eqn:Hstep; [| done].
    simpl in H. destruct (IH _ H) as [Hkeys Hsize].
    apply load_feature_inv in Hstep as (masked & name & _ & Hname & ->).
    split.
    + intros n. rewrite Hkeys, lookup_insert_is_Some. split.
      * intros [[<- | [_ Hn]] | (f & Hf & Hs)].
        -- right. exists file. split; [by left | done].
        -- by left.
        -- right. exists f. split; [by right | done].
      * intros [Hn | (f & Hf & Hs)].
        -- left. destruct (decide (name = n)); [by left | by right].
        -- apply elem_of_cons in Hf as [-> | Hf].
           ++ left. left. congruence.
           ++ right. by exists f.
    + pose proof (map_size_insert name masked d0) as Hins.
      destruct (d0 !! name); simpl in *; lia.
Qed.
End LoadFacts.

(** X9. The feature dictionary of a sample has exactly the names found
    in its file names as keys, so no more entries than files; when two
    files give the same name, the entry is the cleaned and masked map of
    the last of them. *)
Theorem load_features_last_file_wins
    (finfo_max : Q) (mask : list (list Q))
    (files : list (string * list (list Np.fval)))
    (d : gmap string (list (list Q))) :
  Imaging.load_features finfo_max mask files = Py.Ok d ->
  (forall n, n ∈ dom d <->
             exists file, file ∈ files /\
               Re.search Imaging.name_marker Imaging.nii_gz (fst file) = Some n) /\
  size d <= length files /\
  (forall files1 file files2 n,
     files = files1 ++ file :: files2 ->
     Re.search Imaging.name_marker Imaging.nii_gz (fst file) = Some n ->
     (forall later, later ∈ files2 ->
        Re.search Imaging.name_marker Imaging.nii_gz (fst later) <> Some n) ->
     exists masked,
       Np.multiply (Np.nan_to_num finfo_max (snd file)) mask = Py.Ok masked /\
       d !! n = Some masked).
Proof.
  unfold Imaging.load_features. intros H.
  destruct (load_fold_keys finfo_max mask files ∅ d H) as [Hkeys Hsize].
  split; [| split].
  - intros n. rewrite elem_of_dom, Hkeys, lookup_empty. split.
    + intros [[? ?] | ?]; done.
    + by right.
  - by rewrite map_size_empty in Hsize.
  - intros files1 file files2 n -> Hname Hlater.
    rewrite fold_result_app in H.
    destruct (Np.fold_result (Imaging.load_feature finfo_max mask) files1 ∅)
      as [d1|]; [| done].
    simpl in H.
    destruct (Imaging.load_feature finfo_max mask d1 file) as [d2|] eqn:Hstep;
      [| done].
    simpl in H. rewrite (load_fold_frame finfo_max mask files2 d2 d n H Hlater).
    apply load_feature_inv in Hstep as (masked & name & Hm & Hn & ->).
    exists masked. split; [done |].
    rewrite Hname in Hn. injection Hn as <-. apply lookup_insert_eq.
Qed.

Lemma load_features_last_file_wins_witness :
  (forall n, n ∈ dom ({[ "norm_box" := [[2; 0]%Q] ]} : gmap string (list (list Q))) <->
             exists file, file ∈ Scenario.twice /\
               Re.search Imaging.name_marker Imaging.nii_gz (fst file) = Some n) /\
  size ({[ "norm_box" := [[2; 0]%Q] ]} : gmap string (list (list Q)))
    <= length Scenario.twice /\
  (forall files1 file files2 n,
     Scenario.twice = files1 ++ file :: files2 ->
     Re.search Imaging.name_marker Imaging.nii_gz (fst file) = Some n ->
     (forall later, later ∈ files2 ->
        Re.search Imaging.name_marker Imaging.nii_gz (fst later) <> Some n) ->
     exists masked,
       Np.multiply (Np.nan_to_num Np.float64_max (snd file)) [[1; 0]%Q]
         = Py.Ok masked /\
       ({[ "norm_box" := [[2; 0]%Q] ]} : gmap string (list (list Q))) !! n
         = Some masked).
Proof.
  apply (load_features_last_file_wins Np.float64_max [[1; 0]%Q] Scenario.twice).
  vm_compute. reflexivity.
Defined.

Section MismatchFacts.
Import Py Np Imaging.

Lemma multiply_mismatch h w h2 w2 (a b : list (list Q)) :
  rect h w a -> rect h2 w2 b ->
  (h <> h2 /\ h <> 1 /\ h2 <> 1) \/
  (0 < h /\ 0 < h2 /\ w <> w2 /\ w <> 1 /\ w2 <> 1) ->
  multiply a b = Raise (ValueError "operands could not be broadcast together").
Proof.
  intros Ha Hb Hbad. unfold multiply, rows, broadcast_dim.
  destruct Hbad as [(Hne & H1 & H2) | (Hh & Hh2 & Hne & H1 & H2)].
  - destruct Ha as [-> _], Hb as [-> _].
    destruct (Nat.eqb_spec h h2); [done |].
    destruct (Nat.eqb_spec h 1); [done |].
    by destruct (Nat.eqb_spec h2 1).
  - rewrite (cols_rect _ _ _ Ha Hh), (cols_rect _ _ _ Hb Hh2).
    destruct (Nat.eqb_spec w w2); [done |].
    destruct (Nat.eqb_spec w 1); [done |].
    destruct (Nat.eqb_spec w2 1); [done |].
    by destruct (if (length a =? length b)%nat then _ else _).
Qed.
End MismatchFacts.

(** X10. A feature volume whose shape neither equals that of the mask
    nor differs from it only in axes of length one cannot be masked: the
    loading of the sample never completes. *)
Theorem load_features_shape_mismatch
    (finfo_max : Q) (h w h2 w2 : nat) (mask : list (list Q))
    (files : list (string * list (list Np.fval)))
    (file : string * list (list Np.fval)) :
  file ∈ files ->
  Np.rect h w mask -> Np.rect h2 w2 (snd file) ->
  (h <> h2 /\ h <> 1 /\ h2 <> 1) \/
  (0 < h /\ 0 < h2 /\ w <> w2 /\ w <> 1 /\ w2 <> 1) ->
  Np.multiply (Np.nan_to_num finfo_max (snd file)) mask
    = Py.Raise (Py.ValueError "operands could not be broadcast together") /\
  ~ Py.is_ok (Imaging.load_features finfo_max mask files).
Proof.
  intros Hin Hmask Hvol Hbad.
  assert (Hmul : Np.multiply (Np.nan_to_num finfo_max (snd file)) mask
                 = Py.Raise (Py.ValueError "operands could not be broadcast together")).
  { apply (multiply_mismatch h2 w2 h w);
      [by apply rect_nan_to_num | done |].
    destruct Hbad as [(? & ? & ?) | (? & ? & ? & ? & ?)]; [left | right];
      repeat split; auto. }
  split; [done |]. unfold Imaging.load_features.
  apply (fold_result_fails _ _ _ file Hin).
  intros d0. unfold Imaging.load_feature. rewrite Hmul. simpl. tauto.
Qed.

Lemma load_features_shape_mismatch_witness :
  Np.multiply
    (Np.nan_to_num Np.float64_max [[Np.Finite 1; Np.Finite 2; Np.Finite 3]])
    [[1; 0]%Q]
    = Py.Raise (Py.ValueError "operands could not be broadcast together") /\
  ~ Py.is_ok (Imaging.load_features Np.float64_max [[1; 0]%Q]
                [("a_norm_box.nii.gz", [[Np.Finite 1; Np.Finite 2; Np.Finite 3]])]).
Proof.
  apply (load_features_shape_mismatch Np.float64_max 1 2 1 3 [[1; 0]%Q]
           [("a_norm_box.nii.gz", [[Np.Finite 1; Np.Finite 2; Np.Finite 3]])]
           ("a_norm_box.nii.gz", [[Np.Finite 1; Np.Finite 2; Np.Finite 3]])).
  - constructor.
  - split; [reflexivity | repeat constructor].
  - split; [reflexivity | repeat constructor].
  - right. repeat split; lia.
Defined.

(** X11. The label is looked up before anything of the sample is read:
    a sample whose patient has no entry in the label table ends the run
    with a [KeyError] as soon as it is reached, whatever its files hold
    and whichever partition lists its patient. *)
Theorem aggregate_unlabelled_sample_raises
    (finfo_max : Q) (int : string -> option Z) (patient_id_to_case : gmap Z Z)
    (training testing : list string)
    (before after : list (string * Imaging.sample_dir))
    (sample : string * Imaging.sample_dir) (st st1 : Imaging.sets) (id : Z) :
  Imaging.aggregate finfo_max int patient_id_to_case training testing before st
    = Py.Ok st1 ->
  int (fst sample) = Some id ->
  patient_id_to_case !! id = None ->
  Imaging.aggregate finfo_max int patient_id_to_case training testing
    (before ++ sample :: after) st = Py.Raise Py.KeyError.
Proof.
  intros Hbefore Hint Hnone. unfold Imaging.aggregate in *.
  rewrite fold_result_app, Hbefore. simpl.
  unfold Imaging.aggregate_step at 1, Imaging.load_sample.
  by rewrite Hint; simpl; rewrite Hnone.
Qed.

Lemma aggregate_unlabelled_sample_raises_witness :
  Imaging.aggregate Np.float64_max Scenario.decimal Scenario.labels
    ["2036311"; "2036313"] []
    ([("2036311", Scenario.left_image)] ++
     ("2036313", Scenario.right_image) :: [("2036311", Scenario.right_image)])
    Imaging.empty_sets
  = Py.Raise Py.KeyError.
Proof.
  apply (aggregate_unlabelled_sample_raises Np.float64_max Scenario.decimal
           Scenario.labels ["2036311"; "2036313"] []
           [("2036311", Scenario.left_image)]
           [("2036311", Scenario.right_image)]
           ("2036313", Scenario.right_image) Imaging.empty_sets
           {| Imaging.train_features :=
                [{[ "norm_win_97_sliding_97_box_counting" := [[4 * 1; 0 * 0]%Q] ]}];
              Imaging.train_classes := [1%Z];
              Imaging.test_features := [];
              Imaging.test_classes := [] |}
           2036313).
  - vm_compute. reflexivity.
  - reflexivity.
  - reflexivity.
Defined.

Section CountFacts.
Import Py Np Imaging.

Lemma filter_partition_length {X : Type} (P Q : X -> Prop)
    `{!forall x, Decision (P x)} `{!forall x, Decision (Q x)} (l : list X) :
  Forall (fun x => (P x /\ ~ Q x) \/ (Q x /\ ~ P x)) l ->
  length (filter P l) + length (filter Q l) = length l.
Proof.
  induction 1 as [|x l Hx _ IH]; [done |].
  rewrite !filter_cons.
  destruct Hx as [[HP HQ] | [HQ HP]];
    rewrite ?(decide_True _ _ HP), ?(decide_False _ _ HP),
      ?(decide_True _ _ HQ), ?(decide_False _ _ HQ); simpl; lia.
Qed.

Lemma zip_Forall_fst {X Y : Type} (P : X -> Prop) (l : list X) (k : list Y) :
  Forall P l -> Forall (fun p => P (fst p)) (zip l k).
Proof.
  intros H. revert k. induction H as [|x l Hx _ IH]; intros [|y k];
    simpl; constructor; auto.
Qed.
End CountFacts.

(** X12. After a complete run of cell 7 the feature and label lists of
    each partition are parallel, and the two partitions together hold as
    many samples as the run was given: none is lost and none is counted
    twice. *)
Theorem aggregate_partitions_all_samples
    (finfo_max : Q) (int : string -> option Z) (patient_id_to_case : gmap Z Z)
    (training testing : list string)
    (samples : list (string * Imaging.sample_dir)) (st : Imaging.sets) :
  Imaging.aggregate finfo_max int patient_id_to_case training testing samples
    Imaging.empty_sets = Py.Ok st ->
  length (Imaging.train_features st) = length (Imaging.train_classes st) /\
  length (Imaging.test_features st) = length (Imaging.test_classes st) /\
  length (Imaging.train_features st) + length (Imaging.test_features st)
    = length samples.
Proof.
  intros H. apply aggregate_inv in H
    as (loaded & Hl & Hone & Htf & Htc & Hsf & Hsc).
  rewrite Htf, Htc, Hsf, Hsc. simpl. rewrite !length_map.
  split; [done |]. split; [done |].
  rewrite (filter_partition_length
             (fun x : string * (gmap string (list (list Q)) * Z) => fst x ∈ training)
             (fun x => fst x ∈ testing)).
  - rewrite length_zip, length_map, <- (Forall2_length _ _ _ Hl). lia.
  - by apply (zip_Forall_fst (Imaging.in_one_partition training testing)).
Qed.

Lemma aggregate_partitions_all_samples_witness :
  length [({[ "norm_win_97_sliding_97_box_counting" := [[4 * 1; 0 * 0]%Q] ]}
           : gmap string (list (list Q)))]
    = length [1%Z] /\
  length [({[ "norm_win_97_sliding_97_box_counting" := [[-10 * 1; 2 * 1]%Q] ]}
           : gmap string (list (list Q)))]
    = length [0%Z] /\
  length [({[ "norm_win_97_sliding_97_box_counting" := [[4 * 1; 0 * 0]%Q] ]}
           : gmap string (list (list Q)))] +
  length [({[ "norm_win_97_sliding_97_box_counting" := [[-10 * 1; 2 * 1]%Q] ]}
           : gmap string (list (list Q)))]
    = length [("2036311", Scenario.left_image); ("2036312", Scenario.right_image)].
Proof.
  apply (aggregate_partitions_all_samples Np.float64_max Scenario.decimal
           Scenario.labels ["2036311"] ["2036312"]
           [("2036311", Scenario.left_image); ("2036312", Scenario.right_image)]
           {| Imaging.train_features :=
                [{[ "norm_win_97_sliding_97_box_counting" := [[4 * 1; 0 * 0]%Q] ]}];
              Imaging.train_classes := [1%Z];
              Imaging.test_features :=
                [{[ "norm_win_97_sliding_97_box_counting" := [[-10 * 1; 2 * 1]%Q] ]}];
              Imaging.test_classes := [0%Z] |}).
  vm_compute. reflexivity.
Defined.

Section StackFacts.
Import Py Np Imaging.

Lemma bind_Ok_inv {X Y : Type} (r : result X) (k : X -> result Y) (y : Y) :
  bind r k = Ok y -> exists x, r = Ok x /\ k x = Ok y.
Proof. destruct r as [x|]; [by exists x | done]. Qed.

Lemma fold_result_ext {X S : Type} (f g : S -> X -> result S) (l : list X) (s0 : S) :
  (forall s x, x ∈ l -> f s x = g s x) ->
  fold_result f l s0 = fold_result g l s0.
Proof.
  revert s0. induction l as [|x l IH]; intros s0 Hfg; [done |].
  simpl. rewrite (Hfg s0 x) by constructor.
  destruct (g s0 x) as [s1|]; simpl; [| done].
  apply IH. intros s y Hy. apply Hfg. by constructor.
Qed.

Lemma stretch_length {X : Type} (n : nat) (l : list X) :
  length l = n \/ length l = 1 -> length (stretch n l) = n.
Proof.
  destruct l as [|x [|y l]]; simpl; intros [H | H]; try lia;
    by rewrite length_replicate.
Qed.

Lemma stretch_Forall {X : Type} (P : X -> Prop) (n : nat) (l : list X) :
  Forall P l -> Forall P (stretch n l).
Proof.
  destruct l as [|x [|y l]]; simpl; intros H; try done.
  apply Forall_cons in H as [Hx _]. by apply Forall_replicate.
Qed.

Lemma rect_crop_min {X : Type} h w a b (m : list (list X)) :
  rect a b m -> rect (min h a) (min w b) (crop h w m).
Proof.
  intros [Ha Hb]. unfold crop. split.
  - rewrite length_map, length_take. lia.
  - apply Forall_fmap, Forall_take.
    eapply Forall_impl; [exact Hb |]. intros row Hrow. simpl in *.
    rewrite length_take. lia.
Qed.

Lemma broadcast_to_shape {X : Type} h w a b (m v : list (list X)) :
  rect a b m -> broadcast_to h w m = Ok v -> rect h w v.
Proof.
  intros Hm. unfold broadcast_to, broadcastable, rows.
  destruct (_ && _) eqn:Hok; [| done]. intros [= <-].
  apply andb_prop in Hok as [Hrows Hcols].
  apply orb_prop in Hrows. apply orb_prop in Hcols.
  assert (Hlen : length m = h \/ length m = 1).
  { destruct Hrows as [H | H]; apply Nat.eqb_eq in H; auto. }
  split; [by rewrite length_map, stretch_length |].
  apply Forall_fmap.
  destruct m as [|row m].
  { constructor. }
  destruct Hm as [_ Hb].
  assert (Hw : b = w \/ b = 1).
  { apply Forall_cons in Hb as [Hrow _]. simpl in Hcols. rewrite Hrow in Hcols.
    destruct Hcols as [H | H]; apply Nat.eqb_eq in H; auto. }
  apply stretch_Forall. eapply Forall_impl; [exact Hb |].
  intros r Hr. simpl in *. apply stretch_length. lia.
Qed.

(** What a completed run of the loop over the numbered names needed and
    what it leaves. *)
Lemma stack_fold_inv h w c (d : gmap string (list (list Q))) names j t0 t :
  fold_result (stack_feature h w c d) (zip (seq j (length names)) names) t0
    = Ok t ->
  Forall (fun name => is_Some (d !! name)) names /\
  (length names = 0 \/ j + length names <= c).
Proof.
  revert j t0. induction names as [|name names IH]; intros j t0 H.
  - split; [constructor | by left].
  - simpl in H. unfold stack_feature at 1 in H. simpl in H.
    destruct (d !! name) as [m|] eqn:Hm; [| done]. simpl in H.
    destruct (Nat.leb_spec c j); [done |].
    destruct (broadcast_to h w (crop h w m)) as [v|]; [| done]. simpl in H.
    destruct (IH _ _ H) as [Hall Hlen]. split.
    + constructor; [by eexists | done].
    + right. simpl. lia.
Qed.

Lemma stack_fold_shape h w c (d : gmap string (list (list Q))) names j t0 t :
  (forall name m, d !! name = Some m -> exists a b, rect a b m) ->
  shape3 h w c t0 ->
  fold_result (stack_feature h w c d) (zip (seq j (length names)) names) t0
    = Ok t ->
  shape3 h w c t.
Proof.
  intros Hrect. revert j t0. induction names as [|name names IH]; intros j t0 Ht0 H.
  - simpl in H. by injection H as <-.
  - simpl in H. unfold stack_feature at 1 in H. simpl in H.
    destruct (d !! name) as [m|] eqn:Hm; [| done]. simpl in H.
    destruct (Nat.leb_spec c j); [done |].
    destruct (broadcast_to h w (crop h w m)) as [v|] eqn:Hv; [| done]. simpl in H.
    destruct (Hrect _ _ Hm) as (a & b & Hab).
    apply (IH (S j) (set_channel j v t0)); [| done].
    apply shape3_set_channel; [done |].
    exact (broadcast_to_shape h w _ _ _ v (rect_crop_min h w a b m Hab) Hv).
Qed.

Lemma Forall2_Forall_r {X Y : Type} (P : X -> Prop) (Q : Y -> Prop)
    (R : X -> Y -> Prop) (l : list X) (k : list Y) :
  (forall x y, P x -> R x y -> Q y) -> Forall P l -> Forall2 R l k -> Forall Q k.
Proof.
  intros HQ HP HR. induction HR as [|x y l k Hxy _ IH]; [constructor |].
  apply Forall_cons in HP as [Hx HP]. constructor; eauto.
Qed.
End StackFacts.

(** X13. What cell 8 needs to complete: a first training sample; no
    more feature names in it than the arrays have channels; and every one
    of its feature names present in every sample of both partitions.
    Each sample then gives one entry of its array. *)
Theorem combine_needs_the_first_sample_names
    (h w c : nat) (st : Imaging.sets)
    (train_data test_data : list (list (list (list Q)))) :
  Imaging.combine h w c st = Py.Ok (train_data, test_data) ->
  exists first,
    head (Imaging.train_features st) = Some first /\
    size (dom first) <= c /\
    (forall d, d ∈ Imaging.train_features st ++ Imaging.test_features st ->
               dom first ⊆ dom d) /\
    length train_data = length (Imaging.train_features st) /\
    length test_data = length (Imaging.test_features st).
Proof.
  unfold Imaging.combine. intros H.
  apply bind_Ok_inv in H as (first & Hfirst & H).
  apply bind_Ok_inv in H as (tr & Htr & H).
  apply bind_Ok_inv in H as (te & Hte & H).
  injection H as <- <-.
  set (names := merge_sort String.le (elements (dom first))) in *.
  destruct (Imaging.train_features st) as [|first' rest] eqn:Htrain; [done |].
  injection Hfirst as ->.
  apply map_result_inv in Htr, Hte.
  assert (Hperm : names ≡ₚ elements (dom first)) by apply merge_sort_Permutation.
  exists first. split; [done |].
  assert (Hkeys : forall d t, Imaging.stack_sample h w c names d = Py.Ok t ->
                  dom first ⊆ dom d /\ length names <= c).
  { intros d t Hrun. apply stack_fold_inv in Hrun as [Hall Hlen].
    split; [| lia]. intros name Hname. apply elem_of_dom.
    rewrite Forall_forall in Hall. apply Hall.
    rewrite Hperm. by apply elem_of_elements. }
  split; [| split; [| split]].
  - inversion Htr as [|? t ? ? Hfirst _]; subst.
    destruct (Hkeys _ _ Hfirst) as [_ Hlen].
    change (size (dom first)) with (length (elements (dom first))).
    by rewrite <- Hperm.
  - intros d Hd. apply elem_of_app in Hd as [Hd | Hd].
    + apply list_elem_of_lookup_1 in Hd as [i Hi].
      destruct (Forall2_lookup_l _ _ _ _ _ Htr Hi) as (t & _ & Hrun).
      by destruct (Hkeys _ _ Hrun).
    + apply list_elem_of_lookup_1 in Hd as [i Hi].
      destruct (Forall2_lookup_l _ _ _ _ _ Hte Hi) as (t & _ & Hrun).
      by destruct (Hkeys _ _ Hrun).
  - symmetry. exact (Forall2_length _ _ _ Htr).
  - symmetry. exact (Forall2_length _ _ _ Hte).
Qed.

Lemma combine_needs_the_first_sample_names_witness :
  exists train_data test_data first,
    Imaging.combine 1 2 2 Scenario.two_sets = Py.Ok (train_data, test_data) /\
    head (Imaging.train_features Scenario.two_sets) = Some first /\
    size (dom first) <= 2 /\
    (forall d, d ∈ Imaging.train_features Scenario.two_sets ++
                   Imaging.test_features Scenario.two_sets ->
               dom first ⊆ dom d) /\
    length train_data = length (Imaging.train_features Scenario.two_sets) /\
    length test_data = length (Imaging.test_features Scenario.two_sets).
Proof.
  assert (Hrun : { out | Imaging.combine 1 2 2 Scenario.two_sets = Py.Ok out }).
  { eexists. vm_compute. reflexivity. }
  destruct Hrun as [[train_data test_data] Hrun].
  destruct (combine_needs_the_first_sample_names 1 2 2 Scenario.two_sets
              train_data test_data Hrun) as (first & H).
  exists train_data, test_data, first. split; [exact Hrun | exact H].
Defined.

(** X14. Whenever cell 8 completes on feature maps that are rectangular
    arrays, every sample of both arrays has the full shape
    [(34, 26, 29)], also where a map smaller than the crop was repeated
    to fill it. *)
Theorem combine_gives_full_shape
    (h w c : nat) (st : Imaging.sets)
    (train_data test_data : list (list (list (list Q)))) :
  Forall (fun d : gmap string (list (list Q)) =>
            forall name m, d !! name = Some m -> exists a b, Np.rect a b m)
         (Imaging.train_features st ++ Imaging.test_features st) ->
  Imaging.combine h w c st = Py.Ok (train_data, test_data) ->
  Forall (Np.shape3 h w c) train_data /\ Forall (Np.shape3 h w c) test_data.
Proof.
  unfold Imaging.combine. intros Hrect H.
  apply bind_Ok_inv in H as (first & _ & H).
  apply bind_Ok_inv in H as (tr & Htr & H).
  apply bind_Ok_inv in H as (te & Hte & H).
  injection H as <- <-.
  set (names := merge_sort String.le (elements (dom first))) in *.
  apply map_result_inv in Htr, Hte.
  apply Forall_app in Hrect as [Hr1 Hr2].
  assert (Hstep : forall (d : gmap string (list (list Q))) t,
            (forall name m, d !! name = Some m -> exists a b, Np.rect a b m) ->
            Imaging.stack_sample h w c names d = Py.Ok t -> Np.shape3 h w c t).
  { intros d t Hd Hrun.
    exact (stack_fold_shape h w c d names 0 _ t Hd (shape3_zeros h w c) Hrun). }
  split.
  - exact (Forall2_Forall_r _ _ _ _ _ Hstep Hr1 Htr).
  - exact (Forall2_Forall_r _ _ _ _ _ Hstep Hr2 Hte).
Qed.

Lemma combine_gives_full_shape_witness :
  exists train_data test_data,
    Imaging.combine 1 2 2 Scenario.two_sets = Py.Ok (train_data, test_data) /\
    Forall (Np.shape3 1 2 2) train_data /\ Forall (Np.shape3 1 2 2) test_data.
Proof.
  assert (Hrun : { out | Imaging.combine 1 2 2 Scenario.two_sets = Py.Ok out }).
  { eexists. vm_compute. reflexivity. }
  destruct Hrun as [[train_data test_data] Hrun].
  exists train_data, test_data. split; [exact Hrun |].
  apply (combine_gives_full_shape 1 2 2 Scenario.two_sets train_data test_data);
    [| exact Hrun].
  assert (Hall : Forall (fun d : gmap string (list (list Q)) =>
                    map_Forall (fun _ m => Forall (fun r : list Q => length r = Np.cols m) m) d)
                 (Imaging.train_features Scenario.two_sets ++
                  Imaging.test_features Scenario.two_sets)).
  { refine (bool_decide_unpack _ _). vm_compute. exact I. }
  eapply Forall_impl; [exact Hall |].
  intros d Hd name m Hm. exists (length m), (Np.cols m). split; [done |].
  exact (Hd name m Hm).
Defined.

(** X15. A sample contributes to its tensor only through the feature
    maps filed under the ordered names: two dictionaries that agree on
    those names give the same tensor or the same error, so a feature
    that the first training sample lacks is left out without notice. *)
Theorem stack_sample_reads_ordered_names_only
    (h w c : nat) (ordered : list string) (d1 d2 : gmap string (list (list Q))) :
  (forall name, name ∈ ordered -> d1 !! name = d2 !! name) ->
  Imaging.stack_sample h w c ordered d1 = Imaging.stack_sample h w c ordered d2.
Proof.
  intros Hagree. unfold Imaging.stack_sample.
  apply fold_result_ext. intros t [k name] Hin.
  unfold Imaging.stack_feature. simpl.
  rewrite (Hagree name); [done |].
  apply elem_of_zip_r in Hin. exact Hin.
Qed.

Lemma stack_sample_reads_ordered_names_only_witness :
  Imaging.stack_sample 1 2 2 ["norm_box"] {[ "norm_box" := [[7; 8]%Q] ]}
  = Imaging.stack_sample 1 2 2 ["norm_box"]
      (<["norm_edge" := [[1; 2]%Q]]> {[ "norm_box" := [[7; 8]%Q] ]}).
Proof.
  apply (stack_sample_reads_ordered_names_only 1 2 2 ["norm_box"]).
  intros name Hname. apply list_elem_of_singleton in Hname as ->.
  vm_compute. reflexivity.
Defined.

Section NormalizeRunFacts.
Import Py Np Normalize.


Lemma cross_sample_length train_data test_data train_mid test_mid :
  cross_sample train_data test_data = Ok (train_mid, test_mid) ->
  length train_mid = length train_data /\ length test_mid = length test_data.
Proof.
  unfold cross_sample.
  destruct (max_axis0 (np_abs (train_data ++ test_data))); [| done].
  simpl. intros [= <- <-]. by rewrite !length_map.
Qed.


Lemma channel_no_pixels (t : list (list (list Q))) k :
  Forall (fun row => row = []) t ->
  channel k t = Ok (map (fun _ => []) t).
Proof.
  unfold channel. induction 1 as [|row t -> _ IH]; [done |].
  simpl in *. by rewrite IH.
Qed.

Lemma normalize_sample_no_pixels h w c (t : list (list (list Q))) :
  h = 0 \/ w = 0 -> 0 < c -> shape3 h w c t ->
  normalize_sample c t
    = Raise (ValueError "zero-size array to reduction operation maximum").
Proof.
  intros Hzero Hc [Hlen Hrows].
  assert (Hnil : Forall (fun row => row = []) t).
  { destruct Hzero as [-> | ->].
    - apply length_zero_iff_nil in Hlen as ->. constructor.
    - eapply Forall_impl; [exact Hrows |]. intros row [Hrow _].
      by apply length_zero_iff_nil. }
  destruct c as [|c]; [lia |].
  unfold normalize_sample. simpl. unfold normalize_channel at 1.
  rewrite (channel_no_pixels t 0 Hnil). simpl. unfold max_all.
  replace (concat (map (map Qabs) (map (fun _ : list (list Q) => []) t)))
    with (@nil Q); [done |].
  clear. induction t as [|row t IH]; [done | exact IH].
Qed.
End NormalizeRunFacts.



(** X17. The normalisation needs something to take a maximum of: with
    no sample at all, or with samples that have channels but no pixels,
    it stops with the [ValueError] of a maximum over an empty array. *)
Theorem normalize_without_pixels_raises
    (h w c : nat) (train_data test_data : list (list (list (list Q)))) :
  h = 0 \/ w = 0 -> 0 < c ->
  Forall (Np.shape3 h w c) (train_data ++ test_data) ->
  Normalize.normalize c train_data test_data
    = Py.Raise (Py.ValueError "zero-size array to reduction operation maximum").
Proof.
  intros Hzero Hc Hshape.
  destruct (decide (train_data ++ test_data = [])) as [Heq | Hne].
  { unfold Normalize.normalize, Normalize.cross_sample. by rewrite Heq. }
  destruct (cross_sample_spec h w c _ _ Hshape Hne)
    as (train_mid & test_mid & Hcross & Htm & Hsm & _).
  destruct (cross_sample_length _ _ _ _ Hcross) as [Hl1 Hl2].
  unfold Normalize.normalize. rewrite Hcross. simpl.
  destruct train_mid as [|t train_mid].
  - destruct test_mid as [|t test_mid].
    + destruct train_data, test_data; simpl in *; done.
    + apply Forall_cons in Hsm as [Ht _]. simpl Py.bind at 1.
      unfold Normalize.within_sample. simpl.
      by rewrite (normalize_sample_no_pixels h w c t Hzero Hc Ht).
  - apply Forall_cons in Htm as [Ht _].
    unfold Normalize.within_sample. simpl.
    by rewrite (normalize_sample_no_pixels h w c t Hzero Hc Ht).
Qed.

Lemma normalize_without_pixels_raises_witness :
  Normalize.normalize_nb [replicate 34 []] []
    = Py.Raise (Py.ValueError "zero-size array to reduction operation maximum").
Proof.
  apply (normalize_without_pixels_raises 34 0 Imaging.feature_count
           [replicate 34 []] []).
  - right. reflexivity.
  - unfold Imaging.feature_count. lia.
  - repeat constructor.
Defined.

Section CensusFacts.
Import Py Census.
Variable int : string -> option Z.
Variable patient_id_to_case : gmap Z Z.

Local Abbreviation count := (count_cases int patient_id_to_case).
Local Abbreviation status := (case_status int patient_id_to_case).

Lemma foldl_add_shift (s : Z) (ss : list Z) :
  foldl Z.add s ss = (s + foldl Z.add 0 ss)%Z.
Proof.
  revert s. induction ss as [|x ss IH]; intros s; simpl; [lia |].
  rewrite (IH (s + x)%Z), (IH (0 + x)%Z). lia.
Qed.

Lemma count_cases_cons (p : string) (l : list string) (n : Z) :
  count (p :: l) = Ok n <->
  exists s m, status p = Ok s /\ count l = Ok m /\ n = (s + m)%Z.
Proof.
  unfold count_cases. simpl.
  destruct (status p) as [s|]; simpl.
  - destruct (Np.map_result status l) as [ss|]; simpl.
    + rewrite (foldl_add_shift (0 + s)). split.
      * intros [= <-]. exists s, (foldl Z.add 0%Z ss). repeat split; lia.
      * intros (s' & m & [= <-] & [= <-] & ->). f_equal; lia.
    + split; [done |]. by intros (? & ? & _ & ? & _).
  - split; [done |]. by intros (? & ? & ? & _).
Qed.

Lemma count_cases_app (l1 l2 : list string) (n : Z) :
  count (l1 ++ l2) = Ok n ->
  exists a b, count l1 = Ok a /\ count l2 = Ok b /\ (a + b = n)%Z.
Proof.
  revert n. induction l1 as [|p l1 IH]; intros n H; simpl in H.
  - exists 0%Z, n. by repeat split.
  - apply count_cases_cons in H as (s & m & Hs & Hm & ->).
    destruct (IH _ Hm) as (a & b & Ha & Hb & <-).
    exists (s + a)%Z, b. split; [| split; [done | lia]].
    apply count_cases_cons. by exists s, a.
Qed.

Lemma count_cases_Permutation (l l' : list string) :
  l ≡ₚ l' -> forall n, count l = Ok n -> count l' = Ok n.
Proof.
  induction 1 as [|p l l' _ IH|p q l|l l' l'' _ IH1 _ IH2]; intros n H.
  - done.
  - apply count_cases_cons in H as (s & m & Hs & Hm & ->).
    apply count_cases_cons. exists s, m. auto.
  - apply count_cases_cons in H as (s & m & Hs & Hm & ->).
    apply count_cases_cons in Hm as (s' & m' & Hs' & Hm' & ->).
    apply count_cases_cons. exists s', (s + m')%Z. split; [done |].
    split; [| lia]. apply count_cases_cons. by exists s, m'.
  - auto.
Qed.

Lemma record_lines_cons (p : string) (l : list string) (lines : string) :
  record_lines int patient_id_to_case (p :: l) = Ok lines ->
  exists s rest,
    status p = Ok s /\ record_lines int patient_id_to_case l = Ok rest /\
    lines = p +:+ "," +:+ pretty s +:+ String "010"%char rest.
Proof.
  simpl. destruct (status p) as [s|]; [| done]. simpl.
  destruct (record_lines int patient_id_to_case l) as [rest|]; [| done].
  simpl. intros [= <-]. by exists s, rest.
Qed.
End CensusFacts.

Section RecordFacts.
Import Census.

Lemma app_cons_comma (p r : string) : p +:+ "," +:+ r <> "".
Proof. by destruct p. Qed.

Lemma split_at_comma (p1 p2 r1 r2 : string) :
  has_comma p1 = false -> has_comma p2 = false ->
  p1 +:+ "," +:+ r1 = p2 +:+ "," +:+ r2 -> p1 = p2 /\ r1 = r2.
Proof.
  revert p2. induction p1 as [|c p1 IH]; intros [|c2 p2] H1 H2 Heq.
  - by injection Heq.
  - exfalso. injection Heq as <- _. simpl in H2. done.
  - exfalso. injection Heq as -> _. simpl in H1. done.
  - injection Heq as -> Heq. simpl in H1, H2.
    apply orb_false_iff in H1 as [_ H1]. apply orb_false_iff in H2 as [_ H2].
    destruct (IH _ H1 H2 Heq) as [-> ->]. done.
Qed.

Lemma app_inv_head_string (p r1 r2 : string) : p +:+ r1 = p +:+ r2 -> r1 = r2.
Proof. induction p as [|c p IH]; [done |]. intros [= H]. by apply IH. Qed.
End RecordFacts.

(** X18. The split neither loses nor duplicates a label: when every
    patient has one, the case counts of the two partitions that cell 5
    prints add up to the case count of the whole patient list. *)
Theorem split_conserves_case_count
    (rng_state : Type) (seed : Z -> rng_state)
    (permutation : rng_state -> nat -> list nat * rng_state) (st : rng_state)
    (int : string -> option Z) (patient_id_to_case : gmap Z Z)
    (patients_list : list string) (n : Z) :
  fst (permutation (seed Split.split_seed) (length patients_list))
    ≡ₚ seq 0 (length patients_list) ->
  NoDup patients_list ->
  Split.train_size <= length patients_list ->
  Census.count_cases int patient_id_to_case patients_list = Py.Ok n ->
  exists training testing num_training_cases num_testing_cases,
    fst (Split.split_patients seed permutation st patients_list)
      = Py.Ok (training, testing) /\
    Census.count_cases int patient_id_to_case training = Py.Ok num_training_cases /\
    Census.count_cases int patient_id_to_case testing = Py.Ok num_testing_cases /\
    (num_training_cases + num_testing_cases = n)%Z.
Proof.
  intros Hperm Hnodup Hsize Hcount.
  destruct (split_patients_ok rng_state seed permutation st patients_list Hperm Hsize)
    as (training & Hsplit & Hpick).
  assert (Hidx : NoDup (take Split.train_size
                          (fst (permutation (seed Split.split_seed)
                                  (length patients_list))))).
  { eapply sublist_NoDup; [| apply sublist_take]. rewrite Hperm. apply NoDup_seq. }
  pose proof (picked_NoDup _ _ _ Hnodup Hidx Hpick) as Htr.
  pose proof (remaining_partition patients_list training Hnodup Htr
                (picked_subset _ _ _ Hpick)) as Hpart.
  symmetry in Hpart.
  pose proof (count_cases_Permutation int patient_id_to_case _ _ Hpart n Hcount) as Hall.
  apply count_cases_app in Hall as (a & b & Ha & Hb & Hab).
  by exists training, (filter (fun patient => patient ∉ training) patients_list), a, b.
Qed.

Lemma split_conserves_case_count_witness :
  exists training testing num_training_cases num_testing_cases,
    fst (Split.split_patients Scenario.toy_seed Scenario.toy_permutation 5
           (Imaging.patients_list (Scenario.data_folder 460)))
      = Py.Ok (training, testing) /\
    Census.count_cases Scenario.decimal (Scenario.case_table 460) training
      = Py.Ok num_training_cases /\
    Census.count_cases Scenario.decimal (Scenario.case_table 460) testing
      = Py.Ok num_testing_cases /\
    (num_training_cases + num_testing_cases = 92)%Z.
Proof.
  apply (split_conserves_case_count nat Scenario.toy_seed Scenario.toy_permutation 5
           Scenario.decimal (Scenario.case_table 460)
           (Imaging.patients_list (Scenario.data_folder 460)) 92).
  - apply toy_permutation_spec.
  - apply (bool_decide_unpack (NoDup (Imaging.patients_list (Scenario.data_folder 460)))).
    vm_compute. exact I.
  - vm_compute. lia.
  - vm_compute. reflexivity.
Defined.

(** X19. A partition record can be read back: two patient lists with
    comma-free names that give the same file content under the same
    label table are the same list, in the same order. *)
Theorem partition_record_determines_patients
    (int : string -> option Z) (patient_id_to_case : gmap Z Z)
    (patients1 patients2 : list string) (content : string) :
  Forall (fun patient_id => Census.has_comma patient_id = false) patients1 ->
  Forall (fun patient_id => Census.has_comma patient_id = false) patients2 ->
  Census.partition_record int patient_id_to_case patients1 = Py.Ok content ->
  Census.partition_record int patient_id_to_case patients2 = Py.Ok content ->
  patients1 = patients2.
Proof.
  intros H1 H2 Hr1 Hr2. unfold Census.partition_record in *.
  apply bind_Ok_inv in Hr1 as (lines1 & Hl1 & [= <-]).
  apply bind_Ok_inv in Hr2 as (lines2 & Hl2 & [= ->]).
  revert patients2 lines1 H2 Hl1 Hl2.
  induction H1 as [|p1 l1 Hp1 _ IH]; intros [|p2 l2] lines H2 Hl1 Hl2.
  - done.
  - exfalso. injection Hl1 as <-.
    apply record_lines_cons in Hl2 as (s & rest & _ & _ & Heq).
    symmetry in Heq. by apply app_cons_comma in Heq.
  - exfalso. injection Hl2 as <-.
    apply record_lines_cons in Hl1 as (s & rest & _ & _ & Heq).
    symmetry in Heq. by apply app_cons_comma in Heq.
  - apply Forall_cons in H2 as [Hp2 H2].
    apply record_lines_cons in Hl1 as (s1 & rest1 & Hs1 & Hrest1 & ->).
    apply record_lines_cons in Hl2 as (s2 & rest2 & Hs2 & Hrest2 & Heq).
    apply split_at_comma in Heq as [-> Heq]; [| done | done].
    rewrite Hs1 in Hs2. injection Hs2 as <-.
    apply app_inv_head_string in Heq. injection Heq as <-.
    f_equal. by apply (IH l2 rest1).
Qed.

Lemma partition_record_determines_patients_witness :
  ["2036312"; "2036311"] = ["2036312"; "2036311"].
Proof.
  apply (partition_record_determines_patients Scenario.decimal Scenario.labels
           ["2036312"; "2036311"] ["2036312"; "2036311"]
           ("patient_id,case_status" +:+ String "010"%char
              ("2036312,0" +:+ String "010"%char ("2036311,1" +:+ String "010"%char "")))).
  - repeat constructor.
  - repeat constructor.
  - vm_compute. reflexivity.
  - vm_compute. reflexivity.
Defined.
